(** * GOES IR/VIS/GLM download orchestrator

    A shallow embedding of
    [python/glm_gridder/run_download_goes_ir_vis_l1b_glm_l2_data.py]
    and the properties of its hourly loop, its real-time polling and its
    transfer steps.

    The object-store client ([list_gcs], [download_ncdf_gcs],
    [copy_blob_gcs], [download_gcp_parallel]) and the clock ([utcnow]) are
    external: the client's answers are taken from a [world], every call is
    recorded in an event log. *)

From Stdlib Require Import ZArith List String Ascii Bool Lia DecimalString.
Import ListNotations.

Local Open Scope string_scope.
Local Open Scope Z_scope.

(** ** Python strings and lists *)

Module Py.

(** [str.lower] and [str.upper] on ASCII letters. *)
Definition lower_ascii (c : ascii) : ascii :=
  let n := nat_of_ascii c in
  if andb (Nat.leb 65 n) (Nat.leb n 90) then ascii_of_nat (n + 32) else c.

Definition upper_ascii (c : ascii) : ascii :=
  let n := nat_of_ascii c in
  if andb (Nat.leb 97 n) (Nat.leb n 122) then ascii_of_nat (n - 32) else c.

Fixpoint lower (s : string) : string :=
  match s with
  | EmptyString => EmptyString
  | String c r => String (lower_ascii c) (lower r)
  end.

Fixpoint upper (s : string) : string :=
  match s with
  | EmptyString => EmptyString
  | String c r => String (upper_ascii c) (upper r)
  end.

Definition slash : ascii := "/"%char.

(** [s.startswith('/')], [s.endswith('/')]. *)
Definition starts_with_slash (s : string) : bool :=
  match s with
  | String c _ => Ascii.eqb c slash
  | EmptyString => false
  end.

Fixpoint ends_with_slash (s : string) : bool :=
  match s with
  | EmptyString => false
  | String c EmptyString => Ascii.eqb c slash
  | String _ r => ends_with_slash r
  end.

(** [os.path.join(a, b)] (posixpath, two arguments). *)
Definition path_join (a b : string) : string :=
  if starts_with_slash b then b
  else if orb (String.eqb a "") (ends_with_slash a) then a ++ b
  else a ++ "/" ++ b.

(** [os.path.basename(p)]: what follows the last slash. [acc] holds the
    characters read since the last slash. *)
Fixpoint basename_from (acc p : string) : string :=
  match p with
  | EmptyString => acc
  | String c r =>
      if Ascii.eqb c slash then basename_from "" r
      else basename_from (acc ++ String c "") r
  end.

Definition basename (p : string) : string := basename_from "" p.

(** [re.split('_s|_', s)]: at an underscore the alternative [_s] is tried
    first, then the lone underscore. *)
Fixpoint re_split_from (cur s : string) : list string :=
  match s with
  | EmptyString => [cur]
  | String c r =>
      if Ascii.eqb c "_"%char then
        match r with
        | String c' r' =>
            if Ascii.eqb c' "s"%char then cur :: re_split_from "" r'
            else cur :: re_split_from "" r
        | EmptyString => cur :: re_split_from "" r
        end
      else re_split_from (cur ++ String c "") r
  end.

Definition re_split (s : string) : list string := re_split_from "" s.

(** ['{}'.format(n)] for an int. *)
Definition dec (n : Z) : string := NilZero.string_of_int (Z.to_int n).

Fixpoint zeros (k : nat) : string :=
  match k with
  | O => ""
  | S k' => String "0"%char (zeros k')
  end.

(** ['{:0wd}'.format(n)] for a non-negative int: zero-padded on the left
    to at least [w] characters. *)
Definition fmt0 (w : nat) (n : Z) : string :=
  let s := dec n in zeros (w - String.length s) ++ s.

(** [l[i:]] for any int [i]. *)
Definition slice_from {A} (i : Z) (l : list A) : list A :=
  if i <? 0 then skipn (Z.to_nat (Z.max 0 (Z.of_nat (List.length l) + i))) l
  else skipn (Z.to_nat i) l.

(** [l[:n]] for [n >= 0]. *)
Definition slice_to {A} (n : nat) (l : list A) : list A := firstn n l.

(** [len(l) == 0], [len(l) > 0]. *)
Definition is_empty {A} (l : list A) : bool :=
  match l with [] => true | _ => false end.

End Py.

(** ** Timestamps

    [datetime] values as Python holds them: calendar fields. Python keeps
    years within 1..9999 and raises [OverflowError] when arithmetic leaves
    that range. [strptime] hands the orchestrator valid values only. *)

Record datetime := mkdt {
  year : Z; month : Z; day : Z;
  hour : Z; minute : Z; second : Z; microsecond : Z
}.

Module Cal.

Definition MINYEAR : Z := 1.
Definition MAXYEAR : Z := 9999.

Definition is_leap (y : Z) : bool :=
  andb (y mod 4 =? 0) (orb (negb (y mod 100 =? 0)) (y mod 400 =? 0)).

Definition days_in_month (y m : Z) : Z :=
  if m =? 2 then (if is_leap y then 29 else 28)
  else if orb (orb (m =? 4) (m =? 6)) (orb (m =? 9) (m =? 11)) then 30
  else 31.

(** [_DAYS_BEFORE_MONTH], then the leap day. *)
Definition days_before_month (y m : Z) : Z :=
  (if m =? 1 then 0 else if m =? 2 then 31 else if m =? 3 then 59
   else if m =? 4 then 90 else if m =? 5 then 120 else if m =? 6 then 151
   else if m =? 7 then 181 else if m =? 8 then 212 else if m =? 9 then 243
   else if m =? 10 then 273 else if m =? 11 then 304 else 334)
  + (if andb (2 <? m) (is_leap y) then 1 else 0).

Definition days_before_year (y : Z) : Z :=
  let y1 := y - 1 in y1 * 365 + y1 / 4 - y1 / 100 + y1 / 400.

Definition ymd2ord (y m d : Z) : Z :=
  days_before_year y + days_before_month y m + d.

Definition toordinal (t : datetime) : Z := ymd2ord (year t) (month t) (day t).

(** [t.timetuple().tm_yday]. *)
Definition tm_yday (t : datetime) : Z := days_before_month (year t) (month t) + day t.

Definition valid (t : datetime) : bool :=
  (MINYEAR <=? year t) && (year t <=? MAXYEAR)
  && (1 <=? month t) && (month t <=? 12)
  && (1 <=? day t) && (day t <=? days_in_month (year t) (month t))
  && (0 <=? hour t) && (hour t <? 24)
  && (0 <=? minute t) && (minute t <? 60)
  && (0 <=? second t) && (second t <? 60)
  && (0 <=? microsecond t) && (microsecond t <? 1000000).

(** Microseconds since the start of day 0: the scale on which Python
    adds a [timedelta] and subtracts two timestamps. *)
Definition HOUR_US : Z := 3600000000.
Definition DAY_US : Z := 86400000000.

Definition to_us (t : datetime) : Z :=
  toordinal t * DAY_US + hour t * HOUR_US + minute t * 60000000
  + second t * 1000000 + microsecond t.

(** [(b - a)] as a [timedelta], in microseconds. *)
Definition diff_us (b a : datetime) : Z := to_us b - to_us a.

(** Field-wise comparison, as [datetime.__ge__] does it. *)
Definition lex (c1 c2 : comparison) : comparison :=
  match c1 with Eq => c2 | _ => c1 end.

Definition compare (a b : datetime) : comparison :=
  lex (year a ?= year b) (lex (month a ?= month b) (lex (day a ?= day b)
  (lex (hour a ?= hour b) (lex (minute a ?= minute b)
  (lex (second a ?= second b) (microsecond a ?= microsecond b)))))).

Definition geb (a b : datetime) : bool :=
  match compare a b with Lt => false | _ => true end.

(** The day after and the day before; [None] is [OverflowError]. *)
Definition next_day (t : datetime) : option datetime :=
  if day t <? days_in_month (year t) (month t) then
    Some (mkdt (year t) (month t) (day t + 1) (hour t) (minute t) (second t) (microsecond t))
  else if month t <? 12 then
    Some (mkdt (year t) (month t + 1) 1 (hour t) (minute t) (second t) (microsecond t))
  else if year t <? MAXYEAR then
    Some (mkdt (year t + 1) 1 1 (hour t) (minute t) (second t) (microsecond t))
  else None.

Definition prev_day (t : datetime) : option datetime :=
  if 1 <? day t then
    Some (mkdt (year t) (month t) (day t - 1) (hour t) (minute t) (second t) (microsecond t))
  else if 1 <? month t then
    Some (mkdt (year t) (month t - 1) (days_in_month (year t) (month t - 1))
               (hour t) (minute t) (second t) (microsecond t))
  else if MINYEAR <? year t then
    Some (mkdt (year t - 1) 12 31 (hour t) (minute t) (second t) (microsecond t))
  else None.

Definition set_hour (t : datetime) (h : Z) : datetime :=
  mkdt (year t) (month t) (day t) h (minute t) (second t) (microsecond t).

Definition set_minute (t : datetime) (m : Z) : datetime :=
  mkdt (year t) (month t) (day t) (hour t) m (second t) (microsecond t).

(** [t + timedelta(hours = 1)]. *)
Definition add_hour (t : datetime) : option datetime :=
  if hour t <? 23 then Some (set_hour t (hour t + 1))
  else next_day (set_hour t 0).

(** [t - timedelta(hours = 1)]. *)
Definition sub_hour (t : datetime) : option datetime :=
  if 0 <? hour t then Some (set_hour t (hour t - 1))
  else prev_day (set_hour t 23).

(** [t - timedelta(minutes = n)] for [0 <= n <= 60]. *)
Definition sub_minutes (n : Z) (t : datetime) : option datetime :=
  if n <=? minute t then Some (set_minute t (minute t - n))
  else sub_hour (set_minute t (minute t + 60 - n)).

(** [t.strftime("%Y%m%d")] and [t.strftime("%Y-%m-%d-%H-%M-%S")]. *)
Definition strftime_Ymd (t : datetime) : string :=
  Py.fmt0 4 (year t) ++ Py.fmt0 2 (month t) ++ Py.fmt0 2 (day t).

Definition strftime_full (t : datetime) : string :=
  Py.fmt0 4 (year t) ++ "-" ++ Py.fmt0 2 (month t) ++ "-" ++ Py.fmt0 2 (day t)
  ++ "-" ++ Py.fmt0 2 (hour t) ++ "-" ++ Py.fmt0 2 (minute t)
  ++ "-" ++ Py.fmt0 2 (second t).

End Cal.

(** ** The outside world, the event log and the orchestrator's state *)

Inductive exn :=
| SystemExit
| IndexError
| TypeError
| OverflowError
| UnboundLocalError (var : string).

(** What [download_ncdf_gcs] hands back: the local file path, or its
    failure sentinel, the int [-1] of the test left in the comment of
    line 238. *)
Inductive dl_result :=
| DlPath (path : string)
| DlFail.

Inductive event :=
| EvPrint (msg : string)
| EvList (bucket prefix : string) (patterns : list string)
| EvMakedirs (dir : string)
| EvDownload (bucket blob outdir : string)
| EvCopy (src_bucket blob dst_bucket dst_key : string)
| EvPool (workers : nat)
| EvApplyAsync (row : nat) (blobs : list string) (bucket outdir : string)
| EvPoolClose
| EvPoolJoin.

(** The answers of the outside world. [list_gcs], [download_ncdf_gcs],
    [copy_blob_gcs] and [download_gcp_parallel] are imported from
    [new_model.gcs_processing]; the orchestrator is verified for every
    behaviour of the first two, the last two return nothing it reads and
    are events only. A listing may change from one call to the next, so
    [list_gcs] is indexed by the number of listings made before it,
    [download_ncdf_gcs] by the number of downloads. *)
Record world := mkworld {
  utcnow : datetime;
  list_gcs : nat -> string -> string -> list string -> list string;
  download_ncdf_gcs : nat -> string -> string -> string -> dl_result
}.

(** The keywords of [run_download_goes_ir_vis_l1b_glm_l2_data]. [date1]
    and [date2] are held as [strptime] reads them, [outroot] as
    [os.path.realpath] returns it. *)
Record config := mkconfig {
  date1 : option datetime;
  date2 : option datetime;
  outroot : string;
  sat : string;
  sector : string;
  no_glm : bool;
  no_vis : bool;
  no_ir : bool;
  no_irdiff : bool;
  gcs_bucket : option string;
  del_local : bool;
  verbose : bool
}.

(** The local variables [files], [outfile] and [outdir] are unbound
    ([None]) until their first assignment. *)
Record state := mkstate {
  nlist : nat;
  ndl : nat;
  log : list event;
  files : option (list string);
  outfile : option dl_result;
  outdir : option string
}.

Definition init_state : state := mkstate 0 0 [] None None None.

Inductive outcome (A : Type) :=
| Done (a : A) (s : state)
| Raised (e : exn) (s : state)
| Spinning (s : state).

Arguments Done {A} a s.
Arguments Raised {A} e s.
Arguments Spinning {A} s.

Definition final {A} (o : outcome A) : state :=
  match o with
  | Done _ s => s
  | Raised _ s => s
  | Spinning s => s
  end.

Definition M (A : Type) : Type := state -> outcome A.

Definition ret {A} (a : A) : M A := fun s => Done a s.

Definition bind {A B} (c : M A) (k : A -> M B) : M B :=
  fun s =>
    match c s with
    | Done a s' => k a s'
    | Raised e s' => Raised e s'
    | Spinning s' => Spinning s'
    end.

Notation "x <- c ;; k" := (bind c (fun x => k))
  (at level 61, c at next level, right associativity).
Notation "c ;; k" := (bind c (fun _ => k))
  (at level 61, right associativity).

Definition raise {A} (e : exn) : M A := fun s => Raised e s.

(** A loop that has used up its fuel is still running. *)
Definition spin {A} : M A := fun s => Spinning s.

Definition emit (e : event) : M unit :=
  fun s => Done tt (mkstate (nlist s) (ndl s) (log s ++ [e]) (files s) (outfile s) (outdir s)).

Definition print (msg : string) : M unit := emit (EvPrint msg).

Definition set_files (l : list string) : M unit :=
  fun s => Done tt (mkstate (nlist s) (ndl s) (log s) (Some l) (outfile s) (outdir s)).

Definition set_outfile (r : dl_result) : M unit :=
  fun s => Done tt (mkstate (nlist s) (ndl s) (log s) (files s) (Some r) (outdir s)).

Definition set_outdir (d : string) : M unit :=
  fun s => Done tt (mkstate (nlist s) (ndl s) (log s) (files s) (outfile s) (Some d)).

Definition read_files : M (list string) :=
  fun s => match files s with
           | Some l => Done l s
           | None => Raised (UnboundLocalError "files") s
           end.

Definition read_outfile : M dl_result :=
  fun s => match outfile s with
           | Some r => Done r s
           | None => Raised (UnboundLocalError "outfile") s
           end.

Definition read_outdir : M string :=
  fun s => match outdir s with
           | Some d => Done d s
           | None => Raised (UnboundLocalError "outdir") s
           end.

(** [l[i]] for [i >= 0], and [l[-1]]. *)
Definition item {A} (l : list A) (i : nat) : M A :=
  match nth_error l i with
  | Some a => ret a
  | None => raise IndexError
  end.

Definition last_item {A} (l : list A) : M A :=
  match rev l with
  | a :: _ => ret a
  | [] => raise IndexError
  end.

(** Date arithmetic that leaves the range of [datetime]. *)
Definition in_range (o : option datetime) : M datetime :=
  match o with
  | Some t => ret t
  | None => raise OverflowError
  end.

(** [for i in l: body(i)]. *)
Fixpoint for_each {A} (l : list A) (body : A -> M unit) : M unit :=
  match l with
  | [] => ret tt
  | a :: r => body a ;; for_each r body
  end.

(** ** The orchestrator *)

Section Orchestrator.

Variable w : world.
Variable cfg : config.

(** Bound on the iterations of every loop of one run. *)
Variable fuel : nat.

Definition bucket_name : string := "gcp-public-data-" ++ Py.lower (sat cfg).

Definition glm_prod : string := "GLM-L2-LCFA".

(** [files = list_gcs(bucket_name, prefix, patterns)], before the
    assignment. *)
Definition call_list (prefix : string) (patterns : list string) : M (list string) :=
  fun s =>
    Done (list_gcs w (nlist s) bucket_name prefix patterns)
         (mkstate (S (nlist s)) (ndl s)
                  (log s ++ [EvList bucket_name prefix patterns])
                  (files s) (outfile s) (outdir s)).

(** [download_ncdf_gcs(bucket_name, i, outdir)]. *)
Definition call_download (i od : string) : M dl_result :=
  fun s =>
    Done (download_ncdf_gcs w (ndl s) bucket_name i od)
         (mkstate (nlist s) (S (ndl s))
                  (log s ++ [EvDownload bucket_name i od])
                  (files s) (outfile s) (outdir s)).

(** The real-time wait:
    [while True: files = list_gcs(...); if len(files) > 0: break]. *)
Fixpoint wait_nonempty (n : nat) (prefix : string) (patterns : list string) : M unit :=
  match n with
  | O => spin
  | S n' =>
      l <- call_list prefix patterns ;;
      set_files l ;;
      if Py.is_empty l then wait_nonempty n' prefix patterns else ret tt
  end.

(** ['s{}{:03d}{:02d}'.format(date.year, day_num, date.hour)]. *)
Definition stamp (t : datetime) : string :=
  "s" ++ Py.dec (year t) ++ Py.fmt0 3 (Cal.tm_yday t) ++ Py.fmt0 2 (hour t).

(** ['{}/{}/{:03d}/{:02d}/'.format(prod, date.year, day_num, date.hour)]. *)
Definition hour_prefix (prod : string) (t : datetime) : string :=
  prod ++ "/" ++ Py.dec (year t) ++ "/" ++ Py.fmt0 3 (Cal.tm_yday t)
  ++ "/" ++ Py.fmt0 2 (hour t) ++ "/".

(** [os.path.join(outroot, date.strftime("%Y%m%d"), category)]. *)
Definition category_dir (t : datetime) (category : string) : string :=
  Py.path_join (Py.path_join (outroot cfg) (Cal.strftime_Ymd t)) category.

(** [os.path.join(pref, os.path.basename(i))] with
    [pref = os.path.join(date.strftime("%Y%m%d"), category)]. *)
Definition mirror_key (t : datetime) (category i : string) : string :=
  Py.path_join (Py.path_join (Cal.strftime_Ymd t) category) (Py.basename i).

(** The download of one blob, unless [del_local]. *)
Definition fetch (i : string) : M unit :=
  if negb (del_local cfg) then
    od <- read_outdir ;;
    r <- call_download i od ;;
    set_outfile r
  else ret tt.

(** One turn of the transfer loops of lines 181-186, 206-211, 232-237,
    257-262 and 310-315. *)
Definition transfer (t : datetime) (category i : string) : M unit :=
  fetch i ;;
  match gcs_bucket cfg with
  | Some gb => emit (EvCopy bucket_name i gb (mirror_key t category i))
  | None => ret tt
  end.

(** One turn of the loop of lines 283-288, whose key is
    [pref + os.path.basename(outfile)]. *)
Definition transfer_backfill (t : datetime) (i : string) : M unit :=
  fetch i ;;
  match gcs_bucket cfg with
  | Some gb =>
      let pref := Py.path_join (Cal.strftime_Ymd t) "glm" in
      o <- read_outfile ;;
      match o with
      | DlPath p => emit (EvCopy bucket_name i gb (pref ++ Py.basename p))
      | DlFail => raise TypeError
      end
  | None => ret tt
  end.

Section Hour.

(** Set before the loop: the real-time flag, the scan-sector code, the
    image product and the end of the window. *)
Variable rt : bool.
Variable sector0 : string.
Variable ir_vis_prod : string.
Variable date_end : datetime.

Definition iv_prefix (t : datetime) : string := hour_prefix ir_vis_prod t.
Definition g_prefix (t : datetime) : string := hour_prefix glm_prod t.

(** Lines 176-189, 202-214 and 228-242: the listed image blobs are
    stored under [category], in real time the last one only. *)
Definition store_images (t : datetime) (category notfound : string) : M unit :=
  l <- read_files ;;
  if negb (Py.is_empty l) then
    set_outdir (category_dir t category) ;;
    od <- read_outdir ;;
    emit (EvMakedirs od) ;;
    (if rt then
       l <- read_files ;;
       a <- last_item l ;;
       set_files [a]
     else ret tt) ;;
    l <- read_files ;;
    for_each l (transfer t category)
  else print (notfound ++ Cal.strftime_full t).

(** Lines 168-174: the infrared listing and its real-time wait. *)
Definition ir_listing (t : datetime) : M unit :=
  let patterns := ["C13"; stamp t; sector0] in
  l <- call_list (iv_prefix t) patterns ;;
  set_files l ;;
  l <- read_files ;;
  if Py.is_empty l && rt then
    print "Waiting for IR C13 files to be available online" ;;
    wait_nonempty fuel (iv_prefix t) patterns
  else ret tt.

(** Lines 167-189. *)
Definition ir_block (t : datetime) : M unit :=
  ir_listing t ;;
  store_images t "ir" "No IR files found for ".

(** The batch identifier: [re.split('_s|_', os.path.basename(files[0]))[3]]. *)
Definition batch_id : M string :=
  l <- read_files ;;
  f0 <- item l 0 ;;
  item (Py.re_split (Py.basename f0)) 3.

(** Lines 192-201 and 217-227: the listing of channel [chan], in real
    time after infrared under the batch identifier. Only the wait for
    ['C08'] prints a message. *)
Definition channel_listing (t : datetime) (chan : string)
    (waiting : option string) : M unit :=
  if rt && negb (no_ir cfg) then
    fb <- batch_id ;;
    let patterns := [chan; stamp t; sector0; fb] in
    l <- call_list (iv_prefix t) patterns ;;
    set_files l ;;
    l <- read_files ;;
    if Py.is_empty l then
      match waiting with Some msg => print msg | None => ret tt end ;;
      wait_nonempty fuel (iv_prefix t) patterns
    else ret tt
  else
    l <- call_list (iv_prefix t) [chan; stamp t; sector0] ;;
    set_files l.

(** Lines 191-214 ([chan = 'C02']) and 216-242 ([chan = 'C08']). *)
Definition channel_block (t : datetime) (chan category notfound : string)
    (waiting : option string) : M unit :=
  channel_listing t chan waiting ;;
  store_images t category notfound.

Definition vis_block (t : datetime) : M unit :=
  channel_block t "C02" "vis" "No VIS files found for " None.

Definition irdiff_block (t : datetime) : M unit :=
  channel_block t "C08" "ir_diff" "No 6.2 micron IR files found for "
    (Some "Waiting for IR C08 files to be available online").

(** Lines 250-255: how many of the last lightning blobs are kept. *)
Definition glm_keep (l : list string) : list string :=
  if String.eqb sector0 "F" then Py.slice_from (-30) l
  else if String.eqb sector0 "C" then Py.slice_from (-15) l
  else Py.slice_from (-10) l.

(** Lines 290-299: the worker pool and the mirror of the real-time
    lightning blobs. *)
Definition glm_realtime_transfer (t : datetime) : M unit :=
  (if negb (del_local cfg) then
     emit (EvPool 5) ;;
     l <- read_files ;;
     for_each (seq 0 (List.length l))
       (fun row =>
          l <- read_files ;;
          od <- read_outdir ;;
          emit (EvApplyAsync row l bucket_name od)) ;;
     emit EvPoolClose ;;
     emit EvPoolJoin
   else ret tt) ;;
  match gcs_bucket cfg with
  | Some gb =>
      l <- read_files ;;
      for_each l (fun i => emit (EvCopy bucket_name i gb (mirror_key t "glm" i)))
  | None => ret tt
  end.

(** Lines 245-267: the lightning blobs of the cursor's hour. *)
Definition glm_current (t : datetime) : M unit :=
  l <- call_list (g_prefix t) ["GLM"; stamp t] ;;
  set_files l ;;
  l <- read_files ;;
  if negb (Py.is_empty l) then
    set_outdir (category_dir t "glm") ;;
    od <- read_outdir ;;
    emit (EvMakedirs od) ;;
    if rt then set_files (glm_keep l)
    else for_each l (transfer t "glm")
  else print ("No GLM files found for " ++ Cal.strftime_full t).

(** Lines 268-289: below minute 3, the end of the hour before. *)
Definition glm_backfill (t : datetime) : M unit :=
  let minute := minute t in
  if minute <? 3 then
    date0 <- in_range (Cal.sub_hour t) ;;
    files0 <- call_list (g_prefix date0) ["GLM"; stamp date0] ;;
    if negb (Py.is_empty files0) then
      set_outdir (category_dir t "glm") ;;
      od <- read_outdir ;;
      emit (EvMakedirs od) ;;
      if rt then
        let val := -8 + minute * 3 in
        let files0 := Py.slice_from (- val) files0 in
        l <- read_files ;;
        set_files (l ++ files0)
      else
        set_files (Py.slice_from (-8) files0) ;;
        l <- read_files ;;
        for_each l (transfer_backfill t)
    else ret tt
  else ret tt.

(** Lines 301-316: above minute 55 and outside real time, the start of
    the hour after. *)
Definition glm_lookahead (t : datetime) : M unit :=
  if (55 <? minute t) && negb rt then
    date0 <- in_range (Cal.add_hour t) ;;
    l <- call_list (g_prefix date0) ["GLM"; stamp date0] ;;
    set_files l ;;
    l <- read_files ;;
    if negb (Py.is_empty l) then
      set_outdir (category_dir t "glm") ;;
      od <- read_outdir ;;
      emit (EvMakedirs od) ;;
      set_files (Py.slice_to 8 l) ;;
      l <- read_files ;;
      for_each l (transfer t "glm")
    else ret tt
  else ret tt.

(** Lines 244-316. *)
Definition glm_block (t : datetime) : M unit :=
  glm_current t ;;
  glm_backfill t ;;
  (if rt then glm_realtime_transfer t else ret tt) ;;
  glm_lookahead t.

(** Lines 163-316: the work of one hour. *)
Definition hour_body (t : datetime) : M unit :=
  (if negb (no_ir cfg) then ir_block t else ret tt) ;;
  (if negb (no_vis cfg) then vis_block t else ret tt) ;;
  (if negb (no_irdiff cfg) then irdiff_block t else ret tt) ;;
  (if negb (no_glm cfg) then glm_block t else ret tt).

(** Lines 318-321: the manifest [outroot0] gains the day's directory
    unless its last entry already names that day. *)
Definition manifest_step (outroot0 : list string) (t : datetime) : list string :=
  let entry := Py.path_join (outroot cfg) (Cal.strftime_Ymd t) in
  match rev outroot0 with
  | [] => outroot0 ++ [entry]
  | last :: _ =>
      if negb (String.eqb (Cal.strftime_Ymd t) (Py.basename last))
      then outroot0 ++ [entry]
      else outroot0
  end.

(** Lines 162-322: [while date2 >= date: ...; date = date + 1 hour].
    [visited] is not a variable of the script: it records the cursor at
    every entry of the loop body. *)
Fixpoint hour_loop (n : nat) (date : datetime) (outroot0 : list string)
    (visited : list datetime) : M (list string * list datetime) :=
  match n with
  | O => spin
  | S n' =>
      if Cal.geb date_end date then
        hour_body date ;;
        let outroot0' := manifest_step outroot0 date in
        date' <- in_range (Cal.add_hour date) ;;
        hour_loop n' date' outroot0' (visited ++ [date])
      else ret (outroot0, visited)
  end.

End Hour.

(** Lines 124-136: the image product and the scan-sector code. *)
Definition sector_setup : M (string * string) :=
  c <- item (list_ascii_of_string (sector cfg)) 0 ;;
  let initial := Py.upper (String c "") in
  let ir_vis_prod := "ABI-L1b-Rad" ++ initial in
  if String.eqb (sector cfg) "meso1" then ret (ir_vis_prod, initial ++ "1")
  else if String.eqb (sector cfg) "meso2" then ret (ir_vis_prod, initial ++ "2")
  else if String.eqb (sector cfg) "conus" then ret (ir_vis_prod, "C")
  else if String.eqb (sector cfg) "full" then ret (ir_vis_prod, "F")
  else
    print "Not yet set up to do specified sector" ;;
    print (sector cfg) ;;
    raise SystemExit.

(** Lines 139-157: the window [(date1, date2, rt)]. *)
Definition window_setup (sector0 : string) : M (datetime * datetime * bool) :=
  match date1 cfg with
  | None =>
      let now := utcnow w in
      d1 <- (if String.eqb sector0 "F" || String.eqb sector0 "C" then
               if (minute now <? 10) && String.eqb sector0 "F" then
                 in_range (Cal.sub_minutes 10 now)
               else if (minute now <? 4) && String.eqb sector0 "C" then
                 in_range (Cal.sub_minutes 5 now)
               else ret now
             else ret now) ;;
      ret (d1, d1, true)
  | Some d1 =>
      let d2 := match date2 cfg with Some d2 => d2 | None => d1 end in
      (if verbose cfg then
         print ("Downloading dates : " ++ Cal.strftime_full d1 ++ " - "
                ++ Cal.strftime_full d2)
       else ret tt) ;;
      ret (d1, d2, false)
  end.

(** The whole run, with the cursors the loop went through. *)
Definition run_trace : M (list string * list datetime) :=
  ps <- sector_setup ;;
  let '(ir_vis_prod, sector0) := ps in
  win <- window_setup sector0 ;;
  let '(d1, d2, rt) := win in
  (if verbose cfg then print ("Files downloaded to outroot " ++ outroot cfg)
   else ret tt) ;;
  hour_loop rt sector0 ir_vis_prod d2 fuel d1 [] [].

(** [run_download_goes_ir_vis_l1b_glm_l2_data]: returns [outroot0]. *)
Definition run_download_goes_ir_vis_l1b_glm_l2_data : M (list string) :=
  r <- run_trace ;; ret (fst r).

End Orchestrator.



(** ** Notions used to state the properties *)

(** The first listing, among [n] listings starting at listing number
    [k0], that is not empty. *)
Fixpoint first_nonempty (L : nat -> list string) (n k0 : nat) : option nat :=
  match n with
  | O => None
  | S n' => if Py.is_empty (L k0) then first_nonempty L n' (S k0) else Some k0
  end.

(** What a listing leaves in the log when it came back empty and was
    re-issued [retries] times in real time, and what it leaves when it
    was answered at once. *)
Definition spin_log (ev : event) (waiting : option string) (retries : nat) : list event :=
  ev :: match waiting with Some msg => [EvPrint msg] | None => [] end
     ++ repeat ev retries.

Definition wait_log (ev : event) (waiting : option string) (retries : nat) : list event :=
  match retries with
  | O => [ev]
  | S _ => spin_log ev waiting retries
  end.

(** The days of a list of visits, each at its first visit. *)
Fixpoint first_visits (days : list string) : list string :=
  match days with
  | [] => []
  | d :: r => d :: filter (fun d' => negb (String.eqb d' d)) (first_visits r)
  end.

(** [date], then one hour later, and so on: [hourly c l c'] holds when
    the loop entered at cursor [c] visits [l] and leaves with cursor [c']. *)
Inductive hourly : datetime -> list datetime -> datetime -> Prop :=
| hourly_stop c : hourly c [] c
| hourly_step c c' l c'' :
    Cal.add_hour c = Some c' -> hourly c' l c'' -> hourly c (c :: l) c''.

Fixpoint has_slash (s : string) : bool :=
  match s with
  | EmptyString => false
  | String c r => Ascii.eqb c Py.slash || has_slash r
  end.

(** The int a string of decimal digits stands for. *)
Fixpoint int_of_digits (acc : Z) (s : string) : Z :=
  match s with
  | EmptyString => acc
  | String c r => int_of_digits (acc * 10 + (Z.of_nat (nat_of_ascii c) - 48)) r
  end.

(** A check of [p] on [0 .. k-1]. *)
Definition all_below (k : nat) (p : Z -> bool) : bool :=
  forallb (fun n => p (Z.of_nat n)) (seq 0 k).

(** A field written on [w] characters without a slash, and read back. *)
Definition field_ok (w : nat) (n : Z) : bool :=
  (String.length (Py.fmt0 w n) =? w)%nat
  && negb (has_slash (Py.fmt0 w n))
  && (int_of_digits 0 (Py.fmt0 w n) =? n).

(** The batch identifier of a blob, when its name has four fields. *)
Definition batch_id_of (blob : string) : option string :=
  nth_error (Py.re_split (Py.basename blob)) 3.

(** How many of the last lightning blobs real time keeps, by sector. *)
Definition keep_count (sector : string) : nat :=
  if String.eqb sector "full" then 30
  else if String.eqb sector "conus" then 15
  else 10.

(** The events of lines 290-299 for the selection [sel] stored under
    [dir]: the tasks handed to the pool, then the mirror copies. *)
Definition pool_events (cfg : config) (sel : list string) (dir : string) : list event :=
  if del_local cfg then []
  else EvPool 5
       :: map (fun row => EvApplyAsync row sel (bucket_name cfg) dir)
              (seq 0 (List.length sel))
       ++ [EvPoolClose; EvPoolJoin].

Definition mirror_events (cfg : config) (t : datetime) (sel : list string) : list event :=
  match gcs_bucket cfg with
  | Some gb => map (fun i => EvCopy (bucket_name cfg) i gb (mirror_key t "glm" i)) sel
  | None => []
  end.

(** The events of the listing of the cursor's hour (lines 245-267, real
    time) and of the hour before (lines 268-280). *)
Definition glm_current_events (cfg : config) (t : datetime) (cur : list string) : list event :=
  EvList (bucket_name cfg) (g_prefix t) ["GLM"; stamp t]
  :: (if Py.is_empty cur
      then [EvPrint ("No GLM files found for " ++ Cal.strftime_full t)]
      else [EvMakedirs (category_dir cfg t "glm")]).

Definition glm_backfill_events (cfg : config) (t t0 : datetime) (prev : list string) : list event :=
  EvList (bucket_name cfg) (g_prefix t0) ["GLM"; stamp t0]
  :: (if Py.is_empty prev then [] else [EvMakedirs (category_dir cfg t "glm")]).

(** The leap day of year [y]. *)
Definition leap_day (y : Z) : Z := if Cal.is_leap y then 1 else 0.

(** The number of turns of the hourly loop from cursor [date] to the end
    [d_end] of the window. *)
Definition turns (d_end date : datetime) : Z :=
  if Cal.geb d_end date
  then Cal.diff_us d_end date / Cal.HOUR_US + 1
  else 0.

(** The directory of the day of [t]: the manifest's entry for it. *)
Definition day_dir (cfg : config) (t : datetime) : string :=
  Py.path_join (outroot cfg) (Cal.strftime_Ymd t).

(** What the loop keeps true of the manifest [m] after the visits [pre],
    all before the cursor [date]. *)
Definition manifest_inv (cfg : config) (pre : list datetime) (m : list string)
    (date : datetime) : Prop :=
  m = map (Py.path_join (outroot cfg)) (first_visits (map Cal.strftime_Ymd pre))
  /\ Forall (fun p => Cal.valid p = true /\ Cal.to_us p < Cal.to_us date) pre
  /\ match pre with
     | [] => True
     | _ => exists q m0, In q pre /\ m = (m0 ++ [day_dir cfg q])%list
                         /\ forall p, In p pre -> Cal.to_us p <= Cal.to_us q
     end.

(** What a transfer leaves as it found it. With [del_local] nothing is
    downloaded and [outfile] is never assigned. *)
Definition keeps (cfg : config) (s s' : state) : Prop :=
  nlist s' = nlist s /\ files s' = files s /\ outdir s' = outdir s
  /\ (del_local cfg = true -> outfile s' = outfile s).

(** The backfill transfer of lines 283-288 returns when the mirror is
    off, or when every blob was downloaded. *)
Definition backfill_safe (w : world) (cfg : config) : Prop :=
  gcs_bucket cfg = None
  \/ (del_local cfg = false
      /\ forall k b i od, download_ncdf_gcs w k b i od <> DlFail).

(** The state a wait leaves: after the listing number [k] answered with
    [l], or still waiting after [n] listings. *)
Definition waited (s : state) (k : nat) (events : list event) (l : list string) : state :=
  mkstate (S k) (ndl s) (log s ++ events) (Some l) (outfile s) (outdir s).

Definition waiting_after (s : state) (n : nat) (events : list event) : state :=
  mkstate (nlist s + n) (ndl s) (log s ++ events)
    (match n with O => files s | S _ => Some [] end) (outfile s) (outdir s).

(** The infrared request of lines 168 and 172. *)
Definition ir_patterns (sector0 : string) (t : datetime) : list string :=
  ["C13"; stamp t; sector0].

Definition ir_waiting : option string :=
  Some "Waiting for IR C13 files to be available online".

(** The end of a historical window that starts at [d1]. *)
Definition window_end (cfg : config) (d1 : datetime) : datetime :=
  match date2 cfg with Some d2 => d2 | None => d1 end.

(** The state in which the hourly loop starts: only the messages of
    [verbose] are behind. *)
Definition historical_start (cfg : config) (d1 : datetime) : state :=
  mkstate 0 0
    (if verbose cfg then
       [EvPrint ("Downloading dates : " ++ Cal.strftime_full d1 ++ " - "
                 ++ Cal.strftime_full (window_end cfg d1));
        EvPrint ("Files downloaded to outroot " ++ outroot cfg)]
     else [])
    None None None.

Definition rt_start (cfg : config) : state :=
  mkstate 0 0
    (if verbose cfg then [EvPrint ("Files downloaded to outroot " ++ outroot cfg)]
     else [])
    None None None.

(** The real-time cursor of lines 141-146: the current time, moved back
    for the full disk and for CONUS early in the hour. *)
Definition rt_cursor (now : datetime) (sector0 : string) : option datetime :=
  if (minute now <? 10) && String.eqb sector0 "F" then Cal.sub_minutes 10 now
  else if (minute now <? 4) && String.eqb sector0 "C" then Cal.sub_minutes 5 now
  else Some now.

(** The number of image categories switched on: each makes one listing
    per hour outside real time. *)
Definition n_images (cfg : config) : nat :=
  (if no_ir cfg then 0 else 1) + (if no_vis cfg then 0 else 1)
  + (if no_irdiff cfg then 0 else 1).

(** A listing event. *)
Definition is_listing (e : event) : bool :=
  match e with EvList _ _ _ => true | _ => false end.

(** A sequential download ([download_ncdf_gcs]). *)
Definition is_download (e : event) : bool :=
  match e with EvDownload _ _ _ => true | _ => false end.

(** A task handed to the worker pool. *)
Definition is_pool_task (e : event) : bool :=
  match e with EvApplyAsync _ _ _ _ => true | _ => false end.

(** A listing or a transfer: what the orchestrator asks of the object
    store and of the file system. *)
Definition is_io (e : event) : bool :=
  match e with EvPrint _ => false | _ => true end.

(** The scan sectors the orchestrator is set up for. *)
Definition supported (sec : string) : Prop :=
  sec = "meso1" \/ sec = "meso2" \/ sec = "conus" \/ sec = "full".

(** ** Sample worlds and runs *)

(** A store with three lightning blobs in every hour and one image blob
    per channel; every download succeeds. *)
Definition sample_world : world :=
  mkworld (mkdt 2020 6 1 12 1 30 0)
    (fun _ _ prefix patterns =>
       match patterns with
       | "GLM" :: _ =>
           [prefix ++ "OR_GLM-L2-LCFA_G16_s1.nc"; prefix ++ "OR_GLM-L2-LCFA_G16_s2.nc";
            prefix ++ "OR_GLM-L2-LCFA_G16_s3.nc"]
       | chan :: _ =>
           [prefix ++ "OR_ABI-L1b-RadM2-M6" ++ chan
            ++ "_G16_s20201531200249_e20201531200306_c20201531200341.nc"]
       | [] => []
       end)
    (fun _ _ blob od => DlPath (Py.path_join od (Py.basename blob))).

(** A historical window of three hourly visits over midnight. *)
Definition sample_window : config :=
  mkconfig (Some (mkdt 2020 6 1 22 30 0 0)) (Some (mkdt 2020 6 2 1 10 0 0))
    "/data" "goes-16" "conus" false false false true None false true.

(** A step that leaves [outfile] as it found it, however it ends. *)
Definition keeps_outfile {A} (c : M A) : Prop :=
  forall s, outfile (final (c s)) = outfile s.

(** A mirror bucket with [del_local]: a run of one hour at 00:00:00. *)
Definition sample_mirror_only : config :=
  mkconfig (Some (mkdt 2020 6 1 0 0 0 0)) None
    "/data" "goes-16" "conus" false false false true (Some "mirror") true true.

(** A mirror bucket beside the local copies, same hour. *)
Definition sample_mirror : config :=
  mkconfig (Some (mkdt 2020 6 1 0 0 0 0)) None
    "/data" "goes-16" "conus" false false false true (Some "mirror") false true.

(** Real time over a meso sector, all four categories on. *)
Definition sample_realtime : config :=
  mkconfig None None "/data" "goes-16" "meso2" false false false false
    (Some "mirror") false true.

(** A store where the infrared listing is empty twice and the listing of
    the visible channel under the batch identifier is empty once. *)
Definition slow_world : world :=
  mkworld (mkdt 2020 6 1 12 30 0 0)
    (fun k _ prefix patterns =>
       match patterns with
       | "GLM" :: _ => [prefix ++ "OR_GLM-L2-LCFA_G16_s1.nc"]
       | "C13" :: _ =>
           if (k <? 2)%nat then []
           else [prefix ++ "OR_ABI-L1b-RadM2-M6C13_G16_s20201531230249_e20201531230306_c20201531230341.nc"]
       | chan :: _ =>
           if (k <? 4)%nat then []
           else [prefix ++ "OR_ABI-L1b-RadM2-M6" ++ chan
                 ++ "_G16_s20201531230249_e20201531230306_c20201531230341.nc"]
       | [] => []
       end)
    (fun _ _ blob od => DlPath (Py.path_join od (Py.basename blob))).

(** A store where the visible blob listed under the infrared batch
    identifier [20201531230249] carries it as the end of its scan, and
    starts at [20201531230000]. *)
Definition skewed_world : world :=
  mkworld (mkdt 2020 6 1 12 30 0 0)
    (fun _ _ prefix patterns =>
       match patterns with
       | "GLM" :: _ => [prefix ++ "OR_GLM-L2-LCFA_G16_s1.nc"]
       | "C13" :: _ =>
           [prefix ++ "OR_ABI-L1b-RadM2-M6C13_G16_s20201531230249_e20201531230306_c20201531230341.nc"]
       | "C02" :: _ =>
           [prefix ++ "OR_ABI-L1b-RadM2-M6C02_G16_s20201531230000_e20201531230249_c20201531230341.nc"]
       | _ => []
       end)
    (fun _ _ blob od => DlPath (Py.path_join od (Py.basename blob))).

(** The requests of the listings of a log, in order. *)
Definition listing_patterns (l : list event) : list (list string) :=
  flat_map (fun e => match e with EvList _ _ p => [p] | _ => [] end) l.

(** The keys of the mirror copies of a log, in order. *)
Definition mirror_keys (l : list event) : list string :=
  flat_map (fun e => match e with EvCopy _ _ _ key => [key] | _ => [] end) l.

(** The state of [slow_world]'s run after the infrared step, and of
    [skewed_world]'s run after the visible step: only what the next step
    reads. *)
Definition after_infrared : state :=
  mkstate 3 0 []
    (Some ["ABI-L1b-RadM/2020/153/12/OR_ABI-L1b-RadM2-M6C13_G16_s20201531230249_e20201531230306_c20201531230341.nc"])
    None None.

Definition after_visible : state :=
  mkstate 2 0 []
    (Some ["ABI-L1b-RadM/2020/153/12/OR_ABI-L1b-RadM2-M6C02_G16_s20201531230000_e20201531230249_c20201531230341.nc"])
    None None.

(** Real time over the full disk, lightning only. *)
Definition sample_full_disk : config :=
  mkconfig None None "/data" "goes-16" "full" false true true true
    None false true.

(** The real-time clock at two minutes past the hour. *)
Definition early_world : world :=
  mkworld (mkdt 2020 6 1 12 2 30 0) (list_gcs sample_world)
    (download_ncdf_gcs sample_world).

(** ** The transfers of an hour outside real time *)

(** What one turn of a transfer loop asks for blob [i] stored under
    [dir]: the download unless [del_local], then the mirror copy when a
    bucket is given. *)
Definition transfer_events (cfg : config) (t : datetime) (category dir i : string)
    : list event :=
  (if del_local cfg then [] else [EvDownload (bucket_name cfg) i dir])
  ++ match gcs_bucket cfg with
     | Some gb => [EvCopy (bucket_name cfg) i gb (mirror_key t category i)]
     | None => []
     end.

(** What lines 176-189 leave in the log for the listing [l] outside real
    time: the message of an empty listing, or the directory and one
    transfer per blob. *)
Definition stored_events (cfg : config) (t : datetime) (category notfound : string)
    (l : list string) : list event :=
  if Py.is_empty l then [EvPrint (notfound ++ Cal.strftime_full t)]
  else EvMakedirs (category_dir cfg t category)
       :: flat_map (transfer_events cfg t category (category_dir cfg t category)) l.

(** The downloads a transfer loop adds to the count. *)
Definition downloads (cfg : config) (l : list string) : nat :=
  if del_local cfg then 0 else List.length l.

(** One hour on New Year's Eve, four minutes before midnight, and one
    hour one minute into the first of March of a leap year. *)
Definition sample_late : config :=
  mkconfig (Some (mkdt 2020 12 31 23 56 0 0)) None
    "/data" "goes-16" "meso1" false false false true None false true.

Definition sample_early : config :=
  mkconfig (Some (mkdt 2020 3 1 0 1 0 0)) None
    "/data" "goes-16" "meso1" false false false true None false true.

(** ** What a run may ask of the store and of the file system *)

(** The categories switched on. *)
Definition category_on (cfg : config) (category : string) : Prop :=
  (category = "ir" /\ no_ir cfg = false)
  \/ (category = "vis" /\ no_vis cfg = false)
  \/ (category = "ir_diff" /\ no_irdiff cfg = false)
  \/ (category = "glm" /\ no_glm cfg = false).

(** What follows the scan-sector code in the request of a channel: the
    batch identifier in real time after infrared, nothing otherwise. *)
Definition correlated (cfg : config) (rt : bool) (rest : list string) : Prop :=
  if rt && negb (no_ir cfg) then exists fb, rest = [fb] else rest = [].

(** The listing requests of the hour of cursor [t], by category: the
    prefix and the patterns handed to [list_gcs]. *)
Inductive request (cfg : config) (rt : bool) (c p : string) (t : datetime)
    : string -> string -> list string -> Prop :=
| request_ir :
    no_ir cfg = false ->
    request cfg rt c p t "ir" (iv_prefix p t) ["C13"; stamp t; c]
| request_vis rest :
    no_vis cfg = false -> correlated cfg rt rest ->
    request cfg rt c p t "vis" (iv_prefix p t) ("C02" :: stamp t :: c :: rest)
| request_irdiff rest :
    no_irdiff cfg = false -> correlated cfg rt rest ->
    request cfg rt c p t "ir_diff" (iv_prefix p t) ("C08" :: stamp t :: c :: rest)
| request_glm :
    no_glm cfg = false ->
    request cfg rt c p t "glm" (g_prefix t) ["GLM"; stamp t]
| request_glm_before t0 :
    no_glm cfg = false -> minute t < 3 -> Cal.sub_hour t = Some t0 ->
    request cfg rt c p t "glm" (g_prefix t0) ["GLM"; stamp t0]
| request_glm_after t1 :
    no_glm cfg = false -> 55 < minute t -> rt = false -> Cal.add_hour t = Some t1 ->
    request cfg rt c p t "glm" (g_prefix t1) ["GLM"; stamp t1].

(** The events of the hour of cursor [t]. *)
Inductive hour_event (cfg : config) (rt : bool) (c p : string) (t : datetime)
    : event -> Prop :=
| hour_print msg : hour_event cfg rt c p t (EvPrint msg)
| hour_list category prefix patterns :
    request cfg rt c p t category prefix patterns ->
    hour_event cfg rt c p t (EvList (bucket_name cfg) prefix patterns)
| hour_makedirs category :
    category_on cfg category ->
    hour_event cfg rt c p t (EvMakedirs (category_dir cfg t category))
| hour_download category i :
    category_on cfg category -> del_local cfg = false ->
    (rt = true -> category <> "glm") ->
    hour_event cfg rt c p t
      (EvDownload (bucket_name cfg) i (category_dir cfg t category))
| hour_copy category i gb :
    category_on cfg category -> gcs_bucket cfg = Some gb ->
    hour_event cfg rt c p t
      (EvCopy (bucket_name cfg) i gb (mirror_key t category i))
| hour_copy_backfill i gb path :
    no_glm cfg = false -> gcs_bucket cfg = Some gb ->
    rt = false -> minute t < 3 ->
    hour_event cfg rt c p t
      (EvCopy (bucket_name cfg) i gb
         (Py.path_join (Cal.strftime_Ymd t) "glm" ++ Py.basename path))
| hour_pool :
    rt = true -> del_local cfg = false -> no_glm cfg = false ->
    hour_event cfg rt c p t (EvPool 5)
| hour_task row l :
    rt = true -> del_local cfg = false -> no_glm cfg = false ->
    (row < List.length l)%nat ->
    hour_event cfg rt c p t
      (EvApplyAsync row l (bucket_name cfg) (category_dir cfg t "glm"))
| hour_pool_close :
    rt = true -> del_local cfg = false -> no_glm cfg = false ->
    hour_event cfg rt c p t EvPoolClose
| hour_pool_join :
    rt = true -> del_local cfg = false -> no_glm cfg = false ->
    hour_event cfg rt c p t EvPoolJoin.

(** The number of listings of a log. *)
Definition n_listings (l : list event) : nat := List.length (filter is_listing l).

(** The blobs the store answered to the listings of a log, the first of
    which is listing number [k]. *)
Fixpoint answers (w : world) (k : nat) (l : list event) : list string :=
  match l with
  | [] => []
  | EvList b prefix patterns :: r => list_gcs w k b prefix patterns ++ answers w (S k) r
  | _ :: r => answers w k r
  end.

(** The blobs an event asks to transfer: one for a download or a copy,
    the whole of [files] for a task of the pool. *)
Definition transferred (e : event) : list string :=
  match e with
  | EvDownload _ i _ => [i]
  | EvCopy _ i _ _ => [i]
  | EvApplyAsync _ l _ _ => l
  | _ => []
  end.

(** What a step adds to the log: events that satisfy [P], as many
    listings as [nlist] counts, and transfers of blobs the store
    answered to these listings. *)
Definition log_step (w : world) (P : event -> Prop) (s s' : state) : Prop :=
  exists added,
    log s' = (log s ++ added)%list
    /\ Forall P added
    /\ nlist s' = (nlist s + n_listings added)%nat
    /\ incl (flat_map transferred added) (answers w (nlist s) added).

(** A step of the hour of cursor [t]. *)
Definition hour_step (w : world) (cfg : config) (rt : bool) (c p : string)
    (t : datetime) : state -> state -> Prop :=
  log_step w (hour_event cfg rt c p t).

(** A step of the hourly loop over the cursors that satisfy [K]. *)
Definition window_event (cfg : config) (rt : bool) (c p : string)
    (K : datetime -> Prop) (e : event) : Prop :=
  exists t, K t /\ hour_event cfg rt c p t e.

(** Whether a run is in real time: no start date was given. *)
Definition is_rt (cfg : config) : bool :=
  match date1 cfg with None => true | Some _ => false end.

(** The cursor [n] hours after [d]. *)
Fixpoint hours_after (n : nat) (d : datetime) : option datetime :=
  match n with
  | O => Some d
  | S n' => match Cal.add_hour d with
            | Some d' => hours_after n' d'
            | None => None
            end
  end.

(** A step that is in relation [R] with the state it starts from,
    however it ends. *)
Definition within (R : state -> state -> Prop) {A} (c : M A) : Prop :=
  forall s, R s (final (c s)).

(** The selection of lines 180, 205 and 231: in real time the last blob
    of the listing. *)
Definition image_keep (rt : bool) (l : list string) : list string :=
  if rt then firstn 1 (rev l) else l.

(** The window of a run: its first cursor and its end. *)
Definition window (w : world) (cfg : config) (c : string)
    : option (datetime * datetime) :=
  match date1 cfg with
  | Some d1 => Some (d1, window_end cfg d1)
  | None => match rt_cursor (utcnow w) c with
            | Some d => Some (d, d)
            | None => None
            end
  end.

(** The events of a run: messages, and the events of the hours of its
    cursors, each a number of hours after the start of the window and
    not after its end. *)
Definition run_event (w : world) (cfg : config) (e : event) : Prop :=
  is_io e = false
  \/ exists p c d1 d2 t k,
       sector_setup cfg init_state = Done (p, c) init_state
       /\ window w cfg c = Some (d1, d2)
       /\ hours_after k d1 = Some t /\ Cal.geb d2 t = true
       /\ hour_event cfg (is_rt cfg) c p t e.

(** A mirror copy ([copy_blob_gcs]). *)
Definition is_copy (e : event) : bool :=
  match e with EvCopy _ _ _ _ => true | _ => false end.

(** A download to the local disk, sequential or through the pool. *)
Definition is_fetch (e : event) : bool :=
  match e with
  | EvDownload _ _ _ | EvPool _ | EvApplyAsync _ _ _ _ | EvPoolClose | EvPoolJoin => true
  | _ => false
  end.

(** The local directory an event creates or writes into. *)
Definition event_dir (e : event) : option string :=
  match e with
  | EvMakedirs d => Some d
  | EvDownload _ _ d => Some d
  | EvApplyAsync _ _ _ d => Some d
  | _ => None
  end.

(** The channels of the categories switched on, as the first pattern of
    a listing names them. *)
Definition channel_on (cfg : config) (chan : string) : Prop :=
  (chan = "C13" /\ no_ir cfg = false)
  \/ (chan = "C02" /\ no_vis cfg = false)
  \/ (chan = "C08" /\ no_irdiff cfg = false)
  \/ (chan = "GLM" /\ no_glm cfg = false).

(** The buckets an event names: the source of a listing, of a download
    and of a task of the pool is the public bucket of the satellite; a
    copy goes from it to the mirror bucket of the configuration. *)
Definition on_buckets (cfg : config) (e : event) : Prop :=
  match e with
  | EvList b _ _ => b = bucket_name cfg
  | EvDownload b _ _ => b = bucket_name cfg
  | EvApplyAsync _ _ b _ => b = bucket_name cfg
  | EvCopy b _ gb _ => b = bucket_name cfg /\ gcs_bucket cfg = Some gb
  | _ => True
  end.

(** An event of a category switched on. *)
Definition on_category (cfg : config) (e : event) : Prop :=
  match e with
  | EvList _ _ patterns => exists chan rest, patterns = chan :: rest /\ channel_on cfg chan
  | EvMakedirs d => category_on cfg (Py.basename d)
  | EvDownload _ _ d => category_on cfg (Py.basename d)
  | EvApplyAsync _ _ _ d => category_on cfg (Py.basename d)
  | _ => True
  end.

(** The worker pool is for lightning in real time: five workers, tasks
    that write into a [glm] directory, each for a row of the list it is
    given; a sequential download in real time is never for lightning. *)
Definition pool_discipline (cfg : config) (e : event) : Prop :=
  match e with
  | EvPool k => date1 cfg = None /\ k = 5%nat
  | EvApplyAsync row l _ d =>
      date1 cfg = None /\ Py.basename d = "glm" /\ (row < List.length l)%nat
  | EvPoolClose | EvPoolJoin => date1 cfg = None
  | EvDownload _ _ d => date1 cfg = None -> Py.basename d <> "glm"
  | _ => True
  end.

(** A run that lists and creates directories, with neither local copy
    nor mirror. *)
Definition sample_dry : config :=
  mkconfig (Some (mkdt 2020 6 1 12 30 0 0)) None
    "/data" "goes-16" "conus" false false false true None true true.

(** The dates of a run are dates, as [strptime] and [utcnow] return
    them. *)
Definition valid_dates (w : world) (cfg : config) : Prop :=
  Cal.valid (utcnow w) = true
  /\ (forall d, date1 cfg = Some d -> Cal.valid d = true)
  /\ (forall d, date2 cfg = Some d -> Cal.valid d = true).

(** ** The exceptions of a run *)

(** A blob the store lists in the public bucket of the satellite. *)
Definition listed (w : world) (cfg : config) (i : string) : Prop :=
  exists k prefix patterns, In i (list_gcs w k (bucket_name cfg) prefix patterns).

(** The exceptions of the hour of cursor [t], each with what it takes:
    a blob name of fewer than four fields under the batch identifier, a
    date out of range next to the hour, and on line 288 a download that
    did not return a path or did not take place. *)
Definition hour_raises (w : world) (cfg : config) (rt : bool) (t : datetime)
    (e : exn) : Prop :=
  match e with
  | SystemExit => False
  | IndexError =>
      rt = true /\ no_ir cfg = false
      /\ (no_vis cfg = false \/ no_irdiff cfg = false)
      /\ exists blob, listed w cfg blob /\ batch_id_of blob = None
  | OverflowError =>
      no_glm cfg = false
      /\ ((minute t < 3 /\ Cal.sub_hour t = None)
          \/ (55 < minute t /\ rt = false /\ Cal.add_hour t = None))
  | TypeError =>
      rt = false /\ no_glm cfg = false /\ minute t < 3
      /\ gcs_bucket cfg <> None /\ del_local cfg = false
  | UnboundLocalError v =>
      v = "outfile" /\ rt = false /\ no_glm cfg = false /\ minute t < 3
      /\ gcs_bucket cfg <> None /\ del_local cfg = true
  end.

(** The exceptions of a run: those of the set-up, those of the clock of
    real time, those of an hour of the window and the step to the next
    hour. *)
Definition run_raises (w : world) (cfg : config) (e : exn) : Prop :=
  (e = SystemExit /\ ~ supported (sector cfg) /\ sector cfg <> "")
  \/ (e = IndexError /\ sector cfg = "")
  \/ (e = OverflowError /\ date1 cfg = None
      /\ exists c, rt_cursor (utcnow w) c = None)
  \/ exists p c d1 d2 t k,
       sector_setup cfg init_state = Done (p, c) init_state
       /\ window w cfg c = Some (d1, d2)
       /\ hours_after k d1 = Some t /\ Cal.geb d2 t = true
       /\ (hour_raises w cfg (is_rt cfg) t e
           \/ (e = OverflowError /\ Cal.add_hour t = None)).

(** By how much lines 142-146 move the clock of real time back, in
    microseconds: ten minutes for the full disk in the first ten minutes
    of the hour, five for CONUS in the first four. *)
Definition rt_delay (sec : string) (minute : Z) : Z :=
  if String.eqb sec "full" && (minute <? 10) then 600000000
  else if String.eqb sec "conus" && (minute <? 4) then 300000000
  else 0.

(** Blob names with the four fields the batch identifier is read from. *)
Definition four_fields (w : world) (cfg : config) : Prop :=
  forall blob, listed w cfg blob -> batch_id_of blob <> None.

(** Every category switched off. *)
Definition sample_off : config :=
  mkconfig (Some (mkdt 2020 6 1 22 30 0 0)) (Some (mkdt 2020 6 2 1 10 0 0))
    "/data" "goes-16" "conus" true true true true (Some "mirror") false true.

(** A store that answers every listing with the same blob. *)
Definition plain_world : world :=
  mkworld (mkdt 2020 6 1 12 30 0 0)
    (fun _ _ _ _ =>
       ["ABI-L1b-RadM/2020/153/12/OR_ABI-L1b-RadM2-M6C13_G16_s20201531230249_e20201531230306_c20201531230341.nc"])
    (fun _ _ blob od => DlPath (Py.path_join od (Py.basename blob))).


(** A window whose end is before its start. *)
Definition sample_inverted : config :=
  mkconfig (Some (mkdt 2020 6 2 0 0 0 0)) (Some (mkdt 2020 6 1 0 0 0 0))
    "/data" "goes-16" "conus" false false false true None false true.

(** The number of underscores of a name. *)
Fixpoint underscores (s : string) : nat :=
  match s with
  | EmptyString => O
  | String c r => ((if Ascii.eqb c "_"%char then 1 else 0) + underscores r)%nat
  end.

(** What follows a separator of [re.split('_s|_', ...)]: the
    alternative [_s] takes the [s]. *)
Definition after_separator (r : string) : string :=
  match r with
  | String a r' => if Ascii.eqb a "s"%char then r' else r
  | EmptyString => r
  end.

(** An int written without padding and without a slash, and read back. *)
Definition dec_ok (n : Z) : bool :=
  negb (has_slash (Py.dec n)) && (int_of_digits 0 (Py.dec n) =? n).




(** ** The flag [verbose] *)

(** The configuration with [verbose] set to [b]. *)
Definition set_verbose (b : bool) (cfg : config) : config :=
  mkconfig (date1 cfg) (date2 cfg) (outroot cfg) (sat cfg) (sector cfg)
    (no_glm cfg) (no_vis cfg) (no_ir cfg) (no_irdiff cfg)
    (gcs_bucket cfg) (del_local cfg) b.

(** The same state after the events [pre] and its own. *)
Definition relog (pre : list event) (s : state) : state :=
  mkstate (nlist s) (ndl s) (pre ++ log s)%list (files s) (outfile s) (outdir s).

Definition relog_outcome {A} (pre : list event) (o : outcome A) : outcome A :=
  match o with
  | Done a s => Done a (relog pre s)
  | Raised e s => Raised e (relog pre s)
  | Spinning s => Spinning (relog pre s)
  end.

(** A step that does not read the log. *)
Definition framed {A} (c : M A) : Prop :=
  forall pre s, c (relog pre s) = relog_outcome pre (c s).

(** How a run ends: its manifest or its exception; a run that is still
    going on has neither. *)
Definition result {A} (o : outcome A) : option (A + exn) :=
  match o with
  | Done a _ => Some (inl a)
  | Raised e _ => Some (inr e)
  | Spinning _ => None
  end.

(** A run without the messages of [verbose] at its start. *)
Definition run_core (w : world) (cfg : config) (fuel : nat)
    : outcome (list string * list datetime) :=
  match sector_setup cfg init_state with
  | Done (p, c) _ =>
      match window w cfg c with
      | Some (d1, d2) => hour_loop w cfg fuel (is_rt cfg) c p d2 fuel d1 [] [] init_state
      | None => Raised OverflowError init_state
      end
  | Raised e s => Raised e s
  | Spinning s => Spinning s
  end.

(** ** Sample values *)

Example basename_blob :
  Py.basename "GLM-L2-LCFA/2020/153/00/OR_GLM-L2-LCFA_G16_s20201530000000.nc"
  = "OR_GLM-L2-LCFA_G16_s20201530000000.nc".
Proof. reflexivity. Qed.

Example re_split_blob :
  Py.re_split "OR_ABI-L1b-RadM2-M6C13_G16_s20201530000249_e20201530000306_c20201530000341.nc"
  = ["OR"; "ABI-L1b-RadM2-M6C13"; "G16"; "20201530000249"; "e20201530000306";
     "c20201530000341.nc"].
Proof. reflexivity. Qed.

Example strftime_day :
  Cal.strftime_Ymd (mkdt 2020 6 1 0 0 0 0) = "20200601".
Proof. reflexivity. Qed.

Example yday_june_first : Cal.tm_yday (mkdt 2020 6 1 0 0 0 0) = 153.
Proof. reflexivity. Qed.

Example new_year_eve :
  Cal.add_hour (mkdt 2020 12 31 23 30 0 0) = Some (mkdt 2021 1 1 0 30 0 0).
Proof. reflexivity. Qed.

Example leap_day_back :
  Cal.sub_minutes 10 (mkdt 2020 3 1 0 4 0 0) = Some (mkdt 2020 2 29 23 54 0 0).
Proof. reflexivity. Qed.

(** ** The calendar *)

Module CalFacts.
Import Cal.

Lemma valid_bounds t :
  valid t = true ->
  1 <= year t <= 9999 /\ 1 <= month t <= 12
  /\ 1 <= day t <= days_in_month (year t) (month t)
  /\ 0 <= hour t < 24 /\ 0 <= minute t < 60 /\ 0 <= second t < 60
  /\ 0 <= microsecond t < 1000000.
Proof.
  unfold valid, MINYEAR, MAXYEAR. intros H.
  repeat (apply andb_prop in H; destruct H as [H ?]).
  repeat match goal with
         | [ H : (_ <=? _) = true |- _ ] => apply Z.leb_le in H
         | [ H : (_ <? _) = true |- _ ] => apply Z.ltb_lt in H
         end.
  lia.
Qed.

Lemma valid_intro t :
  1 <= year t <= 9999 -> 1 <= month t <= 12 ->
  1 <= day t <= days_in_month (year t) (month t) ->
  0 <= hour t < 24 -> 0 <= minute t < 60 -> 0 <= second t < 60 ->
  0 <= microsecond t < 1000000 ->
  valid t = true.
Proof.
  intros. unfold valid, MINYEAR, MAXYEAR.
  repeat (apply andb_true_intro; split);
    try (apply Z.leb_le; lia); apply Z.ltb_lt; lia.
Qed.

Lemma leap_day_range y : 0 <= leap_day y <= 1.
Proof. unfold leap_day. destruct (is_leap y); lia. Qed.

Lemma month_cases m :
  1 <= m <= 12 ->
  m = 1 \/ m = 2 \/ m = 3 \/ m = 4 \/ m = 5 \/ m = 6 \/ m = 7 \/ m = 8
  \/ m = 9 \/ m = 10 \/ m = 11 \/ m = 12.
Proof. lia. Qed.

Ltac split_month m H :=
  let C := fresh "C" in
  pose proof (month_cases m H) as C;
  repeat (destruct C as [C | C]); subst m.

Lemma days_in_month_range y m : 1 <= m <= 12 -> 28 <= days_in_month y m <= 31.
Proof.
  intros H. split_month m H; unfold days_in_month; simpl;
    destruct (is_leap y); lia.
Qed.

(** The month table is the running sum of the month lengths. *)
Lemma days_before_next_month y m :
  1 <= m < 12 ->
  days_before_month y (m + 1) = days_before_month y m + days_in_month y m.
Proof.
  intros H. assert (H' : 1 <= m <= 12) by lia.
  split_month m H'; try lia;
    unfold days_before_month, days_in_month; simpl; destruct (is_leap y); lia.
Qed.

Lemma days_before_january y : days_before_month y 1 = 0.
Proof. reflexivity. Qed.

Lemma days_before_december y : days_before_month y 12 + 31 = 365 + leap_day y.
Proof. unfold days_before_month, leap_day; simpl. destruct (is_leap y); lia. Qed.

Lemma days_before_month_mono y m1 m2 :
  1 <= m1 -> m1 < m2 -> m2 <= 12 ->
  days_before_month y m1 + days_in_month y m1 <= days_before_month y m2.
Proof.
  intros H1 H2 H3.
  assert (Ha : 1 <= m1 <= 12) by lia. assert (Hb : 1 <= m2 <= 12) by lia.
  split_month m1 Ha; split_month m2 Hb; try lia;
    unfold days_before_month, days_in_month; simpl; destruct (is_leap y); lia.
Qed.

Lemma month_end_range y m :
  1 <= m <= 12 ->
  0 <= days_before_month y m
  /\ days_before_month y m + days_in_month y m <= 365 + leap_day y.
Proof.
  intros Hm. split_month m Hm;
    unfold days_before_month, days_in_month, leap_day; simpl;
    destruct (is_leap y); lia.
Qed.

Lemma yday_range y m d :
  1 <= m <= 12 -> 1 <= d <= days_in_month y m ->
  1 <= days_before_month y m + d <= 365 + leap_day y.
Proof. intros Hm Hd. pose proof (month_end_range y m Hm). lia. Qed.

Lemma div_step k y :
  0 < k -> y / k - (y - 1) / k = if y mod k =? 0 then 1 else 0.
Proof.
  intros Hk. destruct (Z.eqb_spec (y mod k) 0) as [E | E].
  - assert (Hy : y = k * (y / k)) by (pose proof (Z.div_mod y k); lia).
    assert (H1 : (y - 1) / k = y / k - 1).
    { symmetry. apply (Z.div_unique_pos (y - 1) k (y / k - 1) (k - 1)); lia. }
    lia.
  - assert (H1 : (y - 1) / k = y / k).
    { symmetry. apply (Z.div_unique_pos (y - 1) k (y / k) (y mod k - 1)).
      - pose proof (Z.mod_pos_bound y k Hk). lia.
      - pose proof (Z.div_mod y k). lia. }
    lia.
Qed.

Lemma mod_of_multiple a b c : 0 < b -> 0 < c -> a mod (b * c) = 0 -> a mod b = 0.
Proof.
  intros Hb Hc H. apply Z.mod_divide in H; [| lia]. apply Z.mod_divide; [lia |].
  destruct H as [q Hq]. exists (q * c). lia.
Qed.

Lemma is_leap_spec y :
  leap_day y = (y / 4 - (y - 1) / 4) - (y / 100 - (y - 1) / 100)
               + (y / 400 - (y - 1) / 400).
Proof.
  rewrite !div_step by lia. unfold leap_day, is_leap.
  pose proof (mod_of_multiple y 4 25) as H100.
  pose proof (mod_of_multiple y 100 4) as H400.
  change (4 * 25) with 100 in H100. change (100 * 4) with 400 in H400.
  destruct (Z.eqb_spec (y mod 4) 0) as [E4 | E4];
    destruct (Z.eqb_spec (y mod 100) 0) as [E100 | E100];
    destruct (Z.eqb_spec (y mod 400) 0) as [E400 | E400]; simpl; lia.
Qed.

Lemma days_before_next_year y :
  days_before_year (y + 1) = days_before_year y + 365 + leap_day y.
Proof.
  rewrite is_leap_spec. unfold days_before_year.
  replace (y + 1 - 1) with y by lia. lia.
Qed.

Lemma days_before_year_mono y1 y2 :
  y1 < y2 -> days_before_year y1 + 365 + leap_day y1 <= days_before_year y2.
Proof.
  intros H. rewrite <- days_before_next_year.
  assert (Hle : y1 + 1 <= y2) by lia. revert Hle. generalize (y1 + 1). clear.
  intros a Ha. unfold days_before_year. Z.div_mod_to_equations. lia.
Qed.

Lemma next_day_spec t t' :
  valid t = true -> next_day t = Some t' ->
  valid t' = true /\ toordinal t' = toordinal t + 1
  /\ hour t' = hour t /\ minute t' = minute t /\ second t' = second t
  /\ microsecond t' = microsecond t.
Proof.
  intros V. apply valid_bounds in V.
  destruct t as [y m d h mi s us]; simpl in V.
  destruct V as (Hy & Hm & Hd & Hh & Hmi & Hs & Hus).
  unfold next_day, toordinal, ymd2ord, MAXYEAR; simpl.
  destruct (Z.ltb_spec d (days_in_month y m)).
  - intros E; inversion E; subst; clear E; simpl.
    repeat split; try lia. apply valid_intro; simpl; lia.
  - destruct (Z.ltb_spec m 12).
    + intros E; inversion E; subst; clear E; simpl.
      rewrite days_before_next_month by lia.
      repeat split; try lia. apply valid_intro; simpl; try lia.
      pose proof (days_in_month_range y (m + 1)). lia.
    + destruct (Z.ltb_spec y 9999); [| discriminate].
      intros E; inversion E; subst; clear E; simpl.
      assert (m = 12) by lia. subst m.
      rewrite days_before_next_year, days_before_january.
      pose proof (days_before_december y).
      assert (days_in_month y 12 = 31) by reflexivity.
      repeat split; try lia. apply valid_intro; simpl; try lia.
      pose proof (days_in_month_range (y + 1) 1). lia.
Qed.

Lemma next_day_none t :
  valid t = true -> next_day t = None ->
  year t = MAXYEAR /\ month t = 12 /\ day t = 31.
Proof.
  intros V. apply valid_bounds in V.
  destruct t as [y m d h mi s us]; simpl in V.
  destruct V as (Hy & Hm & Hd & _).
  unfold next_day, MAXYEAR; simpl.
  destruct (Z.ltb_spec d (days_in_month y m)); [discriminate |].
  destruct (Z.ltb_spec m 12); [discriminate |].
  destruct (Z.ltb_spec y 9999); [discriminate |].
  intros _. assert (m = 12) by lia. subst m.
  assert (days_in_month y 12 = 31) by reflexivity. lia.
Qed.

Lemma prev_day_spec t t' :
  valid t = true -> prev_day t = Some t' ->
  valid t' = true /\ toordinal t' = toordinal t - 1
  /\ hour t' = hour t /\ minute t' = minute t /\ second t' = second t
  /\ microsecond t' = microsecond t.
Proof.
  intros V. apply valid_bounds in V.
  destruct t as [y m d h mi s us]; simpl in V.
  destruct V as (Hy & Hm & Hd & Hh & Hmi & Hs & Hus).
  unfold prev_day, toordinal, ymd2ord, MINYEAR; simpl.
  destruct (Z.ltb_spec 1 d).
  - intros E; inversion E; subst; clear E; simpl.
    repeat split; try lia. apply valid_intro; simpl; lia.
  - destruct (Z.ltb_spec 1 m).
    + intros E; inversion E; subst; clear E; simpl.
      pose proof (days_before_next_month y (m - 1)) as Hn.
      replace (m - 1 + 1) with m in Hn by lia.
      pose proof (days_in_month_range y (m - 1)).
      repeat split; try lia. apply valid_intro; simpl; lia.
    + destruct (Z.ltb_spec 1 y); [| discriminate].
      intros E; inversion E; subst; clear E; simpl.
      assert (m = 1) by lia. subst m.
      pose proof (days_before_next_year (y - 1)) as Hn.
      replace (y - 1 + 1) with y in Hn by lia.
      pose proof (days_before_december (y - 1)).
      rewrite days_before_january.
      repeat split; try lia. apply valid_intro; simpl; try lia.
      assert (days_in_month (y - 1) 12 = 31) by reflexivity. lia.
Qed.

Lemma prev_day_none t :
  valid t = true -> prev_day t = None -> year t = MINYEAR.
Proof.
  intros V. apply valid_bounds in V.
  destruct t as [y m d h mi s us]; simpl in V.
  destruct V as (Hy & Hm & Hd & _).
  unfold prev_day, MINYEAR; simpl.
  destruct (Z.ltb_spec 1 d); [discriminate |].
  destruct (Z.ltb_spec 1 m); [discriminate |].
  destruct (Z.ltb_spec 1 y); [discriminate |]. lia.
Qed.

Lemma valid_set_hour t h :
  valid t = true -> 0 <= h < 24 -> valid (set_hour t h) = true.
Proof.
  intros V Hh. apply valid_bounds in V. apply valid_intro; simpl; lia.
Qed.

Lemma valid_set_minute t m :
  valid t = true -> 0 <= m < 60 -> valid (set_minute t m) = true.
Proof.
  intros V Hh. apply valid_bounds in V. apply valid_intro; simpl; lia.
Qed.

(** One hour later is one hour later on the microsecond scale. *)
Lemma add_hour_spec t t' :
  valid t = true -> add_hour t = Some t' ->
  valid t' = true /\ to_us t' = to_us t + HOUR_US /\ minute t' = minute t.
Proof.
  intros V. pose proof (valid_bounds t V) as B. unfold add_hour.
  destruct (Z.ltb_spec (hour t) 23).
  - intros E; inversion E; subst; clear E.
    split; [apply valid_set_hour; [assumption | lia] |].
    unfold to_us, toordinal, HOUR_US, DAY_US; simpl. lia.
  - intros E. apply next_day_spec in E; [| apply valid_set_hour; [assumption | lia]].
    destruct E as (V' & Ho & Hh & Hmi & Hs & Hus). split; [assumption |].
    unfold to_us, HOUR_US, DAY_US in *. rewrite Ho, Hh, Hmi, Hs, Hus.
    unfold toordinal; simpl. lia.
Qed.

Lemma add_hour_none t :
  valid t = true -> add_hour t = None -> year t = MAXYEAR.
Proof.
  intros V. unfold add_hour. destruct (hour t <? 23); [discriminate |].
  intros E. apply next_day_none in E.
  - apply E.
  - apply valid_set_hour; [assumption | lia].
Qed.

Lemma sub_hour_spec t t' :
  valid t = true -> sub_hour t = Some t' ->
  valid t' = true /\ to_us t' = to_us t - HOUR_US /\ minute t' = minute t.
Proof.
  intros V. pose proof (valid_bounds t V) as B. unfold sub_hour.
  destruct (Z.ltb_spec 0 (hour t)).
  - intros E; inversion E; subst; clear E.
    split; [apply valid_set_hour; [assumption | lia] |].
    unfold to_us, toordinal, HOUR_US, DAY_US; simpl. lia.
  - intros E. apply prev_day_spec in E; [| apply valid_set_hour; [assumption | lia]].
    destruct E as (V' & Ho & Hh & Hmi & Hs & Hus). split; [assumption |].
    unfold to_us, HOUR_US, DAY_US in *. rewrite Ho, Hh, Hmi, Hs, Hus.
    unfold toordinal; simpl. lia.
Qed.

Lemma sub_hour_none t :
  valid t = true -> sub_hour t = None -> year t = MINYEAR.
Proof.
  intros V. unfold sub_hour. destruct (0 <? hour t); [discriminate |].
  intros E. apply prev_day_none in E.
  - apply E.
  - apply valid_set_hour; [assumption | lia].
Qed.

Lemma sub_minutes_spec n t t' :
  0 <= n <= 60 -> valid t = true -> sub_minutes n t = Some t' ->
  valid t' = true /\ to_us t' = to_us t - n * 60000000
  /\ minute t' = (if n <=? minute t then minute t - n else minute t + 60 - n).
Proof.
  intros Hn V. pose proof (valid_bounds t V) as B. unfold sub_minutes.
  destruct (Z.leb_spec n (minute t)).
  - intros E; inversion E; subst; clear E.
    split; [apply valid_set_minute; [assumption | lia] |].
    unfold to_us, toordinal; simpl. lia.
  - intros E. apply sub_hour_spec in E; [| apply valid_set_minute; [assumption | lia]].
    destruct E as (V' & Hus & Hmi). split; [assumption |].
    rewrite Hus, Hmi. unfold to_us, toordinal, HOUR_US; simpl. lia.
Qed.

(** Field-wise order is the order of the microsecond scale. *)
Lemma toordinal_lt_year a b :
  valid a = true -> valid b = true -> year a < year b ->
  toordinal a < toordinal b.
Proof.
  intros Va Vb H. apply valid_bounds in Va, Vb.
  pose proof (yday_range (year a) (month a) (day a)).
  pose proof (yday_range (year b) (month b) (day b)).
  pose proof (days_before_year_mono (year a) (year b) H).
  unfold toordinal, ymd2ord. lia.
Qed.

Lemma toordinal_lt_month a b :
  valid a = true -> valid b = true -> year a = year b -> month a < month b ->
  toordinal a < toordinal b.
Proof.
  intros Va Vb Hy H. apply valid_bounds in Va, Vb.
  pose proof (days_before_month_mono (year a) (month a) (month b)).
  unfold toordinal, ymd2ord. rewrite <- Hy. lia.
Qed.

Lemma toordinal_inj a b :
  valid a = true -> valid b = true -> toordinal a = toordinal b ->
  year a = year b /\ month a = month b /\ day a = day b.
Proof.
  intros Va Vb E.
  pose proof (toordinal_lt_year a b Va Vb). pose proof (toordinal_lt_year b a Vb Va).
  assert (Hy : year a = year b) by lia.
  pose proof (toordinal_lt_month a b Va Vb Hy).
  pose proof (toordinal_lt_month b a Vb Va (eq_sym Hy)).
  assert (Hm : month a = month b) by lia.
  unfold toordinal, ymd2ord in E. rewrite Hy, Hm in E. lia.
Qed.

Lemma compare_to_us a b :
  valid a = true -> valid b = true ->
  compare a b = (to_us a ?= to_us b).
Proof.
  intros Va Vb.
  pose proof (valid_bounds a Va) as Ba. pose proof (valid_bounds b Vb) as Bb.
  pose proof (toordinal_lt_year a b Va Vb) as Hy1.
  pose proof (toordinal_lt_year b a Vb Va) as Hy2.
  pose proof (toordinal_lt_month a b Va Vb) as Hm1.
  pose proof (toordinal_lt_month b a Vb Va) as Hm2.
  assert (Hd : year a = year b -> month a = month b ->
               toordinal a - toordinal b = day a - day b).
  { intros E1 E2. unfold toordinal, ymd2ord. rewrite E1, E2. lia. }
  unfold compare, lex, to_us, HOUR_US, DAY_US.
  symmetry.
  repeat match goal with
         | |- context [?x ?= ?y] =>
             lazymatch x with
             | year _ => idtac | month _ => idtac | day _ => idtac
             | hour _ => idtac | minute _ => idtac | second _ => idtac
             | microsecond _ => idtac
             end;
             destruct (Z.compare_spec x y)
         end;
    first [ apply Z.compare_eq_iff | apply Z.compare_lt_iff | apply Z.compare_gt_iff ];
    lia.
Qed.

Lemma geb_to_us a b :
  valid a = true -> valid b = true ->
  geb a b = (to_us b <=? to_us a).
Proof.
  intros Va Vb. unfold geb. rewrite compare_to_us by assumption.
  rewrite Z.leb_antisym, Z.ltb_compare.
  destruct (to_us a ?= to_us b); reflexivity.
Qed.

(** The calendar day of a valid timestamp on the microsecond scale. *)
Lemma toordinal_to_us t :
  valid t = true -> toordinal t = to_us t / DAY_US.
Proof.
  intros V. apply valid_bounds in V. unfold to_us, HOUR_US, DAY_US.
  apply Z.div_unique_pos with
    (r := hour t * 3600000000 + minute t * 60000000 + second t * 1000000
          + microsecond t); lia.
Qed.

End CalFacts.

(** ** Paths and formatted fields *)

Module StrFacts.

Lemma all_below_spec k p n :
  all_below k p = true -> 0 <= n < Z.of_nat k -> p n = true.
Proof.
  unfold all_below. rewrite forallb_forall. intros H Hn.
  specialize (H (Z.to_nat n)). rewrite Z2Nat.id in H by lia.
  apply H. apply in_seq. lia.
Qed.

Lemma year_field_ok n : 0 <= n < 10000 -> field_ok 4 n = true.
Proof.
  intros H. apply (all_below_spec (Z.to_nat 10000)); [vm_compute; reflexivity | lia].
Qed.

Lemma short_field_ok n : 0 <= n < 100 -> field_ok 2 n = true.
Proof.
  intros H. apply (all_below_spec (Z.to_nat 100)); [vm_compute; reflexivity | lia].
Qed.

Lemma field_ok_spec w n :
  field_ok w n = true ->
  String.length (Py.fmt0 w n) = w /\ has_slash (Py.fmt0 w n) = false
  /\ int_of_digits 0 (Py.fmt0 w n) = n.
Proof.
  unfold field_ok. intros H.
  apply andb_prop in H; destruct H as [H H3].
  apply andb_prop in H; destruct H as [H1 H2].
  apply Nat.eqb_eq in H1. apply negb_true_iff in H2. apply Z.eqb_eq in H3.
  auto.
Qed.

Lemma append_assoc' (a b c : string) : (a ++ b) ++ c = a ++ (b ++ c).
Proof. induction a; simpl; congruence. Qed.

Lemma append_empty_r (a : string) : a ++ "" = a.
Proof. induction a; simpl; congruence. Qed.

Lemma append_inv_head (a b c : string) : a ++ b = a ++ c -> b = c.
Proof. induction a; simpl; intros H; [assumption | inversion H; auto]. Qed.

Lemma append_same_length (a a' b b' : string) :
  String.length a = String.length a' -> a ++ b = a' ++ b' -> a = a' /\ b = b'.
Proof.
  revert a'. induction a as [| c a IH]; intros [| c' a'] Hl H; simpl in *;
    try discriminate.
  - auto.
  - inversion H; subst. destruct (IH a') as [-> ->]; auto.
Qed.

Lemma has_slash_append a b : has_slash (a ++ b) = has_slash a || has_slash b.
Proof. induction a; simpl; [reflexivity |]. rewrite IHa. now rewrite orb_assoc. Qed.

Lemma starts_with_no_slash d : has_slash d = false -> Py.starts_with_slash d = false.
Proof.
  destruct d; simpl; [reflexivity |]. intros H. apply orb_false_iff in H. apply H.
Qed.

Lemma basename_from_no_slash acc d :
  has_slash d = false -> Py.basename_from acc d = acc ++ d.
Proof.
  revert acc. induction d as [| c d IH]; intros acc H; simpl in *.
  - now rewrite append_empty_r.
  - apply orb_false_iff in H. destruct H as [Hc Hd]. rewrite Hc.
    rewrite IH by assumption. now rewrite append_assoc'.
Qed.

Lemma basename_from_after_slash acc p d :
  has_slash d = false -> Py.basename_from acc (p ++ String Py.slash d) = d.
Proof.
  revert acc. induction p as [| c p IH]; intros acc H; simpl.
  - now apply basename_from_no_slash.
  - destruct (Ascii.eqb c Py.slash); now apply IH.
Qed.

Lemma ends_with_slash_split a :
  Py.ends_with_slash a = true -> exists p, a = p ++ String Py.slash "".
Proof.
  induction a as [| c a IH]; simpl; [discriminate |].
  destruct a as [| c' a'].
  - intros H. apply Ascii.eqb_eq in H. subst. now exists "".
  - intros H. destruct (IH H) as [p Hp]. exists (String c p). simpl. now rewrite <- Hp.
Qed.

(** The directory of a day is named after the day. *)
Lemma basename_path_join r d :
  has_slash d = false -> Py.basename (Py.path_join r d) = d.
Proof.
  intros H. unfold Py.path_join, Py.basename.
  rewrite starts_with_no_slash by assumption.
  destruct (String.eqb_spec r "") as [-> | Hr]; simpl.
  - now apply basename_from_no_slash.
  - destruct (Py.ends_with_slash r) eqn:E.
    + destruct (ends_with_slash_split r E) as [p ->].
      rewrite append_assoc'. simpl. now apply basename_from_after_slash.
    + now apply basename_from_after_slash.
Qed.

Lemma path_join_inj r d d' :
  has_slash d = false -> has_slash d' = false ->
  Py.path_join r d = Py.path_join r d' -> d = d'.
Proof.
  intros H H' E.
  rewrite <- (basename_path_join r d H), <- (basename_path_join r d' H').
  now rewrite E.
Qed.

Lemma basename_from_has_no_slash acc p :
  has_slash acc = false -> has_slash (Py.basename_from acc p) = false.
Proof.
  revert acc. induction p as [| c p IH]; intros acc H; simpl; [assumption |].
  destruct (Ascii.eqb c Py.slash) eqn:E; apply IH; [reflexivity |].
  rewrite has_slash_append, H. simpl. now rewrite E.
Qed.

Lemma basename_no_slash p : has_slash (Py.basename p) = false.
Proof. now apply basename_from_has_no_slash. Qed.

Lemma ends_with_slash_cons x s :
  s <> ""%string -> Py.ends_with_slash (String x s) = Py.ends_with_slash s.
Proof. destruct s; [congruence | reflexivity]. Qed.

Lemma ends_with_slash_append a c b :
  Py.ends_with_slash (a ++ String c b) = Py.ends_with_slash (String c b).
Proof.
  induction a as [| x a IH]; [reflexivity |].
  change ((String x a ++ String c b)%string) with (String x (a ++ String c b)).
  rewrite ends_with_slash_cons; [exact IH |]. destruct a; discriminate.
Qed.

Lemma ends_with_slash_has_slash a : Py.ends_with_slash a = true -> has_slash a = true.
Proof.
  intros H. destruct (ends_with_slash_split a H) as [p ->].
  rewrite has_slash_append. simpl. apply orb_true_r.
Qed.

(** Joining a second part that holds no slash to a first part that does
    not end in one puts one slash between them. *)
Lemma path_join_plain a b :
  a <> ""%string -> Py.ends_with_slash a = false -> has_slash b = false ->
  Py.path_join a b = (a ++ "/" ++ b)%string.
Proof.
  intros Hne Ha Hb. unfold Py.path_join.
  rewrite starts_with_no_slash by assumption.
  destruct (String.eqb_spec a ""); [congruence |]. now rewrite Ha.
Qed.

Lemma no_slash_no_end a : has_slash a = false -> Py.ends_with_slash a = false.
Proof.
  intros H. destruct (Py.ends_with_slash a) eqn:E; [| reflexivity].
  apply ends_with_slash_has_slash in E. congruence.
Qed.

Import Cal.

Lemma strftime_Ymd_no_slash t :
  valid t = true -> has_slash (strftime_Ymd t) = false.
Proof.
  intros V. apply CalFacts.valid_bounds in V.
  pose proof (CalFacts.days_in_month_range (year t) (month t)).
  unfold strftime_Ymd. rewrite !has_slash_append.
  destruct (field_ok_spec 4 (year t)) as (_ & -> & _); [apply year_field_ok; lia |].
  destruct (field_ok_spec 2 (month t)) as (_ & -> & _); [apply short_field_ok; lia |].
  destruct (field_ok_spec 2 (day t)) as (_ & -> & _); [apply short_field_ok; lia |].
  reflexivity.
Qed.

(** Two valid timestamps print the same day exactly when they are on the
    same calendar day. *)
Lemma strftime_Ymd_inj a b :
  valid a = true -> valid b = true -> strftime_Ymd a = strftime_Ymd b ->
  year a = year b /\ month a = month b /\ day a = day b.
Proof.
  intros Va Vb. apply CalFacts.valid_bounds in Va, Vb.
  pose proof (CalFacts.days_in_month_range (year a) (month a)).
  pose proof (CalFacts.days_in_month_range (year b) (month b)).
  destruct (field_ok_spec 4 (year a)) as (La1 & _ & Ia1); [apply year_field_ok; lia |].
  destruct (field_ok_spec 2 (month a)) as (La2 & _ & Ia2); [apply short_field_ok; lia |].
  destruct (field_ok_spec 2 (day a)) as (_ & _ & Ia3); [apply short_field_ok; lia |].
  destruct (field_ok_spec 4 (year b)) as (Lb1 & _ & Ib1); [apply year_field_ok; lia |].
  destruct (field_ok_spec 2 (month b)) as (Lb2 & _ & Ib2); [apply short_field_ok; lia |].
  destruct (field_ok_spec 2 (day b)) as (_ & _ & Ib3); [apply short_field_ok; lia |].
  unfold strftime_Ymd. intros E.
  apply append_same_length in E; [| congruence]. destruct E as [E1 E].
  apply append_same_length in E; [| congruence]. destruct E as [E2 E3].
  rewrite <- Ia1, <- Ib1, <- Ia2, <- Ib2, <- Ia3, <- Ib3, E1, E2, E3. auto.
Qed.

Lemma same_day_same_string a b :
  year a = year b -> month a = month b -> day a = day b ->
  strftime_Ymd a = strftime_Ymd b.
Proof. unfold strftime_Ymd. now intros -> -> ->. Qed.

Lemma strftime_Ymd_nonempty t : valid t = true -> strftime_Ymd t <> ""%string.
Proof.
  intros V E. apply CalFacts.valid_bounds in V.
  destruct (field_ok_spec 4 (year t)) as (L & _); [apply year_field_ok; lia |].
  unfold strftime_Ymd in E.
  destruct (Py.fmt0 4 (year t)); [discriminate L | discriminate E].
Qed.

(** The layout of the mirror: [<YYYYMMDD>/<category>/<basename>]. *)
Lemma mirror_key_layout t ch category i :
  valid t = true -> has_slash (String ch category) = false ->
  mirror_key t (String ch category) i
  = (strftime_Ymd t ++ "/" ++ String ch category ++ "/" ++ Py.basename i)%string.
Proof.
  intros V Hc. unfold mirror_key.
  pose proof (strftime_Ymd_no_slash t V) as Hd.
  pose proof (strftime_Ymd_nonempty t V) as Hn.
  rewrite (path_join_plain (strftime_Ymd t) (String ch category));
    [| assumption | now apply no_slash_no_end | assumption].
  rewrite path_join_plain.
  - now rewrite !append_assoc'.
  - destruct (strftime_Ymd t); [congruence | discriminate].
  - rewrite <- append_assoc', ends_with_slash_append. now apply no_slash_no_end.
  - apply basename_no_slash.
Qed.

(** What line 288 writes is never that layout: the slash before the
    basename is missing. *)
Lemma backfill_key_differs t i p :
  valid t = true ->
  (Py.path_join (strftime_Ymd t) "glm" ++ Py.basename p)%string <> mirror_key t "glm" i.
Proof.
  intros V E. rewrite mirror_key_layout in E by auto.
  rewrite path_join_plain in E;
    [| now apply strftime_Ymd_nonempty
     | apply no_slash_no_end; now apply strftime_Ymd_no_slash | reflexivity].
  rewrite !append_assoc' in E. apply append_inv_head in E.
  simpl in E. inversion E as [E'].
  pose proof (basename_no_slash p) as Hb. rewrite E' in Hb. discriminate.
Qed.

End StrFacts.

Local Open Scope list_scope.

(** ** Lists of days *)

Module DayFacts.

Lemma filter_snoc_keep {A} (p : A -> bool) l x :
  p x = true -> filter p (l ++ [x]) = filter p l ++ [x].
Proof. intros H. rewrite filter_app. simpl. now rewrite H. Qed.

Lemma filter_snoc_drop {A} (p : A -> bool) l x :
  p x = false -> filter p (l ++ [x]) = filter p l.
Proof. intros H. rewrite filter_app. simpl. rewrite H. apply app_nil_r. Qed.

(** A day visited again adds nothing; a new day comes last. *)
Lemma first_visits_snoc l d :
  first_visits (l ++ [d])
  = if existsb (String.eqb d) l then first_visits l else first_visits l ++ [d].
Proof.
  induction l as [| y l IH]; simpl; [reflexivity |].
  rewrite IH. destruct (String.eqb_spec d y) as [-> | Hne]; simpl.
  - destruct (existsb (String.eqb y) l); [reflexivity |].
    rewrite filter_snoc_drop; [reflexivity |]. now rewrite String.eqb_refl.
  - destruct (existsb (String.eqb d) l); [reflexivity |].
    rewrite filter_snoc_keep; [reflexivity |].
    apply negb_true_iff. now apply String.eqb_neq.
Qed.

Lemma first_visits_in l d : In d (first_visits l) <-> In d l.
Proof.
  induction l as [| y l IH]; simpl; [tauto |].
  rewrite filter_In, IH, negb_true_iff, String.eqb_neq.
  destruct (String.eqb_spec y d); intuition congruence.
Qed.

Lemma first_visits_nodup l : NoDup (first_visits l).
Proof.
  induction l as [| y l IH]; simpl; constructor.
  - rewrite filter_In, negb_true_iff, String.eqb_neq. tauto.
  - now apply NoDup_filter.
Qed.

Lemma nodup_map_on {A B} (f : A -> B) l :
  (forall x y, In x l -> In y l -> f x = f y -> x = y) ->
  NoDup l -> NoDup (map f l).
Proof.
  intros Hinj Hnd. induction Hnd as [| x l Hx Hnd IH]; simpl; constructor.
  - rewrite in_map_iff. intros (y & E & Hy).
    apply Hinj in E; simpl; auto. now subst.
  - apply IH. intros a b Ha Hb. apply Hinj; simpl; auto.
Qed.

End DayFacts.

(** ** The hourly loop *)

Section LoopFacts.

Import Cal.

Variable w : world.
Variable cfg : config.
Variable fuel : nat.
Variable rt : bool.
Variables sector0 prod : string.
Variable d_end : datetime.

Lemma turns_step date date' :
  valid date = true -> valid d_end = true ->
  geb d_end date = true -> add_hour date = Some date' ->
  turns d_end date = turns d_end date' + 1.
Proof.
  intros V Ve G A. destruct (CalFacts.add_hour_spec _ _ V A) as (V' & Hus & _).
  unfold turns, diff_us. rewrite G.
  rewrite CalFacts.geb_to_us in * by assumption. apply Z.leb_le in G.
  unfold HOUR_US in *.
  destruct (Z.leb_spec (to_us date') (to_us d_end)).
  - replace (to_us d_end - to_us date)
      with (to_us d_end - to_us date' + 1 * 3600000000) by lia.
    rewrite Z.div_add by lia. lia.
  - rewrite Z.div_small by lia. lia.
Qed.

(** A run of the loop that returns has visited [date], [date + 1h], ...
    up to the end of the window, and no cursor beyond. *)
Lemma hour_loop_done n : forall date m vis s m' vis' s',
  valid date = true -> valid d_end = true ->
  hour_loop w cfg fuel rt sector0 prod d_end n date m vis s = Done (m', vis') s' ->
  exists l c,
    vis' = vis ++ l /\ hourly date l c
    /\ valid c = true /\ geb d_end c = false
    /\ Forall (fun t => valid t = true /\ geb d_end t = true) l
    /\ m' = fold_left (manifest_step cfg) l m
    /\ Z.of_nat (List.length l) = turns d_end date.
Proof.
  induction n as [| n IH]; intros date m vis s m' vis' s' V Ve; simpl.
  - discriminate.
  - destruct (geb d_end date) eqn:G.
    + unfold bind at 1.
      destruct (hour_body w cfg fuel rt sector0 prod date s) as [[] s1 | |];
        try discriminate.
      unfold bind at 1.
      destruct (add_hour date) as [date' |] eqn:A; simpl; [| discriminate].
      intros E. destruct (CalFacts.add_hour_spec _ _ V A) as (V' & _).
      destruct (IH _ _ _ _ _ _ _ V' Ve E) as (l & c & -> & Hc & Vc & Gc & Hl & -> & Hn).
      exists (date :: l), c. rewrite <- app_assoc. simpl.
      repeat split; auto.
      * econstructor; eassumption.
      * rewrite (turns_step date date') by assumption. lia.
    + intros E. unfold ret in E. inversion E; subst.
      exists [], date. rewrite app_nil_r. unfold turns. rewrite G.
      repeat split; auto. constructor.
Qed.

Lemma geb_year a b : geb a b = true -> year b <= year a.
Proof.
  unfold geb, compare, lex.
  destruct (Z.compare_spec (year a) (year b)); intros G; try discriminate; lia.
Qed.

(** With a body that returns, and away from the last year of [datetime],
    the loop returns within [turns + 1] units of fuel. *)
Lemma hour_loop_total (start : datetime) n : forall date m vis s,
  (forall t s, valid t = true -> to_us start <= to_us t <= to_us d_end ->
     exists s', hour_body w cfg fuel rt sector0 prod t s = Done tt s') ->
  year d_end < MAXYEAR ->
  valid date = true -> valid d_end = true ->
  to_us start <= to_us date ->
  to_us d_end < to_us date + Z.of_nat n * HOUR_US ->
  exists r s', hour_loop w cfg fuel rt sector0 prod d_end (S n) date m vis s = Done r s'.
Proof.
  induction n as [| n IH]; intros date m vis s Hb Hy V Ve Hs Hn;
    cbn [hour_loop]; rewrite CalFacts.geb_to_us by assumption.
  - destruct (Z.leb_spec (to_us date) (to_us d_end)); [lia |].
    unfold ret. eauto.
  - destruct (Z.leb_spec (to_us date) (to_us d_end)) as [Hle |]; [| unfold ret; eauto].
    destruct (Hb date s V) as [s1 B]; [lia |].
    unfold bind at 1. rewrite B. unfold bind at 1.
    destruct (add_hour date) as [date' |] eqn:A.
    + destruct (CalFacts.add_hour_spec _ _ V A) as (V' & Hus & _). simpl.
      apply IH; auto; unfold HOUR_US in *; lia.
    + apply CalFacts.add_hour_none in A; [| assumption].
      assert (G : geb d_end date = true).
      { rewrite CalFacts.geb_to_us by assumption. now apply Z.leb_le. }
      apply geb_year in G. lia.
Qed.

Lemma manifest_step_empty t : manifest_step cfg [] t = [day_dir cfg t].
Proof. reflexivity. Qed.

Lemma manifest_step_last m0 q t :
  valid q = true ->
  manifest_step cfg (m0 ++ [day_dir cfg q]) t
  = if String.eqb (strftime_Ymd t) (strftime_Ymd q) then m0 ++ [day_dir cfg q]
    else (m0 ++ [day_dir cfg q]) ++ [day_dir cfg t].
Proof.
  intros V. unfold manifest_step. rewrite rev_app_distr. simpl.
  unfold day_dir. rewrite StrFacts.basename_path_join
    by now apply StrFacts.strftime_Ymd_no_slash.
  now destruct (String.eqb (strftime_Ymd t) (strftime_Ymd q)).
Qed.

Lemma same_day_iff a b :
  valid a = true -> valid b = true ->
  (strftime_Ymd a = strftime_Ymd b <-> toordinal a = toordinal b).
Proof.
  intros Va Vb. split.
  - intros E. destruct (StrFacts.strftime_Ymd_inj a b Va Vb E) as (Hy & Hm & Hd).
    unfold toordinal. now rewrite Hy, Hm, Hd.
  - intros E. destruct (CalFacts.toordinal_inj a b Va Vb E) as (Hy & Hm & Hd).
    now apply StrFacts.same_day_same_string.
Qed.

Lemma toordinal_mono a b :
  valid a = true -> valid b = true -> to_us a <= to_us b ->
  toordinal a <= toordinal b.
Proof.
  intros Va Vb H. rewrite !CalFacts.toordinal_to_us by assumption.
  apply Z.div_le_mono; [reflexivity | assumption].
Qed.

Lemma manifest_inv_step pre m date date' :
  valid date = true -> add_hour date = Some date' ->
  manifest_inv cfg pre m date ->
  manifest_inv cfg (pre ++ [date]) (manifest_step cfg m date) date'.
Proof.
  intros V A (Hm & Hpre & Hlast).
  destruct (CalFacts.add_hour_spec _ _ V A) as (V' & Hus & _).
  unfold HOUR_US in Hus.
  assert (Hpre' : Forall (fun p => valid p = true /\ to_us p < to_us date') (pre ++ [date])).
  { apply Forall_app. split.
    - eapply Forall_impl; [| exact Hpre]. simpl. intros p [? ?]. split; [assumption | lia].
    - constructor; [| constructor]. split; [assumption | lia]. }
  rewrite Forall_forall in Hpre.
  destruct pre as [| p0 pre0].
  - subst m. simpl. repeat split; auto.
    exists date, []. simpl. unfold day_dir. repeat split; auto.
    intros p [<- | []]. lia.
  - destruct Hlast as (q & m0 & Hq & Hm0 & Hmax).
    remember (p0 :: pre0) as pre eqn:Epre.
    destruct (Hpre q Hq) as [Vq Hqd].
    assert (Hsnoc : exists x l, pre ++ [date] = x :: l).
    { subst pre. simpl. eauto. }
    destruct Hsnoc as (x & l' & Esnoc).
    assert (Hin : existsb (String.eqb (strftime_Ymd date)) (map strftime_Ymd pre)
                  = String.eqb (strftime_Ymd date) (strftime_Ymd q)).
    { destruct (String.eqb_spec (strftime_Ymd date) (strftime_Ymd q)) as [E | NE].
      - apply existsb_exists. exists (strftime_Ymd q). split.
        + now apply in_map.
        + now apply String.eqb_eq.
      - apply not_true_is_false. intros H. apply existsb_exists in H.
        destruct H as (d & Hd & E). apply String.eqb_eq in E.
        apply in_map_iff in Hd. destruct Hd as (p & <- & Hp).
        destruct (Hpre p Hp) as [Vp Hpd]. apply NE.
        apply same_day_iff; try assumption.
        apply same_day_iff in E; try assumption.
        pose proof (toordinal_mono p q Vp Vq (Hmax p Hp)).
        pose proof (toordinal_mono q date Vq V). lia. }
    split; [| split; [assumption |]].
    + rewrite map_app. simpl. rewrite DayFacts.first_visits_snoc, Hin.
      rewrite Hm0, manifest_step_last by assumption.
      destruct (String.eqb (strftime_Ymd date) (strftime_Ymd q)).
      * now rewrite <- Hm0.
      * rewrite <- Hm0, Hm, map_app. reflexivity.
    + rewrite Esnoc, <- Esnoc.
      rewrite Hm0, manifest_step_last by assumption.
      destruct (String.eqb_spec (strftime_Ymd date) (strftime_Ymd q)) as [E | NE].
      * exists date, m0. split; [apply in_or_app; simpl; auto |]. split.
        -- unfold day_dir. now rewrite E.
        -- intros p Hp. apply in_app_or in Hp. destruct Hp as [Hp | [<- | []]]; [| lia].
           specialize (Hmax p Hp). lia.
      * exists date, (m0 ++ [day_dir cfg q]). split; [apply in_or_app; simpl; auto |].
        split; [reflexivity |].
        intros p Hp. apply in_app_or in Hp. destruct Hp as [Hp | [<- | []]]; [| lia].
        specialize (Hmax p Hp). lia.
Qed.

Lemma manifest_fold l : forall date c pre m,
  hourly date l c -> valid date = true -> manifest_inv cfg pre m date ->
  fold_left (manifest_step cfg) l m
  = map (Py.path_join (outroot cfg)) (first_visits (map strftime_Ymd (pre ++ l))).
Proof.
  induction l as [| t l IH]; intros date c pre m H V Hinv.
  - rewrite app_nil_r. apply Hinv.
  - inversion H; subst. simpl.
    destruct (CalFacts.add_hour_spec _ _ V H3) as (V' & _).
    rewrite (IH c' c (pre ++ [t]) (manifest_step cfg m t)); auto.
    + now rewrite <- app_assoc.
    + now apply manifest_inv_step.
Qed.

Lemma hourly_valid l : forall date c,
  hourly date l c -> valid date = true -> Forall (fun t => valid t = true) l.
Proof.
  induction l as [| t l IH]; intros date c H V; [constructor |].
  inversion H; subst. constructor; [assumption |].
  destruct (CalFacts.add_hour_spec _ _ V H3) as (V' & _). eauto.
Qed.

(** The manifest of one window: the day of each visit, at its first
    visit, with no day twice. *)
Lemma manifest_of_visits date l c :
  hourly date l c -> valid date = true ->
  let m := fold_left (manifest_step cfg) l [] in
  m = map (Py.path_join (outroot cfg)) (first_visits (map strftime_Ymd l))
  /\ NoDup m.
Proof.
  intros H V m.
  assert (E : m = map (Py.path_join (outroot cfg)) (first_visits (map strftime_Ymd l))).
  { apply (manifest_fold l date c [] []); auto.
    repeat split; auto. }
  split; [assumption |]. rewrite E.
  apply DayFacts.nodup_map_on; [| apply DayFacts.first_visits_nodup].
  pose proof (hourly_valid l date c H V) as Hv. rewrite Forall_forall in Hv.
  intros x y Hx Hy. apply -> DayFacts.first_visits_in in Hx.
  apply -> DayFacts.first_visits_in in Hy.
  apply in_map_iff in Hx, Hy.
  destruct Hx as (a & <- & Ha). destruct Hy as (b & <- & Hb).
  apply StrFacts.path_join_inj; apply StrFacts.strftime_Ymd_no_slash; auto.
Qed.

End LoopFacts.

(** ** The steps of one hour *)

Section BlockFacts.

Import Cal.

Variable w : world.
Variable cfg : config.
Variable fuel : nat.

Lemma is_empty_nil {A} (l : list A) : Py.is_empty l = true -> l = [].
Proof. destruct l; [reflexivity | discriminate]. Qed.

Lemma is_empty_false {A} (l : list A) : l <> [] -> Py.is_empty l = false.
Proof. destruct l; [congruence | reflexivity]. Qed.

Lemma slice_from_nonempty {A} (k : Z) (l : list A) :
  k < 0 -> l <> [] -> Py.slice_from k l <> [].
Proof.
  intros Hk Hl. unfold Py.slice_from.
  destruct (Z.ltb_spec k 0); [| lia].
  intros E. apply (f_equal (@List.length A)) in E.
  rewrite length_skipn in E. simpl in E.
  assert (0 < List.length l)%nat by (destruct l; simpl; [congruence | lia]).
  lia.
Qed.

Lemma slice_from_length {A} (k : Z) (l : list A) :
  k < 0 -> Z.of_nat (List.length (Py.slice_from k l)) <= - k.
Proof.
  intros Hk. unfold Py.slice_from. destruct (Z.ltb_spec k 0); [| lia].
  rewrite length_skipn. lia.
Qed.

Lemma keeps_refl s : keeps cfg s s.
Proof. unfold keeps. auto. Qed.

Lemma keeps_trans s1 s2 s3 : keeps cfg s1 s2 -> keeps cfg s2 s3 -> keeps cfg s1 s3.
Proof.
  unfold keeps. intros (A1 & A2 & A3 & A4) (B1 & B2 & B3 & B4).
  repeat split; try congruence. intros D. rewrite B4, A4; auto.
Qed.

Lemma for_each_emit {A} (f : A -> event) (l : list A) s :
  for_each l (fun a => emit (f a)) s
  = Done tt (mkstate (nlist s) (ndl s) (log s ++ map f l) (files s) (outfile s) (outdir s)).
Proof.
  revert s. induction l as [| a r IH]; intros [n d lg fs o od]; simpl.
  - unfold ret. now rewrite app_nil_r.
  - unfold bind; simpl. rewrite IH; simpl. now rewrite <- app_assoc.
Qed.

Lemma for_each_keeps {A} (body : A -> M unit) (l : list A) :
  (forall a s, outdir s <> None ->
     exists s', body a s = Done tt s' /\ keeps cfg s s') ->
  forall s, outdir s <> None ->
    exists s', for_each l body s = Done tt s' /\ keeps cfg s s'.
Proof.
  intros Hb. induction l as [| a r IH]; intros s Hod; simpl.
  - exists s. split; [reflexivity | apply keeps_refl].
  - destruct (Hb a s Hod) as (s1 & E1 & K1).
    assert (Hod1 : outdir s1 <> None).
    { destruct K1 as (_ & _ & -> & _). assumption. }
    destruct (IH s1 Hod1) as (s2 & E2 & K2).
    exists s2. unfold bind. rewrite E1. split; [assumption |].
    eapply keeps_trans; eassumption.
Qed.

Local Arguments for_each {A} l body : simpl never.

Lemma fetch_keeps i s :
  outdir s <> None ->
  exists s', fetch w cfg i s = Done tt s' /\ keeps cfg s s'
    /\ (del_local cfg = false ->
        exists od, outfile s' = Some (download_ncdf_gcs w (ndl s) (bucket_name cfg) i od)).
Proof.
  intros Hod. destruct s as [n d lg fs o [od |]]; [| simpl in Hod; congruence].
  unfold fetch, keeps. destruct (del_local cfg); simpl.
  - eexists. split; [reflexivity |]. simpl. repeat split; auto. discriminate.
  - eexists. split; [reflexivity |]. simpl. repeat split; eauto; discriminate.
Qed.

Lemma transfer_keeps t category i s :
  outdir s <> None ->
  exists s', transfer w cfg t category i s = Done tt s' /\ keeps cfg s s'.
Proof.
  intros Hod. destruct (fetch_keeps i s Hod) as (s1 & E1 & K1 & _).
  unfold transfer, bind. rewrite E1.
  destruct (gcs_bucket cfg) as [gb |].
  - eexists. split; [reflexivity |]. eapply keeps_trans; [eassumption |].
    unfold keeps; simpl. auto.
  - exists s1. split; [reflexivity | assumption].
Qed.

Lemma transfer_backfill_keeps t i s :
  backfill_safe w cfg -> outdir s <> None ->
  exists s', transfer_backfill w cfg t i s = Done tt s' /\ keeps cfg s s'.
Proof.
  intros Hsafe Hod. destruct (fetch_keeps i s Hod) as (s1 & E1 & K1 & Hout).
  unfold transfer_backfill, bind. rewrite E1.
  destruct Hsafe as [-> | [Hd Hdl]].
  - exists s1. split; [reflexivity | assumption].
  - destruct (gcs_bucket cfg) as [gb |].
    + destruct (Hout Hd) as [od Ho]. unfold read_outfile. rewrite Ho.
      destruct (download_ncdf_gcs w (ndl s) (bucket_name cfg) i od) as [p |] eqn:Ed.
      * eexists. split; [reflexivity |]. eapply keeps_trans; [eassumption |].
        unfold keeps; simpl. auto.
      * now apply Hdl in Ed.
    + exists s1. split; [reflexivity | assumption].
Qed.

(** Lines 176-189 always return; in real time the last blob is kept. *)
Lemma store_images_done rt t category notfound s l :
  files s = Some l ->
  exists s',
    store_images w cfg rt t category notfound s = Done tt s'
    /\ nlist s' = nlist s
    /\ (del_local cfg = true -> outfile s' = outfile s)
    /\ files s' = Some (if rt then firstn 1 (rev l) else l).
Proof.
  intros Hf. destruct s as [n d lg fs o od]. simpl in Hf. subst fs.
  unfold store_images, bind, last_item. simpl.
  destruct l as [| a l]; simpl.
  - eexists. split; [reflexivity |]. simpl. repeat split; auto. now destruct rt.
  - destruct rt; simpl.
    + destruct (rev l ++ [a]) as [| b r] eqn:Er.
      { destruct (rev l); discriminate. }
      simpl.
      match goal with
      | |- context [for_each ?xs ?f ?st] =>
          destruct (for_each_keeps f xs (fun a s H => transfer_keeps t category a s H) st)
            as (s' & E & K); [simpl; discriminate |]
      end.
      exists s'. split; [assumption |].
      destruct K as (K1 & K2 & K3 & K4). simpl in *. auto.
    + match goal with
      | |- context [for_each ?xs ?f ?st] =>
          destruct (for_each_keeps f xs (fun a s H => transfer_keeps t category a s H) st)
            as (s' & E & K); [simpl; discriminate |]
      end.
      exists s'. split; [assumption |].
      destruct K as (K1 & K2 & K3 & K4). simpl in *. auto.
Qed.

(** Outside real time each image step makes one listing and returns. *)
Lemma ir_block_historical sector0 prod t s :
  exists s',
    ir_block w cfg fuel false sector0 prod t s = Done tt s'
    /\ nlist s' = S (nlist s)
    /\ (del_local cfg = true -> outfile s' = outfile s).
Proof.
  destruct s as [n d lg fs o od].
  unfold ir_block, ir_listing, bind. simpl.
  rewrite andb_false_r. simpl.
  match goal with
  | |- context [store_images _ _ _ _ _ _ ?st] =>
      destruct (store_images_done false t "ir" "No IR files found for " st _ eq_refl)
        as (s' & E & H1 & H2 & _)
  end.
  exists s'. split; [assumption |]. simpl in *. auto.
Qed.

Lemma channel_block_historical sector0 prod t chan category notfound waiting s :
  exists s',
    channel_block w cfg fuel false sector0 prod t chan category notfound waiting s
    = Done tt s'
    /\ nlist s' = S (nlist s)
    /\ (del_local cfg = true -> outfile s' = outfile s).
Proof.
  destruct s as [n d lg fs o od].
  unfold channel_block, channel_listing, bind. simpl.
  match goal with
  | |- context [store_images _ _ _ _ _ _ ?st] =>
      destruct (store_images_done false t category notfound st _ eq_refl)
        as (s' & E & H1 & H2 & _)
  end.
  exists s'. split; [assumption |]. simpl in *. auto.
Qed.

Lemma glm_current_historical sector0 t s :
  exists s',
    glm_current w cfg false sector0 t s = Done tt s'
    /\ nlist s' = S (nlist s)
    /\ (del_local cfg = true -> outfile s' = outfile s).
Proof.
  destruct s as [n d lg fs o od].
  unfold glm_current, bind. simpl.
  destruct (list_gcs w n (bucket_name cfg) (g_prefix t) ["GLM"; stamp t]) as [| a l];
    simpl.
  - eexists. split; [reflexivity |]. simpl. auto.
  - match goal with
    | |- context [for_each ?xs ?f ?st] =>
        destruct (for_each_keeps f xs (fun a s H => transfer_keeps t "glm" a s H) st)
          as (s' & E & K); [simpl; discriminate |]
    end.
    exists s'. split; [assumption |].
    destruct K as (K1 & K2 & K3 & K4). simpl in *. auto.
Qed.

Lemma glm_backfill_historical t s :
  backfill_safe w cfg -> (minute t < 3 -> sub_hour t <> None) ->
  exists s', glm_backfill w cfg false t s = Done tt s'.
Proof.
  intros Hsafe Hsub. destruct s as [n d lg fs o od].
  unfold glm_backfill. destruct (Z.ltb_spec (minute t) 3); [| unfold ret; eauto].
  destruct (sub_hour t) as [t0 |]; [| now destruct Hsub].
  unfold bind. simpl.
  destruct (list_gcs w n (bucket_name cfg) (g_prefix t0) ["GLM"; stamp t0]) as [| a l];
    [unfold ret; simpl; eauto |].
  cbn [Py.is_empty negb].
  match goal with
  | |- context [for_each ?xs ?f ?st] =>
      destruct (for_each_keeps f xs
                  (fun a s H => transfer_backfill_keeps t a s Hsafe H) st)
        as (s' & E & K); [simpl; discriminate |]
  end.
  exists s'. assumption.
Qed.

Lemma glm_lookahead_done rt t s :
  (55 < minute t -> add_hour t <> None) ->
  exists s', glm_lookahead w cfg rt t s = Done tt s'.
Proof.
  intros Hadd. destruct s as [n d lg fs o od]. unfold glm_lookahead.
  destruct (Z.ltb_spec 55 (minute t)); simpl; [| unfold ret; eauto].
  destruct rt; simpl; [unfold ret; eauto |].
  destruct (add_hour t) as [t1 |]; [| now destruct Hadd].
  unfold bind. simpl.
  destruct (list_gcs w n (bucket_name cfg) (g_prefix t1) ["GLM"; stamp t1]) as [| a l];
    [unfold ret; simpl; eauto |].
  cbn [Py.is_empty negb].
  match goal with
  | |- context [for_each ?xs ?f ?st] =>
      destruct (for_each_keeps f xs (fun a s H => transfer_keeps t "glm" a s H) st)
        as (s' & E & K); [simpl; discriminate |]
  end.
  exists s'. assumption.
Qed.

(** Outside real time, away from the first and the last year of
    [datetime], the work of one hour returns. *)
Lemma hour_body_historical sector0 prod t s :
  backfill_safe w cfg -> valid t = true -> MINYEAR < year t < MAXYEAR ->
  exists s', hour_body w cfg fuel false sector0 prod t s = Done tt s'.
Proof.
  intros Hsafe V Hy. unfold hour_body.
  assert (H1 : exists s1,
    (if negb (no_ir cfg) then ir_block w cfg fuel false sector0 prod t else ret tt) s
    = Done tt s1).
  { destruct (no_ir cfg); simpl; [unfold ret; eauto |].
    destruct (ir_block_historical sector0 prod t s) as (s1 & E & _). eauto. }
  destruct H1 as [s1 E1]. unfold bind at 1. rewrite E1.
  assert (H2 : exists s2,
    (if negb (no_vis cfg) then vis_block w cfg fuel false sector0 prod t else ret tt) s1
    = Done tt s2).
  { destruct (no_vis cfg); simpl; [unfold ret; eauto |].
    destruct (channel_block_historical sector0 prod t "C02" "vis"
                "No VIS files found for " None s1) as (s2 & E & _). eauto. }
  destruct H2 as [s2 E2]. unfold bind at 1. rewrite E2.
  assert (H3 : exists s3,
    (if negb (no_irdiff cfg) then irdiff_block w cfg fuel false sector0 prod t else ret tt) s2
    = Done tt s3).
  { destruct (no_irdiff cfg); simpl; [unfold ret; eauto |].
    destruct (channel_block_historical sector0 prod t "C08" "ir_diff"
                "No 6.2 micron IR files found for "
                (Some "Waiting for IR C08 files to be available online") s2)
      as (s3 & E & _). eauto. }
  destruct H3 as [s3 E3]. unfold bind at 1. rewrite E3.
  destruct (no_glm cfg); simpl; [unfold ret; eauto |].
  unfold glm_block.
  destruct (glm_current_historical sector0 t s3) as (s4 & E4 & _).
  unfold bind at 1. rewrite E4.
  destruct (glm_backfill_historical t s4 Hsafe) as (s5 & E5).
  { intros _ E. apply CalFacts.sub_hour_none in E; [lia | assumption]. }
  unfold bind at 1. rewrite E5. unfold bind at 1. unfold ret at 1.
  apply glm_lookahead_done.
  intros _ E. apply CalFacts.add_hour_none in E; [lia | assumption].
Qed.

(** With [del_local] the image steps and the lightning blobs of the hour
    never assign [outfile]; the backfill transfer then reads it unbound. *)
Lemma glm_backfill_unbound t t0 gb s :
  del_local cfg = true -> gcs_bucket cfg = Some gb -> outfile s = None ->
  minute t < 3 -> sub_hour t = Some t0 ->
  list_gcs w (nlist s) (bucket_name cfg) (g_prefix t0) ["GLM"; stamp t0] <> [] ->
  glm_backfill w cfg false t s
  = Raised (UnboundLocalError "outfile")
      (mkstate (S (nlist s)) (ndl s)
         (log s ++ [EvList (bucket_name cfg) (g_prefix t0) ["GLM"; stamp t0];
                    EvMakedirs (category_dir cfg t "glm")])
         (Some (Py.slice_from (-8)
                  (list_gcs w (nlist s) (bucket_name cfg) (g_prefix t0)
                     ["GLM"; stamp t0])))
         None (Some (category_dir cfg t "glm"))).
Proof.
  intros Hd Hg Ho Hm Hs Hl. destruct s as [n d lg fs o od]. simpl in *. subst o.
  unfold glm_backfill. destruct (Z.ltb_spec (minute t) 3); [| lia].
  rewrite Hs. unfold bind. simpl.
  rewrite (is_empty_false _ Hl). simpl.
  pose proof (slice_from_nonempty (-8) _ eq_refl Hl) as Hne.
  destruct (Py.slice_from (-8)
              (list_gcs w n (bucket_name cfg) (g_prefix t0) ["GLM"; stamp t0]))
    as [| a l]; [congruence |].
  unfold for_each, transfer_backfill, fetch, bind. rewrite Hd, Hg. simpl.
  now rewrite <- app_assoc.
Qed.

End BlockFacts.

(** ** Real-time polling *)

Section PollFacts.

Variable w : world.
Variable cfg : config.
Variable fuel : nat.

Lemma first_nonempty_some L n : forall k0 k,
  first_nonempty L n k0 = Some k ->
  (k0 <= k < k0 + n)%nat /\ L k <> []
  /\ forall j, (k0 <= j < k)%nat -> L j = [].
Proof.
  induction n as [| n IH]; intros k0 k; simpl; [discriminate |].
  destruct (Py.is_empty (L k0)) eqn:E.
  - intros H. destruct (IH _ _ H) as (Hk & Hne & Hj).
    split; [lia |]. split; [assumption |].
    intros j Hr. destruct (Nat.eq_dec j k0) as [-> | Hne'].
    + now apply is_empty_nil.
    + apply Hj. lia.
  - intros H. inversion H; subst. split; [lia |]. split.
    + intros E'. rewrite E' in E. discriminate.
    + intros j Hr. lia.
Qed.

Lemma first_nonempty_none L n : forall k0,
  first_nonempty L n k0 = None ->
  forall j, (k0 <= j < k0 + n)%nat -> L j = [].
Proof.
  induction n as [| n IH]; intros k0; simpl; [intros _ j Hj; lia |].
  destruct (Py.is_empty (L k0)) eqn:E; [| discriminate].
  intros H j Hj. destruct (Nat.eq_dec j k0) as [-> | Hne].
  - now apply is_empty_nil.
  - apply (IH _ H). lia.
Qed.

Lemma first_nonempty_found L n : forall k0 k,
  (k0 <= k < k0 + n)%nat -> L k <> [] ->
  (forall j, (k0 <= j < k)%nat -> L j = []) ->
  first_nonempty L n k0 = Some k.
Proof.
  induction n as [| n IH]; intros k0 k Hk Hne Hj; simpl; [lia |].
  destruct (Nat.eq_dec k k0) as [-> | Hd].
  - now rewrite is_empty_false.
  - rewrite (Hj k0) by lia. simpl. apply IH; auto; try lia.
    intros j Hr. apply Hj. lia.
Qed.

Lemma first_nonempty_all_empty L n : forall k0,
  (forall j, (k0 <= j < k0 + n)%nat -> L j = []) ->
  first_nonempty L n k0 = None.
Proof.
  induction n as [| n IH]; intros k0 Hj; simpl; [reflexivity |].
  rewrite (Hj k0) by lia. simpl. apply IH. intros j Hr. apply Hj. lia.
Qed.

Local Arguments Nat.sub : simpl never.
Local Arguments Nat.add : simpl never.

Lemma repeat_snoc {A} (a : A) n : repeat a n ++ [a] = a :: repeat a n.
Proof. induction n; simpl; congruence. Qed.

(** The wait re-issues one and the same listing until it is answered. *)
Lemma wait_nonempty_eq prefix patterns n : forall s,
  let L := fun k => list_gcs w k (bucket_name cfg) prefix patterns in
  let ev := EvList (bucket_name cfg) prefix patterns in
  wait_nonempty w cfg n prefix patterns s
  = match first_nonempty L n (nlist s) with
    | Some k => Done tt (waited s k (repeat ev (S k - nlist s)) (L k))
    | None => Spinning (waiting_after s n (repeat ev n))
    end.
Proof.
  induction n as [| n IH]; intros [k0 d lg fs o od]; simpl.
  - unfold spin, waiting_after. simpl. now rewrite Nat.add_0_r, app_nil_r.
  - unfold bind. simpl.
    destruct (list_gcs w k0 (bucket_name cfg) prefix patterns) as [| a l] eqn:E;
      simpl.
    + rewrite IH. simpl.
      destruct (first_nonempty
                  (fun k => list_gcs w k (bucket_name cfg) prefix patterns) n (S k0))
        as [k |] eqn:F.
      * apply first_nonempty_some in F. destruct F as (Hk & _).
        unfold waited. simpl. rewrite <- app_assoc. simpl.
        replace (S k - k0)%nat with (S (S k - S k0)) by lia. reflexivity.
      * unfold waiting_after. simpl. rewrite <- app_assoc. simpl.
        replace (S k0 + n)%nat with (k0 + S n)%nat by lia.
        now destruct n.
    + unfold ret, waited. simpl. rewrite E.
      replace (S k0 - k0)%nat with 1%nat by lia. reflexivity.
Qed.

(** A listing with its real-time wait, as lines 168-174 and 194-199 run
    it: at most [S fuel] listings of the same request. *)
Lemma poll_eq prefix patterns waiting s :
  let L := fun k => list_gcs w k (bucket_name cfg) prefix patterns in
  let ev := EvList (bucket_name cfg) prefix patterns in
  (l <- call_list w cfg prefix patterns ;;
   set_files l ;;
   l <- read_files ;;
   if Py.is_empty l then
     match waiting with Some msg => print msg | None => ret tt end ;;
     wait_nonempty w cfg fuel prefix patterns
   else ret tt) s
  = match first_nonempty L (S fuel) (nlist s) with
    | Some k => Done tt (waited s k (wait_log ev waiting (k - nlist s)) (L k))
    | None =>
        Spinning (waiting_after s (S fuel) (spin_log ev waiting fuel))
    end.
Proof.
  destruct s as [k0 d lg fs o od]. unfold bind. simpl.
  destruct (list_gcs w k0 (bucket_name cfg) prefix patterns) as [| a l] eqn:E;
    simpl.
  - assert (Hw : forall s',
      match match waiting with Some msg => print msg | None => ret tt end s' with
      | Done _ s'' => wait_nonempty w cfg fuel prefix patterns s''
      | Raised e s'' => Raised e s''
      | Spinning s'' => Spinning s''
      end
      = wait_nonempty w cfg fuel prefix patterns
          (mkstate (nlist s') (ndl s')
             (log s' ++ match waiting with Some msg => [EvPrint msg] | None => [] end)
             (files s') (outfile s') (outdir s'))).
    { intros [a1 a2 a3 a4 a5 a6]. destruct waiting; simpl; [reflexivity |].
      now rewrite app_nil_r. }
    rewrite Hw, wait_nonempty_eq. simpl.
    destruct (first_nonempty
                (fun k => list_gcs w k (bucket_name cfg) prefix patterns) fuel (S k0))
      as [k |] eqn:F.
    + apply first_nonempty_some in F. destruct F as (Hk & _).
      unfold waited, wait_log, spin_log. simpl.
      replace (k - k0)%nat with (S k - S k0)%nat by lia.
      destruct (S k - S k0)%nat as [| m] eqn:Em; [lia |].
      rewrite <- !app_assoc. reflexivity.
    + unfold waiting_after, spin_log. simpl.
      rewrite <- !app_assoc. simpl.
      replace (S k0 + fuel)%nat with (k0 + S fuel)%nat by lia.
      now destruct fuel.
  - unfold ret, waited, wait_log. simpl. rewrite E.
    replace (k0 - k0)%nat with 0%nat by lia. reflexivity.
Qed.

End PollFacts.

Section RealTimeFacts.

Import Cal.

Variable w : world.
Variable cfg : config.
Variable fuel : nat.
Variables sector0 prod : string.

Local Arguments for_each {A} l body : simpl never.
Local Arguments Nat.sub : simpl never.
Local Arguments Nat.add : simpl never.
Local Arguments first_nonempty L n k0 : simpl never.

(** Lines 168-174 in real time. *)
Lemma ir_listing_eq t s :
  let L := fun k => list_gcs w k (bucket_name cfg) (iv_prefix prod t) (ir_patterns sector0 t) in
  let ev := EvList (bucket_name cfg) (iv_prefix prod t) (ir_patterns sector0 t) in
  ir_listing w cfg fuel true sector0 prod t s
  = match first_nonempty L (S fuel) (nlist s) with
    | Some k => Done tt (waited s k (wait_log ev ir_waiting (k - nlist s)) (L k))
    | None => Spinning (waiting_after s (S fuel) (spin_log ev ir_waiting fuel))
    end.
Proof.
  intros L ev. subst L ev.
  etransitivity; [| exact (poll_eq w cfg fuel _ _ ir_waiting s)].
  unfold ir_listing, ir_waiting, ir_patterns.
  unfold bind. destruct (call_list w cfg (iv_prefix prod t) ["C13"; stamp t; sector0] s);
    try reflexivity.
  destruct (set_files a s0); try reflexivity.
  destruct (read_files s1); try reflexivity.
  now rewrite andb_true_r.
Qed.

Lemma batch_id_eq s blob rest :
  files s = Some (blob :: rest) ->
  batch_id s = match batch_id_of blob with
               | Some fb => Done fb s
               | None => Raised IndexError s
               end.
Proof.
  intros Hf. unfold batch_id, batch_id_of, bind, read_files, item. rewrite Hf.
  simpl. destruct (Py.re_split (Py.basename blob)) as [| ? [| ? [| ? [| ? ?]]]];
    reflexivity.
Qed.

(** Lines 192-199 in real time after infrared: the listing carries the
    batch identifier of [files[0]]. *)
Lemma channel_listing_eq t chan waiting s blob rest fb :
  no_ir cfg = false -> files s = Some (blob :: rest) -> batch_id_of blob = Some fb ->
  let patterns := [chan; stamp t; sector0; fb] in
  let L := fun k => list_gcs w k (bucket_name cfg) (iv_prefix prod t) patterns in
  let ev := EvList (bucket_name cfg) (iv_prefix prod t) patterns in
  channel_listing w cfg fuel true sector0 prod t chan waiting s
  = match first_nonempty L (S fuel) (nlist s) with
    | Some k => Done tt (waited s k (wait_log ev waiting (k - nlist s)) (L k))
    | None => Spinning (waiting_after s (S fuel) (spin_log ev waiting fuel))
    end.
Proof.
  intros Hir Hf Hb patterns L ev. subst L ev.
  etransitivity; [| exact (poll_eq w cfg fuel _ _ waiting s)].
  unfold channel_listing. rewrite Hir. simpl.
  unfold bind at 1. rewrite (batch_id_eq s blob rest Hf), Hb. reflexivity.
Qed.

Lemma channel_listing_no_id t chan waiting s blob rest :
  no_ir cfg = false -> files s = Some (blob :: rest) -> batch_id_of blob = None ->
  channel_listing w cfg fuel true sector0 prod t chan waiting s = Raised IndexError s.
Proof.
  intros Hir Hf Hb. unfold channel_listing. rewrite Hir. simpl.
  unfold bind at 1. rewrite (batch_id_eq s blob rest Hf), Hb. reflexivity.
Qed.

Lemma glm_keep_nil : glm_keep sector0 [] = [].
Proof.
  unfold glm_keep.
  destruct (String.eqb sector0 "F"); [reflexivity |].
  destruct (String.eqb sector0 "C"); reflexivity.
Qed.

Lemma slice_from_last {A} (k : nat) (l : list A) :
  (0 < k)%nat -> Py.slice_from (- Z.of_nat k) l = skipn (List.length l - k) l.
Proof.
  intros Hk. unfold Py.slice_from. destruct (Z.ltb_spec (- Z.of_nat k) 0); [| lia].
  f_equal. lia.
Qed.

Lemma glm_current_realtime t s :
  let cur := list_gcs w (nlist s) (bucket_name cfg) (g_prefix t) ["GLM"; stamp t] in
  glm_current w cfg true sector0 t s
  = Done tt (mkstate (S (nlist s)) (ndl s)
               (log s ++ glm_current_events cfg t cur)
               (Some (glm_keep sector0 cur)) (outfile s)
               (if Py.is_empty cur then outdir s
                else Some (category_dir cfg t "glm"))).
Proof.
  destruct s as [n d lg fs o od]. unfold glm_current, glm_current_events, bind. simpl.
  destruct (list_gcs w n (bucket_name cfg) (g_prefix t) ["GLM"; stamp t]) as [| a l];
    simpl.
  - rewrite glm_keep_nil. unfold print, emit. simpl. rewrite <- app_assoc. reflexivity.
  - rewrite <- app_assoc. reflexivity.
Qed.

Lemma slice_from_nil {A} (k : Z) : Py.slice_from k (@nil A) = [].
Proof. unfold Py.slice_from. destruct (k <? 0); apply skipn_nil. Qed.

Lemma glm_backfill_realtime t t0 s l :
  minute t < 3 -> sub_hour t = Some t0 -> files s = Some l ->
  let prev := list_gcs w (nlist s) (bucket_name cfg) (g_prefix t0) ["GLM"; stamp t0] in
  glm_backfill w cfg true t s
  = Done tt (mkstate (S (nlist s)) (ndl s)
               (log s ++ glm_backfill_events cfg t t0 prev)
               (Some (l ++ Py.slice_from (- (-8 + minute t * 3)) prev))
               (outfile s)
               (if Py.is_empty prev then outdir s
                else Some (category_dir cfg t "glm"))).
Proof.
  intros Hm Hs Hf. destruct s as [n d lg fs o od]. simpl in Hf. subst fs.
  unfold glm_backfill, glm_backfill_events.
  destruct (Z.ltb_spec (minute t) 3); [| lia]. rewrite Hs. unfold bind. simpl.
  destruct (list_gcs w n (bucket_name cfg) (g_prefix t0) ["GLM"; stamp t0]) as [| a r];
    simpl.
  - rewrite slice_from_nil, app_nil_r. reflexivity.
  - rewrite <- app_assoc. reflexivity.
Qed.

Lemma glm_backfill_skipped rt t s :
  3 <= minute t -> glm_backfill w cfg rt t s = Done tt s.
Proof.
  intros Hm. unfold glm_backfill. destruct (Z.ltb_spec (minute t) 3); [lia |].
  reflexivity.
Qed.

Lemma for_each_tasks rows sel dir n d lg o :
  for_each rows
    (fun row => l <- read_files ;; od <- read_outdir ;;
                emit (EvApplyAsync row l (bucket_name cfg) od))
    (mkstate n d lg (Some sel) o (Some dir))
  = Done tt (mkstate n d
       (lg ++ map (fun row => EvApplyAsync row sel (bucket_name cfg) dir) rows)
       (Some sel) o (Some dir)).
Proof.
  revert lg. induction rows as [| a r IH]; intros lg; unfold for_each; fold @for_each.
  - unfold ret. now rewrite app_nil_r.
  - unfold bind; simpl. unfold for_each in IH; fold @for_each in IH.
    unfold bind in IH. rewrite IH. now rewrite <- app_assoc.
Qed.

(** Lines 290-299: every kept blob goes to the pool of 5 workers, then
    to the mirror. *)
Lemma glm_realtime_transfer_eq t s sel dir :
  files s = Some sel -> (sel <> [] -> outdir s = Some dir) ->
  glm_realtime_transfer cfg t s
  = Done tt (mkstate (nlist s) (ndl s)
               (log s ++ pool_events cfg sel dir ++ mirror_events cfg t sel)
               (files s) (outfile s) (outdir s)).
Proof.
  intros Hf Hod. destruct s as [n d lg fs o od]. simpl in *. subst fs.
  unfold glm_realtime_transfer, pool_events, mirror_events.
  assert (Hpool :
    (if negb (del_local cfg) then
       emit (EvPool 5) ;;
       l <- read_files ;;
       for_each (seq 0 (List.length l))
         (fun row => l0 <- read_files ;; od0 <- read_outdir ;;
                     emit (EvApplyAsync row l0 (bucket_name cfg) od0)) ;;
       emit EvPoolClose ;; emit EvPoolJoin
     else ret tt) (mkstate n d lg (Some sel) o od)
    = Done tt (mkstate n d
         (lg ++ (if del_local cfg then []
                 else EvPool 5
                      :: map (fun row => EvApplyAsync row sel (bucket_name cfg) dir)
                           (seq 0 (List.length sel))
                      ++ [EvPoolClose; EvPoolJoin]))
         (Some sel) o od)).
  { destruct (del_local cfg); simpl.
    - unfold ret. now rewrite app_nil_r.
    - unfold bind at 1. simpl. unfold bind at 1. simpl.
      destruct sel as [| a r].
      + unfold for_each, bind, ret, emit; simpl. rewrite <- !app_assoc. reflexivity.
      + rewrite Hod by discriminate. unfold bind at 1.
        rewrite for_each_tasks. unfold bind, emit. simpl.
        rewrite <- !app_assoc. reflexivity. }
  unfold bind at 1. rewrite Hpool.
  destruct (gcs_bucket cfg) as [gb |].
  - unfold bind. simpl. rewrite for_each_emit. simpl.
    rewrite <- !app_assoc. reflexivity.
  - unfold ret. rewrite app_nil_r. reflexivity.
Qed.

Lemma glm_lookahead_realtime t s : glm_lookahead w cfg true t s = Done tt s.
Proof. unfold glm_lookahead. now rewrite andb_false_r. Qed.

End RealTimeFacts.

(** ** The run as a whole *)

Section RunFacts.

Import Cal.

Variable w : world.
Variable cfg : config.
Variable fuel : nat.

Lemma sector_setup_meso1 s :
  sector cfg = "meso1"%string -> sector_setup cfg s = Done ("ABI-L1b-RadM", "M1")%string s.
Proof. intros E. unfold sector_setup. rewrite E. reflexivity. Qed.

Lemma sector_setup_meso2 s :
  sector cfg = "meso2"%string -> sector_setup cfg s = Done ("ABI-L1b-RadM", "M2")%string s.
Proof. intros E. unfold sector_setup. rewrite E. reflexivity. Qed.

Lemma sector_setup_conus s :
  sector cfg = "conus"%string -> sector_setup cfg s = Done ("ABI-L1b-RadC", "C")%string s.
Proof. intros E. unfold sector_setup. rewrite E. reflexivity. Qed.

Lemma sector_setup_full s :
  sector cfg = "full"%string -> sector_setup cfg s = Done ("ABI-L1b-RadF", "F")%string s.
Proof. intros E. unfold sector_setup. rewrite E. reflexivity. Qed.

Lemma sector_setup_unsupported c r s :
  sector cfg = String c r -> ~ supported (sector cfg) ->
  sector_setup cfg s
  = Raised SystemExit
      (mkstate (nlist s) (ndl s)
         (log s ++ [EvPrint "Not yet set up to do specified sector"; EvPrint (sector cfg)])
         (files s) (outfile s) (outdir s)).
Proof.
  intros E Hn. unfold supported in Hn. unfold sector_setup.
  destruct (String.eqb_spec (sector cfg) "meso1"); [tauto |].
  destruct (String.eqb_spec (sector cfg) "meso2"); [tauto |].
  destruct (String.eqb_spec (sector cfg) "conus"); [tauto |].
  destruct (String.eqb_spec (sector cfg) "full"); [tauto |].
  rewrite E. destruct s as [k d lg fs o od].
  unfold bind, print, emit, raise. simpl. now rewrite <- app_assoc.
Qed.

Lemma sector_setup_empty s :
  sector cfg = ""%string -> sector_setup cfg s = Raised IndexError s.
Proof. intros E. unfold sector_setup. rewrite E. reflexivity. Qed.

Lemma sector_setup_done p c s s' :
  sector_setup cfg s = Done (p, c) s' ->
  s' = s
  /\ ((sector cfg = "meso1" /\ p = "ABI-L1b-RadM" /\ c = "M1")
      \/ (sector cfg = "meso2" /\ p = "ABI-L1b-RadM" /\ c = "M2")
      \/ (sector cfg = "conus" /\ p = "ABI-L1b-RadC" /\ c = "C")
      \/ (sector cfg = "full" /\ p = "ABI-L1b-RadF" /\ c = "F"))%string.
Proof.
  destruct (String.eqb_spec (sector cfg) "meso1") as [E |].
  { rewrite (sector_setup_meso1 s E). intros H. inversion H. auto. }
  destruct (String.eqb_spec (sector cfg) "meso2") as [E |].
  { rewrite (sector_setup_meso2 s E). intros H. inversion H. auto 6. }
  destruct (String.eqb_spec (sector cfg) "conus") as [E |].
  { rewrite (sector_setup_conus s E). intros H. inversion H. auto 7. }
  destruct (String.eqb_spec (sector cfg) "full") as [E |].
  { rewrite (sector_setup_full s E). intros H. inversion H. auto 8. }
  destruct (sector cfg) as [| ch r] eqn:E.
  - rewrite sector_setup_empty by assumption. discriminate.
  - rewrite (sector_setup_unsupported ch r) by (unfold supported; rewrite ?E; tauto).
    discriminate.
Qed.

Lemma window_setup_realtime c s :
  date1 cfg = None ->
  window_setup w cfg c s
  = match rt_cursor (utcnow w) c with
    | Some d => Done (d, d, true) s
    | None => Raised OverflowError s
    end.
Proof.
  intros E. unfold window_setup, rt_cursor. rewrite E.
  destruct (String.eqb c "F") eqn:EF; destruct (String.eqb c "C") eqn:EC;
    destruct (minute (utcnow w) <? 10); destruct (minute (utcnow w) <? 4); simpl;
    unfold bind, in_range;
    try reflexivity;
    try (destruct (sub_minutes 10 (utcnow w)); reflexivity);
    try (destruct (sub_minutes 5 (utcnow w)); reflexivity).
Qed.

Lemma window_setup_historical c d1 :
  date1 cfg = Some d1 ->
  (window_setup w cfg c ;;
   if verbose cfg then print ("Files downloaded to outroot " ++ outroot cfg)
   else ret tt) init_state
  = Done tt (historical_start cfg d1)
  /\ window_setup w cfg c init_state
     = Done (d1, window_end cfg d1, false)
         (mkstate 0 0
            (if verbose cfg then
               [EvPrint ("Downloading dates : " ++ strftime_full d1 ++ " - "
                         ++ strftime_full (window_end cfg d1))]
             else []) None None None).
Proof.
  intros E. unfold window_setup, historical_start, window_end. rewrite E.
  unfold bind, print, emit, ret, init_state. destruct (verbose cfg); simpl; auto.
Qed.

(** A historical run is the hourly loop from [date1] to the end of the
    window. *)
Lemma run_trace_historical d1 p c :
  date1 cfg = Some d1 -> sector_setup cfg init_state = Done (p, c) init_state ->
  run_trace w cfg fuel init_state
  = hour_loop w cfg fuel false c p (window_end cfg d1) fuel d1 [] []
      (historical_start cfg d1).
Proof.
  intros E Hs. unfold run_trace. unfold bind at 1. rewrite Hs.
  destruct (window_setup_historical c d1 E) as [_ Hw].
  unfold bind at 1. rewrite Hw. unfold historical_start.
  unfold bind, print, emit, ret. destruct (verbose cfg); reflexivity.
Qed.

(** A real-time run is the hourly loop from the real-time cursor to
    itself. *)
Lemma run_trace_realtime p c d :
  date1 cfg = None -> sector_setup cfg init_state = Done (p, c) init_state ->
  rt_cursor (utcnow w) c = Some d ->
  run_trace w cfg fuel init_state
  = hour_loop w cfg fuel true c p d fuel d [] [] (rt_start cfg).
Proof.
  intros E Hs Hc. unfold run_trace. unfold bind at 1. rewrite Hs.
  unfold bind at 1. rewrite window_setup_realtime, Hc by assumption.
  unfold rt_start, bind, print, emit, ret, init_state.
  destruct (verbose cfg); reflexivity.
Qed.

Lemma run_trace_overflow p c :
  date1 cfg = None -> sector_setup cfg init_state = Done (p, c) init_state ->
  rt_cursor (utcnow w) c = None ->
  run_trace w cfg fuel init_state = Raised OverflowError init_state.
Proof.
  intros E Hs Hc. unfold run_trace. unfold bind at 1. rewrite Hs.
  unfold bind at 1. rewrite window_setup_realtime, Hc by assumption. reflexivity.
Qed.

Lemma geb_refl d : geb d d = true.
Proof. unfold geb, compare, lex. now rewrite !Z.compare_refl. Qed.

(** The loop of a real-time run: one turn, then the cursor is beyond the
    end. *)
Lemma hour_loop_realtime c p d n s :
  valid d = true ->
  hour_loop w cfg fuel true c p d (S (S n)) d [] [] s
  = (hour_body w cfg fuel true c p d ;;
     _ <- in_range (add_hour d) ;;
     ret ([day_dir cfg d], [d])) s.
Proof.
  intros V. cbn [hour_loop]. rewrite geb_refl.
  unfold bind. destruct (hour_body w cfg fuel true c p d s) as [[] s1 | |];
    try reflexivity.
  unfold in_range. destruct (add_hour d) as [d' |] eqn:A; [| reflexivity].
  destruct (CalFacts.add_hour_spec _ _ V A) as (V' & Hus & _).
  cbn [hour_loop]. cbv beta iota delta [ret].
  rewrite CalFacts.geb_to_us by assumption.
  destruct (Z.leb_spec (to_us d') (to_us d)); [unfold HOUR_US in *; lia |].
  reflexivity.
Qed.

End RunFacts.

(** ** Historical runs: the hourly loop and the manifest *)

Section HistoricalRun.

Import Cal.

Variable w : world.
Variable cfg : config.
Variable fuel : nat.

Lemma run_trace_done_inv r s :
  run_trace w cfg fuel init_state = Done r s ->
  exists p c, sector_setup cfg init_state = Done (p, c) init_state.
Proof.
  unfold run_trace. unfold bind at 1.
  destruct (sector_setup cfg init_state) as [[p c] s1 | |] eqn:E; try discriminate.
  intros _. destruct (sector_setup_done cfg p c _ _ E) as [-> _]. eauto.
Qed.

Lemma supported_setup :
  supported (sector cfg) ->
  exists p c, sector_setup cfg init_state = Done (p, c) init_state.
Proof.
  intros [E | [E | [E | E]]].
  - rewrite sector_setup_meso1 by assumption. eauto.
  - rewrite sector_setup_meso2 by assumption. eauto.
  - rewrite sector_setup_conus by assumption. eauto.
  - rewrite sector_setup_full by assumption. eauto.
Qed.

Lemma to_us_year a b :
  valid a = true -> valid b = true -> to_us a <= to_us b -> year a <= year b.
Proof.
  intros Va Vb H. apply geb_year. rewrite CalFacts.geb_to_us by assumption.
  now apply Z.leb_le.
Qed.

Lemma turns_nonneg d_end date :
  valid d_end = true -> valid date = true -> 0 <= turns d_end date.
Proof.
  intros Ve V. unfold turns, diff_us. rewrite CalFacts.geb_to_us by assumption.
  destruct (Z.leb_spec (to_us date) (to_us d_end)); [| lia].
  assert (0 <= (to_us d_end - to_us date) / HOUR_US).
  { apply Z.div_pos; unfold HOUR_US; lia. }
  lia.
Qed.

(** Away from the ends of [datetime], with a supported sector and a safe
    backfill, a historical run returns once it has more fuel than turns. *)
Lemma run_trace_total d1 :
  date1 cfg = Some d1 -> valid d1 = true -> valid (window_end cfg d1) = true ->
  supported (sector cfg) -> backfill_safe w cfg ->
  MINYEAR < year d1 -> year (window_end cfg d1) < MAXYEAR ->
  turns (window_end cfg d1) d1 < Z.of_nat fuel ->
  exists r s, run_trace w cfg fuel init_state = Done r s.
Proof.
  intros E V1 V2 Hsec Hsafe Hlo Hhi Hfuel.
  destruct (supported_setup Hsec) as (p & c & Hs).
  rewrite (run_trace_historical w cfg fuel d1 p c E Hs).
  pose proof (turns_nonneg (window_end cfg d1) d1 V2 V1) as Hnn.
  destruct fuel as [| n]; [lia |].
  - apply (hour_loop_total w cfg (S n) false c p (window_end cfg d1) d1); auto; try lia.
    + intros t s Vt Ht. apply hour_body_historical; auto.
      pose proof (to_us_year d1 t V1 Vt). pose proof (to_us_year t _ Vt V2). lia.
    + unfold turns, diff_us in Hfuel. rewrite CalFacts.geb_to_us in Hfuel by assumption.
      destruct (Z.leb_spec (to_us d1) (to_us (window_end cfg d1))); [| unfold HOUR_US; lia].
      pose proof (Z.mul_succ_div_gt (to_us (window_end cfg d1) - to_us d1) HOUR_US) as Hd.
      unfold HOUR_US in *. nia.
Qed.

Lemma hourly_head d l c t : hourly d (t :: l) c -> t = d.
Proof. intros H. now inversion H. Qed.

(** C8. A historical run over a window with [end >= start] that returns
    has entered the loop body [floor ((end - start) / 1 hour) + 1]
    times: at [start], then one hour later each time, at no cursor beyond
    [end], and it stopped at the first cursor beyond [end]. Away from the
    ends of [datetime], with a supported sector and a safe backfill, the
    run does return once its fuel exceeds that number. *)
Theorem hourly_loop_turns d1 :
  date1 cfg = Some d1 -> valid d1 = true -> valid (window_end cfg d1) = true ->
  geb (window_end cfg d1) d1 = true ->
  (forall m vis s,
     run_trace w cfg fuel init_state = Done (m, vis) s ->
     Z.of_nat (List.length vis) = diff_us (window_end cfg d1) d1 / HOUR_US + 1
     /\ nth_error vis 0 = Some d1
     /\ exists c,
          hourly d1 vis c /\ geb (window_end cfg d1) c = false
          /\ Forall (fun t => geb (window_end cfg d1) t = true) vis)
  /\ (supported (sector cfg) -> backfill_safe w cfg ->
      MINYEAR < year d1 -> year (window_end cfg d1) < MAXYEAR ->
      diff_us (window_end cfg d1) d1 / HOUR_US + 1 < Z.of_nat fuel ->
      exists m vis s, run_trace w cfg fuel init_state = Done (m, vis) s).
Proof.
  intros E V1 V2 G. split.
  - intros m vis s H.
    destruct (run_trace_done_inv _ _ H) as (p & c & Hs).
    rewrite (run_trace_historical w cfg fuel d1 p c E Hs) in H.
    apply hour_loop_done in H; [| assumption | assumption].
    destruct H as (l & c' & Hv & Hh & Vc & Gc & Hl & _ & Hn).
    simpl in Hv. subst vis. unfold turns in Hn. rewrite G in Hn.
    split; [assumption |]. split.
    + destruct l as [| t l]; [simpl in Hn; unfold diff_us, HOUR_US in Hn |].
      * rewrite CalFacts.geb_to_us in G by assumption. apply Z.leb_le in G.
        assert (0 <= (to_us (window_end cfg d1) - to_us d1) / 3600000000)
          by (apply Z.div_pos; lia).
        lia.
      * simpl. f_equal. eapply hourly_head; eassumption.
    + exists c'. repeat split; auto.
      eapply Forall_impl; [| exact Hl]. simpl. tauto.
  - intros Hsec Hsafe Hlo Hhi Hf.
    destruct (run_trace_total d1) as ([m vis] & s & H); auto.
    + unfold turns. now rewrite G.
    + eauto.
Qed.

(** C1. The manifest a historical run over a window with [end >= start]
    returns holds the directory of each calendar day the cursor visited,
    at the day's first visit and so in the order of the visits, and no
    directory twice: the loop appends the directory of the cursor's day
    exactly when the manifest is empty or its last entry names another
    day. Away from the ends of [datetime], with a supported sector and a
    safe backfill, the run does return a manifest once its fuel exceeds
    the number of turns. *)
Theorem manifest_one_entry_per_day d1 :
  date1 cfg = Some d1 -> valid d1 = true -> valid (window_end cfg d1) = true ->
  geb (window_end cfg d1) d1 = true ->
  (forall m s,
     run_download_goes_ir_vis_l1b_glm_l2_data w cfg fuel init_state = Done m s ->
     exists vis c,
       run_trace w cfg fuel init_state = Done (m, vis) s
       /\ hourly d1 vis c
       /\ m = map (Py.path_join (outroot cfg)) (first_visits (map strftime_Ymd vis))
       /\ NoDup m
       /\ (forall t, In t vis -> In (day_dir cfg t) m)
       /\ (forall e, In e m -> exists t, In t vis /\ e = day_dir cfg t))
  /\ (forall t, manifest_step cfg [] t = [day_dir cfg t])
  /\ (forall m0 q t, valid q = true ->
        manifest_step cfg (m0 ++ [day_dir cfg q]) t
        = if String.eqb (strftime_Ymd t) (strftime_Ymd q)
          then m0 ++ [day_dir cfg q]
          else m0 ++ [day_dir cfg q; day_dir cfg t])
  /\ (supported (sector cfg) -> backfill_safe w cfg ->
      MINYEAR < year d1 -> year (window_end cfg d1) < MAXYEAR ->
      diff_us (window_end cfg d1) d1 / HOUR_US + 1 < Z.of_nat fuel ->
      exists m s,
        run_download_goes_ir_vis_l1b_glm_l2_data w cfg fuel init_state = Done m s).
Proof.
  intros E V1 V2 G. split; [| split; [| split]].
  - intros m s H. unfold run_download_goes_ir_vis_l1b_glm_l2_data, bind in H.
    destruct (run_trace w cfg fuel init_state) as [[m' vis] s1 | |] eqn:R;
      try discriminate.
    unfold ret in H. simpl in H. inversion H; subst m' s1. clear H.
    destruct (run_trace_done_inv _ _ R) as (p & c & Hs).
    pose proof R as R'.
    rewrite (run_trace_historical w cfg fuel d1 p c E Hs) in R'.
    apply hour_loop_done in R'; [| assumption | assumption].
    destruct R' as (l & c' & Hv & Hh & _ & _ & _ & Hm & _).
    simpl in Hv. subst l.
    destruct (manifest_of_visits cfg d1 vis c' Hh V1) as [Hmap Hnd].
    rewrite <- Hm in Hmap, Hnd.
    exists vis, c'. repeat split; auto.
    + intros t Ht. rewrite Hmap. unfold day_dir. apply in_map.
      apply DayFacts.first_visits_in. now apply in_map.
    + intros e He. rewrite Hmap in He. apply in_map_iff in He.
      destruct He as (d & <- & Hd). apply -> DayFacts.first_visits_in in Hd.
      apply in_map_iff in Hd. destruct Hd as (t & <- & Ht). now exists t.
  - intros t. apply manifest_step_empty.
  - intros m0 q t Vq. rewrite manifest_step_last by assumption.
    destruct (String.eqb (strftime_Ymd t) (strftime_Ymd q)); [reflexivity |].
    now rewrite <- app_assoc.
  - intros Hsec Hsafe Hlo Hhi Hf.
    destruct (run_trace_total d1) as ([m vis] & s & H); auto.
    + unfold turns. now rewrite G.
    + exists m, s. unfold run_download_goes_ir_vis_l1b_glm_l2_data, bind.
      now rewrite H.
Qed.

End HistoricalRun.

(** A window from 22:30 to 01:10 the next day: three turns. *)
Lemma hourly_loop_turns_witness :
  (forall m vis s,
     run_trace sample_world sample_window 5 init_state = Done (m, vis) s ->
     Z.of_nat (List.length vis) = 3
     /\ nth_error vis 0 = Some (mkdt 2020 6 1 22 30 0 0)
     /\ exists c,
          hourly (mkdt 2020 6 1 22 30 0 0) vis c
          /\ Cal.geb (mkdt 2020 6 2 1 10 0 0) c = false
          /\ Forall (fun t => Cal.geb (mkdt 2020 6 2 1 10 0 0) t = true) vis)
  /\ exists m vis s, run_trace sample_world sample_window 5 init_state = Done (m, vis) s.
Proof.
  destruct (hourly_loop_turns sample_world sample_window 5 (mkdt 2020 6 1 22 30 0 0))
    as [H1 H2]; try reflexivity.
  split; [exact H1 |].
  apply H2.
  - unfold supported. simpl. auto.
  - left. reflexivity.
  - reflexivity.
  - reflexivity.
  - reflexivity.
Defined.

(** The same window: two days, each once, in the order of the visits. *)
Lemma manifest_one_entry_per_day_witness :
  exists s vis,
    run_download_goes_ir_vis_l1b_glm_l2_data sample_world sample_window 5 init_state
    = Done ["/data/20200601"; "/data/20200602"]%string s
    /\ ["/data/20200601"; "/data/20200602"]%string
       = map (Py.path_join "/data") (first_visits (map Cal.strftime_Ymd vis))
    /\ NoDup ["/data/20200601"; "/data/20200602"]%string.
Proof.
  destruct (manifest_one_entry_per_day sample_world sample_window 5
              (mkdt 2020 6 1 22 30 0 0)) as (H1 & _); try reflexivity.
  assert (H : exists s,
            run_download_goes_ir_vis_l1b_glm_l2_data sample_world sample_window 5
              init_state
            = Done ["/data/20200601"; "/data/20200602"]%string s).
  { eexists. vm_compute. reflexivity. }
  destruct H as (s & H).
  destruct (H1 _ s H) as (vis & c & _ & _ & Hm & Hnd & _).
  exists s, vis. split; [exact H |]. split; [exact Hm | exact Hnd].
Defined.

(** ** The mirror of the backfill *)

Section OutfileFacts.

Import Cal.

Variable w : world.
Variable cfg : config.
Variable fuel : nat.

Hypothesis Hdel : del_local cfg = true.

Lemma keeps_outfile_bind {A B} (c : M A) (k : A -> M B) :
  keeps_outfile c -> (forall a, keeps_outfile (k a)) -> keeps_outfile (bind c k).
Proof.
  intros Hc Hk s. unfold bind. specialize (Hc s).
  destruct (c s) as [a s1 | e s1 | s1]; simpl in *; try assumption.
  now rewrite Hk.
Qed.

Lemma keeps_outfile_ret {A} (a : A) : keeps_outfile (ret a).
Proof. intros s. reflexivity. Qed.

Lemma keeps_outfile_raise {A} e : keeps_outfile (@raise A e).
Proof. intros s. reflexivity. Qed.

Lemma keeps_outfile_spin {A} : keeps_outfile (@spin A).
Proof. intros s. reflexivity. Qed.

Lemma keeps_outfile_emit e : keeps_outfile (emit e).
Proof. intros s. reflexivity. Qed.

Lemma keeps_outfile_print m : keeps_outfile (print m).
Proof. intros s. reflexivity. Qed.

Lemma keeps_outfile_set_files l : keeps_outfile (set_files l).
Proof. intros s. reflexivity. Qed.

Lemma keeps_outfile_set_outdir d : keeps_outfile (set_outdir d).
Proof. intros s. reflexivity. Qed.

Lemma keeps_outfile_read_files : keeps_outfile read_files.
Proof. intros s. unfold read_files. now destruct (files s). Qed.

Lemma keeps_outfile_read_outdir : keeps_outfile read_outdir.
Proof. intros s. unfold read_outdir. now destruct (outdir s). Qed.

Lemma keeps_outfile_read_outfile : keeps_outfile read_outfile.
Proof. intros s. unfold read_outfile. destruct (outfile s) eqn:E; simpl; auto. Qed.

Lemma keeps_outfile_index {A} (l : list A) i : keeps_outfile (item l i).
Proof. intros s. unfold item. now destruct (nth_error l i). Qed.

Lemma keeps_outfile_index_last {A} (l : list A) : keeps_outfile (last_item l).
Proof. intros s. unfold last_item. now destruct (rev l). Qed.

Lemma keeps_outfile_in_range o : keeps_outfile (in_range o).
Proof. intros s. unfold in_range. now destruct o. Qed.

Lemma keeps_outfile_call_list prefix patterns :
  keeps_outfile (call_list w cfg prefix patterns).
Proof. intros s. reflexivity. Qed.

Lemma keeps_outfile_for_each {A} (l : list A) body :
  (forall a, keeps_outfile (body a)) -> keeps_outfile (for_each l body).
Proof.
  intros Hb. induction l as [| a r IH]; simpl.
  - apply keeps_outfile_ret.
  - apply keeps_outfile_bind; auto.
Qed.

Lemma keeps_outfile_wait n prefix patterns :
  keeps_outfile (wait_nonempty w cfg n prefix patterns).
Proof.
  induction n as [| n IH]; simpl; [apply keeps_outfile_spin |].
  apply keeps_outfile_bind; [apply keeps_outfile_call_list | intros l].
  apply keeps_outfile_bind; [apply keeps_outfile_set_files | intros _].
  destruct (Py.is_empty l); [assumption | apply keeps_outfile_ret].
Qed.

Create HintDb outfile.

#[local] Hint Resolve keeps_outfile_ret keeps_outfile_raise keeps_outfile_spin
  keeps_outfile_emit keeps_outfile_print keeps_outfile_set_files
  keeps_outfile_set_outdir keeps_outfile_read_files keeps_outfile_read_outdir
  keeps_outfile_read_outfile keeps_outfile_index keeps_outfile_index_last
  keeps_outfile_in_range keeps_outfile_call_list keeps_outfile_wait : outfile.

Ltac outfile_step :=
  first
    [ solve [auto with outfile]
    | apply keeps_outfile_bind; [| intros ?]
    | apply keeps_outfile_for_each; intros ?
    | match goal with
      | |- keeps_outfile (if ?b then _ else _) => destruct b
      | |- keeps_outfile (match ?x with _ => _ end) => destruct x
      end ].

Lemma keeps_outfile_fetch i : keeps_outfile (fetch w cfg i).
Proof. unfold fetch. rewrite Hdel. simpl. auto with outfile. Qed.

#[local] Hint Resolve keeps_outfile_fetch : outfile.

Lemma keeps_outfile_transfer t category i :
  keeps_outfile (transfer w cfg t category i).
Proof. unfold transfer. repeat outfile_step. Qed.

Lemma keeps_outfile_transfer_backfill t i :
  keeps_outfile (transfer_backfill w cfg t i).
Proof. unfold transfer_backfill. repeat outfile_step. Qed.

#[local] Hint Resolve keeps_outfile_transfer keeps_outfile_transfer_backfill : outfile.

Lemma keeps_outfile_store rt t category notfound :
  keeps_outfile (store_images w cfg rt t category notfound).
Proof. unfold store_images. repeat outfile_step. Qed.

#[local] Hint Resolve keeps_outfile_store : outfile.

Lemma keeps_outfile_ir rt c p t : keeps_outfile (ir_block w cfg fuel rt c p t).
Proof. unfold ir_block, ir_listing. repeat outfile_step. Qed.

Lemma keeps_outfile_channel rt c p t chan category notfound waiting :
  keeps_outfile (channel_block w cfg fuel rt c p t chan category notfound waiting).
Proof. unfold channel_block, channel_listing, batch_id. repeat outfile_step. Qed.

Lemma keeps_outfile_glm rt c t : keeps_outfile (glm_block w cfg rt c t).
Proof.
  unfold glm_block, glm_current, glm_backfill, glm_realtime_transfer, glm_lookahead.
  repeat outfile_step.
Qed.

(** With [del_local], no step of the hour assigns [outfile]. *)
Lemma keeps_outfile_hour rt c p t : keeps_outfile (hour_body w cfg fuel rt c p t).
Proof.
  unfold hour_body, vis_block, irdiff_block.
  pose proof (keeps_outfile_ir rt c p t).
  pose proof (keeps_outfile_glm rt c t).
  pose proof (keeps_outfile_channel rt c p t).
  repeat outfile_step.
Qed.

End OutfileFacts.

Section BackfillMirror.

Import Cal.

Variable w : world.
Variable cfg : config.
Variable fuel : nat.

Lemma images_historical c p t s :
  exists s3,
    ((if negb (no_ir cfg) then ir_block w cfg fuel false c p t else ret tt) ;;
     (if negb (no_vis cfg) then vis_block w cfg fuel false c p t else ret tt) ;;
     (if negb (no_irdiff cfg) then irdiff_block w cfg fuel false c p t else ret tt)) s
    = Done tt s3
    /\ nlist s3 = (nlist s + n_images cfg)%nat
    /\ (del_local cfg = true -> outfile s3 = outfile s).
Proof.
  unfold n_images.
  assert (H1 : exists s1,
    (if negb (no_ir cfg) then ir_block w cfg fuel false c p t else ret tt) s = Done tt s1
    /\ nlist s1 = (nlist s + (if no_ir cfg then 0 else 1))%nat
    /\ (del_local cfg = true -> outfile s1 = outfile s)).
  { destruct (no_ir cfg); simpl.
    - exists s. unfold ret. repeat split; auto; lia.
    - destruct (ir_block_historical w cfg fuel c p t s) as (s1 & E & Hn & Ho).
      exists s1. repeat split; auto; lia. }
  destruct H1 as (s1 & E1 & N1 & O1).
  assert (H2 : exists s2,
    (if negb (no_vis cfg) then vis_block w cfg fuel false c p t else ret tt) s1 = Done tt s2
    /\ nlist s2 = (nlist s1 + (if no_vis cfg then 0 else 1))%nat
    /\ (del_local cfg = true -> outfile s2 = outfile s1)).
  { destruct (no_vis cfg); simpl.
    - exists s1. unfold ret. repeat split; auto; lia.
    - destruct (channel_block_historical w cfg fuel c p t "C02" "vis"
                  "No VIS files found for " None s1) as (s2 & E & Hn & Ho).
      exists s2. repeat split; auto; lia. }
  destruct H2 as (s2 & E2 & N2 & O2).
  assert (H3 : exists s3,
    (if negb (no_irdiff cfg) then irdiff_block w cfg fuel false c p t else ret tt) s2
    = Done tt s3
    /\ nlist s3 = (nlist s2 + (if no_irdiff cfg then 0 else 1))%nat
    /\ (del_local cfg = true -> outfile s3 = outfile s2)).
  { destruct (no_irdiff cfg); simpl.
    - exists s2. unfold ret. repeat split; auto; lia.
    - destruct (channel_block_historical w cfg fuel c p t "C08" "ir_diff"
                  "No 6.2 micron IR files found for "
                  (Some "Waiting for IR C08 files to be available online") s2)
        as (s3 & E & Hn & Ho).
      exists s3. repeat split; auto; lia. }
  destruct H3 as (s3 & E3 & N3 & O3).
  exists s3. unfold bind. rewrite E1, E2, E3. repeat split; try lia.
  intros D. rewrite O3, O2, O1; auto.
Qed.

Lemma hour_body_split rt c p t s :
  hour_body w cfg fuel rt c p t s
  = (((if negb (no_ir cfg) then ir_block w cfg fuel rt c p t else ret tt) ;;
      (if negb (no_vis cfg) then vis_block w cfg fuel rt c p t else ret tt) ;;
      (if negb (no_irdiff cfg) then irdiff_block w cfg fuel rt c p t else ret tt)) ;;
     (if negb (no_glm cfg) then glm_block w cfg rt c t else ret tt)) s.
Proof.
  unfold hour_body, bind.
  destruct ((if negb (no_ir cfg) then ir_block w cfg fuel rt c p t else ret tt) s);
    try reflexivity.
  destruct ((if negb (no_vis cfg) then vis_block w cfg fuel rt c p t else ret tt) s0);
    reflexivity.
Qed.

(** In any hour of a historical run that starts with [outfile] unbound. *)
Lemma hour_body_unbound_outfile c p t t0 gb s :
  del_local cfg = true -> gcs_bucket cfg = Some gb -> no_glm cfg = false ->
  minute t < 3 -> sub_hour t = Some t0 -> outfile s = None ->
  list_gcs w (nlist s + n_images cfg + 1) (bucket_name cfg) (g_prefix t0)
    ["GLM"; stamp t0] <> [] ->
  exists s',
    hour_body w cfg fuel false c p t s = Raised (UnboundLocalError "outfile") s'
    /\ outfile s' = None
    /\ exists before,
         log s' = before ++ [EvList (bucket_name cfg) (g_prefix t0) ["GLM"; stamp t0];
                             EvMakedirs (category_dir cfg t "glm")].
Proof.
  intros Hd Hg Hglm Hm Hs Ho Hl.
  rewrite hour_body_split.
  destruct (images_historical c p t s) as (s3 & E3 & N3 & O3).
  unfold bind at 1. rewrite E3, Hglm. simpl.
  unfold glm_block. unfold bind at 1.
  destruct (glm_current_historical w cfg c t s3) as (s4 & E4 & N4 & O4).
  rewrite E4. unfold bind at 1.
  rewrite (glm_backfill_unbound w cfg t t0 gb s4); auto.
  - eexists. split; [reflexivity |]. simpl. split; [reflexivity |]. eauto.
  - rewrite O4, O3; auto.
  - rewrite N4, N3. replace (S (nlist s + n_images cfg)) with (nlist s + n_images cfg + 1)%nat
      by lia. assumption.
Qed.

(** C10. In historical mode, when the cursor minute is below 3, with
    lightning on, a mirror bucket, [del_local] set and a non-empty
    listing of the previous hour, the transfer of the backfill reads
    [outfile], which no step has assigned: the hour ends in an
    [UnboundLocalError] after the listing and the directory, before any
    copy of the backfill. This holds in any hour entered with [outfile]
    unbound; [del_local] keeps it unbound from hour to hour; and it holds
    of the first hour of the run. *)
Theorem backfill_mirror_reads_unbound_outfile c p t t0 gb :
  del_local cfg = true -> gcs_bucket cfg = Some gb -> no_glm cfg = false ->
  minute t < 3 -> sub_hour t = Some t0 ->
  (forall s,
     outfile s = None ->
     list_gcs w (nlist s + n_images cfg + 1) (bucket_name cfg) (g_prefix t0)
       ["GLM"; stamp t0] <> [] ->
     exists s',
       hour_body w cfg fuel false c p t s = Raised (UnboundLocalError "outfile") s'
       /\ outfile s' = None
       /\ exists before,
            log s' = before ++ [EvList (bucket_name cfg) (g_prefix t0) ["GLM"; stamp t0];
                                EvMakedirs (category_dir cfg t "glm")])
  /\ (forall rt t' s, outfile (final (hour_body w cfg fuel rt c p t' s)) = outfile s)
  /\ (forall n,
        fuel = S n -> date1 cfg = Some t ->
        sector_setup cfg init_state = Done (p, c) init_state ->
        geb (window_end cfg t) t = true ->
        list_gcs w (n_images cfg + 1) (bucket_name cfg) (g_prefix t0)
          ["GLM"; stamp t0] <> [] ->
        exists s',
          run_download_goes_ir_vis_l1b_glm_l2_data w cfg fuel init_state
          = Raised (UnboundLocalError "outfile") s').
Proof.
  intros Hd Hg Hglm Hm Hs. split; [| split].
  - intros s Ho Hl. eapply hour_body_unbound_outfile; eauto.
  - intros rt t' s. now apply keeps_outfile_hour.
  - intros n Hf E Hsec G Hl.
    destruct (hour_body_unbound_outfile c p t t0 gb (historical_start cfg t))
      as (s' & Hb & _); auto.
    exists s'. unfold run_download_goes_ir_vis_l1b_glm_l2_data. unfold bind at 1.
    rewrite (run_trace_historical w cfg fuel t p c E Hsec). rewrite Hf at 2.
    cbn [hour_loop]. rewrite G. unfold bind at 1. rewrite Hb. reflexivity.
Qed.

End BackfillMirror.

(** One hour at 00:00:00 with a mirror bucket and [del_local]. *)
Lemma backfill_mirror_reads_unbound_outfile_witness :
  exists s',
    run_download_goes_ir_vis_l1b_glm_l2_data sample_world sample_mirror_only 3 init_state
    = Raised (UnboundLocalError "outfile") s'.
Proof.
  destruct (backfill_mirror_reads_unbound_outfile sample_world sample_mirror_only 3
              "C" "ABI-L1b-RadC" (mkdt 2020 6 1 0 0 0 0) (mkdt 2020 5 31 23 0 0 0)
              "mirror" eq_refl eq_refl eq_refl eq_refl eq_refl) as (_ & _ & H).
  apply (H 2%nat); try reflexivity. discriminate.
Defined.

(** ** The mirror key of the backfill, and the scan sector *)

(** C9. The mirror key of a blob is [<YYYYMMDD>/<category>/<basename>]
    on every transfer but the historical backfill of lightning, where
    line 288 writes [pref + os.path.basename(outfile)]: a key without the
    separator before the basename, for every blob and every download
    result. At 00:00:00 with a mirror bucket, the three blobs of the hour
    are copied under [20200601/glm/...], the three blobs of the hour
    before under [20200601/glmOR_GLM-...]. *)
Theorem backfill_mirror_key_lacks_separator :
  (exists s,
     run_download_goes_ir_vis_l1b_glm_l2_data sample_world sample_mirror 3 init_state
     = Done ["/data/20200601"%string] s
     /\ mirror_keys (log s)
        = ["20200601/ir/OR_ABI-L1b-RadM2-M6C13_G16_s20201531200249_e20201531200306_c20201531200341.nc";
           "20200601/vis/OR_ABI-L1b-RadM2-M6C02_G16_s20201531200249_e20201531200306_c20201531200341.nc";
           "20200601/glm/OR_GLM-L2-LCFA_G16_s1.nc";
           "20200601/glm/OR_GLM-L2-LCFA_G16_s2.nc";
           "20200601/glm/OR_GLM-L2-LCFA_G16_s3.nc";
           "20200601/glmOR_GLM-L2-LCFA_G16_s1.nc";
           "20200601/glmOR_GLM-L2-LCFA_G16_s2.nc";
           "20200601/glmOR_GLM-L2-LCFA_G16_s3.nc"]%string)
  /\ (forall t category i,
        Cal.valid t = true ->
        In category ["ir"; "vis"; "ir_diff"; "glm"]%string ->
        mirror_key t category i
        = (Cal.strftime_Ymd t ++ "/" ++ category ++ "/" ++ Py.basename i)%string)
  /\ (forall w cfg t i gb od p s,
        Cal.valid t = true -> gcs_bucket cfg = Some gb -> del_local cfg = false ->
        outdir s = Some od ->
        download_ncdf_gcs w (ndl s) (bucket_name cfg) i od = DlPath p ->
        let key := (Py.path_join (Cal.strftime_Ymd t) "glm" ++ Py.basename p)%string in
        transfer_backfill w cfg t i s
        = Done tt
            (mkstate (nlist s) (S (ndl s))
               (log s ++ [EvDownload (bucket_name cfg) i od;
                          EvCopy (bucket_name cfg) i gb key])
               (files s) (Some (DlPath p)) (outdir s))
        /\ key <> mirror_key t "glm" i).
Proof.
  split; [| split].
  - eexists. split; vm_compute; reflexivity.
  - intros t category i V [<- | [<- | [<- | [<- | []]]]];
      now apply StrFacts.mirror_key_layout.
  - intros w cfg t i gb od p s V Hg Hd Ho Hp key. split.
    + destruct s as [n d lg fs o od']. simpl in Ho, Hp. subst od'.
      unfold transfer_backfill, fetch, bind. rewrite Hd, Hg. simpl. rewrite Hp.
      unfold emit. simpl. now rewrite <- app_assoc.
    + now apply StrFacts.backfill_key_differs.
Qed.

Section SectorFacts.

Variable w : world.
Variable cfg : config.
Variable fuel : nat.

(** C7. The scan-sector code is a table lookup on the four supported
    sectors. Any other sector that is not the empty string ends the run
    with [SystemExit] after the two lines of the diagnostic, and the
    empty string ends it with the [IndexError] of line 124, before the
    diagnostic: in both cases before any listing or transfer, and with
    no manifest. *)
Theorem sector_code_table :
  (forall s, sector cfg = "meso1"%string ->
     sector_setup cfg s = Done ("ABI-L1b-RadM", "M1")%string s)
  /\ (forall s, sector cfg = "meso2"%string ->
        sector_setup cfg s = Done ("ABI-L1b-RadM", "M2")%string s)
  /\ (forall s, sector cfg = "conus"%string ->
        sector_setup cfg s = Done ("ABI-L1b-RadC", "C")%string s)
  /\ (forall s, sector cfg = "full"%string ->
        sector_setup cfg s = Done ("ABI-L1b-RadF", "F")%string s)
  /\ (~ supported (sector cfg) -> sector cfg <> ""%string ->
      run_download_goes_ir_vis_l1b_glm_l2_data w cfg fuel init_state
      = Raised SystemExit
          (mkstate 0 0
             [EvPrint "Not yet set up to do specified sector"; EvPrint (sector cfg)]
             None None None))
  /\ (sector cfg = ""%string ->
      run_download_goes_ir_vis_l1b_glm_l2_data w cfg fuel init_state
      = Raised IndexError init_state).
Proof.
  repeat split.
  - intros s. apply sector_setup_meso1.
  - intros s. apply sector_setup_meso2.
  - intros s. apply sector_setup_conus.
  - intros s. apply sector_setup_full.
  - intros Hn He. destruct (sector cfg) as [| ch r] eqn:E; [congruence |].
    unfold run_download_goes_ir_vis_l1b_glm_l2_data, run_trace, bind.
    rewrite (sector_setup_unsupported cfg ch r) by (rewrite ?E; auto).
    rewrite E. reflexivity.
  - intros E. unfold run_download_goes_ir_vis_l1b_glm_l2_data, run_trace, bind.
    now rewrite sector_setup_empty.
Qed.

End SectorFacts.

(** ** Real time: the wait for infrared *)

Section InfraredWait.

Import Cal.

Variable w : world.
Variable cfg : config.

Lemma hour_body_ir_first fuel c p t s :
  no_ir cfg = false ->
  hour_body w cfg fuel true c p t s
  = (ir_listing w cfg fuel true c p t ;;
     store_images w cfg true t "ir" "No IR files found for " ;;
     (if negb (no_vis cfg) then vis_block w cfg fuel true c p t else ret tt) ;;
     (if negb (no_irdiff cfg) then irdiff_block w cfg fuel true c p t else ret tt) ;;
     (if negb (no_glm cfg) then glm_block w cfg true c t else ret tt)) s.
Proof.
  intros E. unfold hour_body, ir_block. rewrite E. simpl. unfold bind.
  destruct (ir_listing w cfg fuel true c p t s); reflexivity.
Qed.

(** C2. In real time with infrared on, the run re-issues the one
    infrared listing, with no other event between two listings, as long
    as the listings come back empty: if all the listings its fuel allows
    are empty it is still waiting, with nothing but that listing (and the
    one message) in its log; at the first listing that is not empty the
    infrared step goes on with the blobs of that listing; and a run that
    ends, with a manifest or an error, has seen a listing that is not
    empty. *)
Theorem realtime_waits_for_infrared n p c d :
  date1 cfg = None -> no_ir cfg = false ->
  sector_setup cfg init_state = Done (p, c) init_state ->
  rt_cursor (utcnow w) c = Some d ->
  let L := fun k => list_gcs w k (bucket_name cfg) (iv_prefix p d) (ir_patterns c d) in
  let ev := EvList (bucket_name cfg) (iv_prefix p d) (ir_patterns c d) in
  let run := run_download_goes_ir_vis_l1b_glm_l2_data w cfg (S n) init_state in
  ((forall k, (k <= S n)%nat -> L k = []) ->
   run = Spinning (waiting_after (rt_start cfg) (S (S n)) (spin_log ev ir_waiting (S n))))
  /\ (forall k, (k <= S n)%nat -> L k <> [] -> (forall j, (j < k)%nat -> L j = []) ->
      ir_listing w cfg (S n) true c p d (rt_start cfg)
      = Done tt (waited (rt_start cfg) k (wait_log ev ir_waiting k) (L k)))
  /\ ((exists m s, run = Done m s) \/ (exists e s, run = Raised e s) ->
      exists k, (k <= S n)%nat /\ L k <> [] /\ forall j, (j < k)%nat -> L j = []).
Proof.
  intros E Hir Hsec Hcur L ev run.
  assert (Hrun : forall s',
    ir_listing w cfg (S n) true c p d (rt_start cfg) = Spinning s' -> run = Spinning s').
  { intros s' Hs. subst run.
    unfold run_download_goes_ir_vis_l1b_glm_l2_data. unfold bind at 1.
    rewrite (run_trace_realtime w cfg (S n) p c d E Hsec Hcur).
    cbn [hour_loop]. rewrite geb_refl. unfold bind at 1.
    rewrite hour_body_ir_first by assumption. unfold bind at 1. now rewrite Hs. }
  pose proof (ir_listing_eq w cfg (S n) c p d (rt_start cfg)) as Heq.
  cbv zeta in Heq. fold L ev in Heq.
  replace (nlist (rt_start cfg)) with 0%nat in Heq by reflexivity.
  split; [| split].
  - intros Hall. apply Hrun. rewrite Heq.
    rewrite first_nonempty_all_empty; [reflexivity |].
    intros j Hj. apply Hall. lia.
  - intros k Hk Hne Hj. rewrite Heq.
    rewrite (first_nonempty_found L (S (S n)) 0 k); auto; try lia.
    + now rewrite Nat.sub_0_r.
    + intros j Hr. apply Hj. lia.
  - intros Hend.
    destruct (first_nonempty L (S (S n)) 0) as [k |] eqn:F.
    + apply first_nonempty_some in F. destruct F as (Hk & Hne & Hj).
      exists k. split; [lia |]. split; [assumption |].
      intros j Hr. apply Hj. lia.
    + rewrite (Hrun _ Heq) in Hend.
      destruct Hend as [(m & s & H) | (e & s & H)]; discriminate.
Qed.

End InfraredWait.

(** Two empty infrared listings, then one blob. *)
Lemma realtime_waits_for_infrared_witness :
  let d := mkdt 2020 6 1 12 30 0 0 in
  let L := fun k =>
    list_gcs slow_world k (bucket_name sample_realtime) (iv_prefix "ABI-L1b-RadM" d)
      (ir_patterns "M2" d) in
  let ev := EvList (bucket_name sample_realtime) (iv_prefix "ABI-L1b-RadM" d)
              (ir_patterns "M2" d) in
  ir_listing slow_world sample_realtime 5 true "M2" "ABI-L1b-RadM" d
    (rt_start sample_realtime)
  = Done tt (waited (rt_start sample_realtime) 2 (wait_log ev ir_waiting 2) (L 2%nat))
  /\ exists k, (k <= 5)%nat /\ L k <> [] /\ forall j, (j < k)%nat -> L j = [].
Proof.
  destruct (realtime_waits_for_infrared slow_world sample_realtime 4
              "ABI-L1b-RadM" "M2" (mkdt 2020 6 1 12 30 0 0)
              eq_refl eq_refl eq_refl eq_refl) as (_ & H2 & H3).
  split.
  - apply (H2 2%nat).
    + repeat constructor.
    + discriminate.
    + intros [| [| j]] Hj; [reflexivity | reflexivity |].
      exfalso. apply (Nat.nlt_0_r j).
      apply Nat.succ_lt_mono, Nat.succ_lt_mono. exact Hj.
  - apply H3. left. eexists. eexists. vm_compute. reflexivity.
Defined.

(** ** Real time: the listings under the batch identifier *)

Section CorrelatedListing.

Import Cal.

Variable w : world.
Variable cfg : config.
Variable fuel : nat.
Variables c p : string.

Lemma in_spin_log ev waiting n e :
  In e (spin_log ev waiting n) -> e = ev \/ exists m, e = EvPrint m.
Proof.
  unfold spin_log. intros [H | H]; [now left |].
  apply in_app_or in H. destruct H as [H | H].
  - destruct waiting as [m |]; [| contradiction].
    destruct H as [H | []]. right. now exists m.
  - apply repeat_spec in H. now left.
Qed.

Lemma in_wait_log ev waiting n e :
  In e (wait_log ev waiting n) -> e = ev \/ exists m, e = EvPrint m.
Proof.
  destruct n as [| n]; unfold wait_log.
  - intros [H | []]. now left.
  - apply in_spin_log.
Qed.

Lemma channel_block_eq t chan category notfound waiting s blob rest fb :
  no_ir cfg = false -> files s = Some (blob :: rest) -> batch_id_of blob = Some fb ->
  let patterns := [chan; stamp t; c; fb] in
  let L := fun k => list_gcs w k (bucket_name cfg) (iv_prefix p t) patterns in
  let ev := EvList (bucket_name cfg) (iv_prefix p t) patterns in
  channel_block w cfg fuel true c p t chan category notfound waiting s
  = match first_nonempty L (S fuel) (nlist s) with
    | Some k =>
        store_images w cfg true t category notfound
          (waited s k (wait_log ev waiting (k - nlist s)) (L k))
    | None => Spinning (waiting_after s (S fuel) (spin_log ev waiting fuel))
    end.
Proof.
  intros Hir Hf Hb patterns L ev. unfold channel_block, bind.
  rewrite (channel_listing_eq w cfg fuel c p t chan waiting s blob rest fb Hir Hf Hb).
  fold patterns. fold L. fold ev.
  now destruct (first_nonempty L (S fuel) (nlist s)).
Qed.

(** C3, as the code has it. In real time with infrared on, when the
    listing of the visible or of the secondary infrared channel under the
    batch identifier returns no blob, the orchestrator waits on that same
    listing, batch identifier included, until it returns a blob, and
    stores the blobs of that answer; the listing without the batch
    identifier is never issued. *)
Theorem correlated_wait_keeps_batch_identifier
    t chan category notfound waiting s blob rest fb :
  no_ir cfg = false -> files s = Some (blob :: rest) -> batch_id_of blob = Some fb ->
  let patterns := [chan; stamp t; c; fb] in
  let L := fun k => list_gcs w k (bucket_name cfg) (iv_prefix p t) patterns in
  let ev := EvList (bucket_name cfg) (iv_prefix p t) patterns in
  ((forall k, (nlist s <= k <= nlist s + fuel)%nat -> L k = []) ->
   channel_block w cfg fuel true c p t chan category notfound waiting s
   = Spinning (waiting_after s (S fuel) (spin_log ev waiting fuel)))
  /\ (forall k, (nlist s <= k <= nlist s + fuel)%nat -> L k <> [] ->
        (forall j, (nlist s <= j < k)%nat -> L j = []) ->
        channel_block w cfg fuel true c p t chan category notfound waiting s
        = store_images w cfg true t category notfound
            (waited s k (wait_log ev waiting (k - nlist s)) (L k)))
  /\ (exists added,
        log (final (channel_listing w cfg fuel true c p t chan waiting s))
        = log s ++ added
        /\ forall e, In e added -> e = ev \/ exists m, e = EvPrint m)
  /\ vis_block w cfg fuel true c p t
     = channel_block w cfg fuel true c p t "C02" "vis" "No VIS files found for " None
  /\ irdiff_block w cfg fuel true c p t
     = channel_block w cfg fuel true c p t "C08" "ir_diff"
         "No 6.2 micron IR files found for "
         (Some "Waiting for IR C08 files to be available online"%string).
Proof.
  intros Hir Hf Hb patterns L ev.
  pose proof (channel_block_eq t chan category notfound waiting s blob rest fb Hir Hf Hb)
    as Hblock.
  pose proof (channel_listing_eq w cfg fuel c p t chan waiting s blob rest fb Hir Hf Hb)
    as Hlist.
  cbv zeta in Hblock, Hlist. fold patterns in Hblock, Hlist.
  fold L in Hblock, Hlist. fold ev in Hblock, Hlist.
  split; [| split; [| split; [| split; reflexivity]]].
  - intros Hall. rewrite Hblock, first_nonempty_all_empty; [reflexivity |].
    intros j Hj. apply Hall. lia.
  - intros k Hk Hne Hj. rewrite Hblock.
    rewrite (first_nonempty_found L (S fuel) (nlist s) k); auto. lia.
  - rewrite Hlist. destruct (first_nonempty L (S fuel) (nlist s)) as [k |]; simpl.
    + eexists. split; [reflexivity |]. apply in_wait_log.
    + eexists. split; [reflexivity |]. apply in_spin_log.
Qed.

(** The blobs a real-time image step leaves in [files]: the last blob of
    the first listing that is not empty. *)
Lemma store_last_blob t category notfound s l s' :
  files s = Some l -> l <> [] ->
  store_images w cfg true t category notfound s = Done tt s' ->
  exists blob, firstn 1 (rev l) = [blob] /\ files s' = Some [blob].
Proof.
  intros Hf Hl H.
  destruct (store_images_done w cfg true t category notfound s l Hf)
    as (s1 & E & _ & _ & Hfiles).
  rewrite E in H. inversion H; subst s1.
  destruct (rev l) as [| blob r] eqn:Er.
  - apply (f_equal (@rev string)) in Er. rewrite rev_involutive in Er. now subst.
  - exists blob. simpl in *. auto.
Qed.

(** C4, as the code has it. In real time with infrared on, every listing
    of the visible and of the secondary infrared channel carries, as its
    fourth filter, the batch identifier of [files[0]], the blob the step
    before has kept: the infrared step leaves the last blob of its
    listing, so the visible listing carries the identifier of the
    infrared blob; the visible step leaves the last blob of its own
    listing, so the secondary infrared listing carries the identifier of
    the visible blob when the visible channel is on, and of the infrared
    blob when it is off. A blob name with fewer than four fields ends the
    run with [IndexError]. *)
Theorem batch_identifier_of_kept_blob t :
  no_ir cfg = false ->
  (forall s chan waiting blob rest fb,
     files s = Some (blob :: rest) -> batch_id_of blob = Some fb ->
     exists added,
       log (final (channel_listing w cfg fuel true c p t chan waiting s))
       = log s ++ added
       /\ forall e, In e added ->
            e = EvList (bucket_name cfg) (iv_prefix p t) [chan; stamp t; c; fb]
            \/ exists m, e = EvPrint m)
  /\ (forall s chan waiting blob rest,
        files s = Some (blob :: rest) -> batch_id_of blob = None ->
        channel_listing w cfg fuel true c p t chan waiting s = Raised IndexError s)
  /\ (forall s s',
        ir_block w cfg fuel true c p t s = Done tt s' ->
        exists k blob,
          first_nonempty
            (fun k => list_gcs w k (bucket_name cfg) (iv_prefix p t) (ir_patterns c t))
            (S fuel) (nlist s) = Some k
          /\ firstn 1 (rev (list_gcs w k (bucket_name cfg) (iv_prefix p t)
                              (ir_patterns c t))) = [blob]
          /\ files s' = Some [blob])
  /\ (forall s s' chan category notfound waiting blob rest fb,
        files s = Some (blob :: rest) -> batch_id_of blob = Some fb ->
        channel_block w cfg fuel true c p t chan category notfound waiting s
        = Done tt s' ->
        exists k kept,
          first_nonempty
            (fun k => list_gcs w k (bucket_name cfg) (iv_prefix p t)
                        [chan; stamp t; c; fb])
            (S fuel) (nlist s) = Some k
          /\ firstn 1 (rev (list_gcs w k (bucket_name cfg) (iv_prefix p t)
                              [chan; stamp t; c; fb])) = [kept]
          /\ files s' = Some [kept])
  /\ (forall s,
        hour_body w cfg fuel true c p t s
        = (ir_block w cfg fuel true c p t ;;
           (if negb (no_vis cfg) then vis_block w cfg fuel true c p t else ret tt) ;;
           (if negb (no_irdiff cfg) then irdiff_block w cfg fuel true c p t else ret tt) ;;
           (if negb (no_glm cfg) then glm_block w cfg true c t else ret tt)) s).
Proof.
  intros Hir. split; [| split; [| split; [| split]]].
  - intros s chan waiting blob rest fb Hf Hb.
    rewrite (channel_listing_eq w cfg fuel c p t chan waiting s blob rest fb Hir Hf Hb).
    match goal with
    | |- context [first_nonempty ?L ?n ?k0] => destruct (first_nonempty L n k0)
    end; simpl.
    + eexists. split; [reflexivity |]. apply in_wait_log.
    + eexists. split; [reflexivity |]. apply in_spin_log.
  - intros s chan waiting blob rest Hf Hb.
    now apply (channel_listing_no_id w cfg fuel c p t chan waiting s blob rest).
  - intros s s' H. unfold ir_block, bind in H.
    rewrite (ir_listing_eq w cfg fuel c p t s) in H.
    match type of H with
    | context [first_nonempty ?L ?n ?k0] => destruct (first_nonempty L n k0) as [k |] eqn:F
    end; [| discriminate].
    pose proof (first_nonempty_some _ _ _ _ F) as (_ & Hne & _).
    apply store_last_blob with (l := list_gcs w k (bucket_name cfg) (iv_prefix p t)
                                       (ir_patterns c t)) in H; auto.
    destruct H as (blob & H1 & H2). eauto.
  - intros s s' chan category notfound waiting blob rest fb Hf Hb H.
    rewrite (channel_block_eq t chan category notfound waiting s blob rest fb Hir Hf Hb)
      in H.
    match type of H with
    | context [first_nonempty ?L ?n ?k0] => destruct (first_nonempty L n k0) as [k |] eqn:F
    end; [| discriminate].
    pose proof (first_nonempty_some _ _ _ _ F) as (_ & Hne & _).
    apply store_last_blob with (l := list_gcs w k (bucket_name cfg) (iv_prefix p t)
                                       [chan; stamp t; c; fb]) in H; auto.
    destruct H as (kept & H1 & H2). eauto.
  - intros s. unfold hour_body. now rewrite Hir.
Qed.

End CorrelatedListing.

(** The visible listing under the batch identifier is empty once: it is
    issued again, under the batch identifier. *)
Lemma correlated_wait_keeps_batch_identifier_witness :
  let d := mkdt 2020 6 1 12 30 0 0 in
  let patterns := ["C02"; stamp d; "M2"; "20201531230249"]%string in
  let ev := EvList (bucket_name sample_realtime) (iv_prefix "ABI-L1b-RadM" d) patterns in
  channel_block slow_world sample_realtime 5 true "M2" "ABI-L1b-RadM" d
    "C02" "vis" "No VIS files found for " None after_infrared
  = store_images slow_world sample_realtime true d "vis" "No VIS files found for "
      (waited after_infrared 4 (wait_log ev None 1)
         (list_gcs slow_world 4 (bucket_name sample_realtime)
            (iv_prefix "ABI-L1b-RadM" d) patterns)).
Proof.
  destruct (correlated_wait_keeps_batch_identifier slow_world sample_realtime 5
              "M2" "ABI-L1b-RadM" (mkdt 2020 6 1 12 30 0 0)
              "C02" "vis" "No VIS files found for " None after_infrared
              "ABI-L1b-RadM/2020/153/12/OR_ABI-L1b-RadM2-M6C13_G16_s20201531230249_e20201531230306_c20201531230341.nc"
              [] "20201531230249" eq_refl eq_refl eq_refl) as (_ & H & _).
  apply (H 4%nat).
  - split; repeat constructor.
  - discriminate.
  - intros j [H1 H2].
    assert (E : j = 3%nat).
    { apply Nat.le_antisymm; [apply Nat.lt_succ_r; exact H2 | exact H1]. }
    rewrite E. reflexivity.
Defined.

(** C3 as stated fails: in [slow_world] the visible listing under the
    batch identifier (listing number 3) returns no blob, and the
    orchestrator issues it again; the listing without the batch
    identifier, [C02; s202015312; M2], is not among its requests. *)
Lemma uncorrelated_fallback_counterexample :
  let d := mkdt 2020 6 1 12 30 0 0 in
  let o := run_download_goes_ir_vis_l1b_glm_l2_data slow_world sample_realtime 5
             init_state in
  list_gcs slow_world 3 (bucket_name sample_realtime) (iv_prefix "ABI-L1b-RadM" d)
    ["C02"; "s202015312"; "M2"; "20201531230249"]%string = []
  /\ listing_patterns (log (final o))
     = [["C13"; "s202015312"; "M2"]; ["C13"; "s202015312"; "M2"];
        ["C13"; "s202015312"; "M2"];
        ["C02"; "s202015312"; "M2"; "20201531230249"];
        ["C02"; "s202015312"; "M2"; "20201531230249"];
        ["C08"; "s202015312"; "M2"; "20201531230249"];
        ["GLM"; "s202015312"]]%string
  /\ ~ In ["C02"; "s202015312"; "M2"]%string (listing_patterns (log (final o))).
Proof.
  cbv zeta. split; [reflexivity |].
  assert (E : listing_patterns
                (log (final (run_download_goes_ir_vis_l1b_glm_l2_data slow_world
                               sample_realtime 5 init_state)))
              = [["C13"; "s202015312"; "M2"]; ["C13"; "s202015312"; "M2"];
                 ["C13"; "s202015312"; "M2"];
                 ["C02"; "s202015312"; "M2"; "20201531230249"];
                 ["C02"; "s202015312"; "M2"; "20201531230249"];
                 ["C08"; "s202015312"; "M2"; "20201531230249"];
                 ["GLM"; "s202015312"]]%string)
    by (vm_compute; reflexivity).
  split; [exact E |]. rewrite E. simpl.
  intros H. repeat (destruct H as [H | H]; [discriminate H |]). exact H.
Qed.

(** The visible blob kept in [skewed_world]: the secondary infrared
    listing carries the identifier read from its name. *)
Lemma batch_identifier_of_kept_blob_witness :
  let d := mkdt 2020 6 1 12 30 0 0 in
  exists added,
    log (final (channel_listing skewed_world sample_realtime 2 true "M2" "ABI-L1b-RadM" d
                  "C08" (Some "Waiting for IR C08 files to be available online"%string)
                  after_visible))
    = log after_visible ++ added
    /\ forall e, In e added ->
         e = EvList (bucket_name sample_realtime) (iv_prefix "ABI-L1b-RadM" d)
               ["C08"; stamp d; "M2"; "20201531230000"]%string
         \/ exists m, e = EvPrint m.
Proof.
  destruct (batch_identifier_of_kept_blob skewed_world sample_realtime 2
              "M2" "ABI-L1b-RadM" (mkdt 2020 6 1 12 30 0 0) eq_refl) as (H & _).
  exact (H after_visible "C08"%string
           (Some "Waiting for IR C08 files to be available online"%string)
           "ABI-L1b-RadM/2020/153/12/OR_ABI-L1b-RadM2-M6C02_G16_s20201531230000_e20201531230249_c20201531230341.nc"%string
           [] "20201531230000"%string eq_refl eq_refl).
Defined.

(** C4 as stated fails: in [skewed_world] the infrared blob kept has
    batch identifier [20201531230249]; the visible blob listed under it
    carries it as the end of its scan and starts at [20201531230000];
    the secondary infrared listing is filtered by [20201531230000]. *)
Lemma infrared_identifier_counterexample :
  let d := mkdt 2020 6 1 12 30 0 0 in
  let o := run_download_goes_ir_vis_l1b_glm_l2_data skewed_world sample_realtime 2
             init_state in
  firstn 1 (rev (list_gcs skewed_world 0 (bucket_name sample_realtime)
                   (iv_prefix "ABI-L1b-RadM" d) (ir_patterns "M2" d)))
  = ["ABI-L1b-RadM/2020/153/12/OR_ABI-L1b-RadM2-M6C13_G16_s20201531230249_e20201531230306_c20201531230341.nc"%string]
  /\ batch_id_of
       "ABI-L1b-RadM/2020/153/12/OR_ABI-L1b-RadM2-M6C13_G16_s20201531230249_e20201531230306_c20201531230341.nc"
     = Some "20201531230249"%string
  /\ listing_patterns (log (final o))
     = [["C13"; "s202015312"; "M2"];
        ["C02"; "s202015312"; "M2"; "20201531230249"];
        ["C08"; "s202015312"; "M2"; "20201531230000"];
        ["C08"; "s202015312"; "M2"; "20201531230000"];
        ["C08"; "s202015312"; "M2"; "20201531230000"]]%string
  /\ ~ In ["C08"; "s202015312"; "M2"; "20201531230249"]%string
         (listing_patterns (log (final o))).
Proof.
  cbv zeta. split; [reflexivity |]. split; [reflexivity |].
  assert (E : listing_patterns
                (log (final (run_download_goes_ir_vis_l1b_glm_l2_data skewed_world
                               sample_realtime 2 init_state)))
              = [["C13"; "s202015312"; "M2"];
                 ["C02"; "s202015312"; "M2"; "20201531230249"];
                 ["C08"; "s202015312"; "M2"; "20201531230000"];
                 ["C08"; "s202015312"; "M2"; "20201531230000"];
                 ["C08"; "s202015312"; "M2"; "20201531230000"]]%string)
    by (vm_compute; reflexivity).
  split; [exact E |]. rewrite E. simpl.
  intros H. repeat (destruct H as [H | H]; [discriminate H |]). exact H.
Qed.

(** ** Real time: the lightning selection *)

Section LightningSelection.

Import Cal.

Variable w : world.
Variable cfg : config.

Lemma glm_keep_count p c s0 s1 l :
  sector_setup cfg s0 = Done (p, c) s1 ->
  glm_keep c l = skipn (List.length l - keep_count (sector cfg)) l
  /\ (List.length (glm_keep c l) <= keep_count (sector cfg))%nat.
Proof.
  intros H. apply sector_setup_done in H.
  assert (E : glm_keep c l = skipn (List.length l - keep_count (sector cfg)) l).
  { destruct H as (_ & [(E & _ & ->) | [(E & _ & ->) | [(E & _ & ->) | (E & _ & ->)]]]);
      unfold glm_keep, keep_count; rewrite E; simpl.
    - apply (slice_from_last 10); lia.
    - apply (slice_from_last 10); lia.
    - apply (slice_from_last 15); lia.
    - apply (slice_from_last 30); lia. }
  split; [assumption |]. rewrite E, length_skipn.
  assert (0 < keep_count (sector cfg))%nat.
  { unfold keep_count. destruct (String.eqb _ _); [lia |].
    destruct (String.eqb _ _); lia. }
  lia.
Qed.

Lemma glm_keep_nonempty c l : glm_keep c l <> [] -> l <> [].
Proof. intros H E. subst l. now rewrite glm_keep_nil in H. Qed.

(** From minute 3 on: the blobs kept of the hour, and no other listing. *)
Lemma glm_block_realtime_late c t s :
  3 <= minute t ->
  let cur := list_gcs w (nlist s) (bucket_name cfg) (g_prefix t) ["GLM"; stamp t] in
  let sel := glm_keep c cur in
  let dir := category_dir cfg t "glm" in
  glm_block w cfg true c t s
  = Done tt
      (mkstate (S (nlist s)) (ndl s)
         (log s ++ glm_current_events cfg t cur
          ++ pool_events cfg sel dir ++ mirror_events cfg t sel)
         (Some sel) (outfile s)
         (if Py.is_empty cur then outdir s else Some dir)).
Proof.
  intros Hm cur sel dir. unfold glm_block.
  unfold bind at 1. rewrite glm_current_realtime. fold cur. fold sel. fold dir.
  unfold bind at 1. rewrite glm_backfill_skipped by assumption.
  unfold bind at 1. rewrite (glm_realtime_transfer_eq cfg _ _ sel dir); simpl.
  - rewrite glm_lookahead_realtime. now rewrite <- !app_assoc.
  - reflexivity.
  - intros Hne. apply glm_keep_nonempty in Hne.
    now rewrite (is_empty_false _ Hne).
Qed.

(** Below minute 3: the blobs kept of the hour, then a slice of the hour
    before. *)
Lemma glm_block_realtime_early c t t0 s :
  minute t < 3 -> sub_hour t = Some t0 ->
  let cur := list_gcs w (nlist s) (bucket_name cfg) (g_prefix t) ["GLM"; stamp t] in
  let prev := list_gcs w (S (nlist s)) (bucket_name cfg) (g_prefix t0)
                ["GLM"; stamp t0] in
  let sel := glm_keep c cur ++ Py.slice_from (- (-8 + minute t * 3)) prev in
  let dir := category_dir cfg t "glm" in
  glm_block w cfg true c t s
  = Done tt
      (mkstate (S (S (nlist s))) (ndl s)
         (log s ++ glm_current_events cfg t cur ++ glm_backfill_events cfg t t0 prev
          ++ pool_events cfg sel dir ++ mirror_events cfg t sel)
         (Some sel) (outfile s)
         (if Py.is_empty prev
          then (if Py.is_empty cur then outdir s else Some dir)
          else Some dir)).
Proof.
  intros Hm Hs cur prev sel dir. unfold glm_block.
  unfold bind at 1. rewrite glm_current_realtime. fold cur. fold dir.
  unfold bind at 1.
  erewrite (glm_backfill_realtime w cfg t t0); [| exact Hm | exact Hs | reflexivity].
  simpl. fold prev. fold sel. fold dir.
  unfold bind at 1. rewrite (glm_realtime_transfer_eq cfg _ _ sel dir); simpl.
  - rewrite glm_lookahead_realtime. now rewrite <- !app_assoc.
  - reflexivity.
  - intros Hne. destruct prev as [| a r] eqn:Ep; [| reflexivity]. simpl.
    subst sel. rewrite slice_from_nil, app_nil_r in Hne.
    apply glm_keep_nonempty in Hne. now rewrite (is_empty_false _ Hne).
Qed.

(** C5. In real time with lightning on, the blobs kept of the cursor's
    hour are the last 10 of the listing for a meso sector, the last 15
    for CONUS, the last 30 for the full disk. From minute 3 on that is
    the whole selection, and the hour before is not listed. Below minute
    3 the hour before is listed once, right after the cursor's hour, and
    a slice of that listing is appended to the selection. The selection
    is what goes to the pool and to the mirror. *)
Theorem realtime_lightning_selection p c s0 s1 t s :
  sector_setup cfg s0 = Done (p, c) s1 ->
  let cur := list_gcs w (nlist s) (bucket_name cfg) (g_prefix t) ["GLM"; stamp t] in
  let kept := glm_keep c cur in
  let dir := category_dir cfg t "glm" in
  kept = skipn (List.length cur - keep_count (sector cfg)) cur
  /\ (List.length kept <= keep_count (sector cfg))%nat
  /\ (3 <= minute t ->
      glm_block w cfg true c t s
      = Done tt
          (mkstate (S (nlist s)) (ndl s)
             (log s ++ glm_current_events cfg t cur
              ++ pool_events cfg kept dir ++ mirror_events cfg t kept)
             (Some kept) (outfile s)
             (if Py.is_empty cur then outdir s else Some dir)))
  /\ (minute t < 3 -> forall t0, sub_hour t = Some t0 ->
      let prev := list_gcs w (S (nlist s)) (bucket_name cfg) (g_prefix t0)
                    ["GLM"; stamp t0] in
      let sel := kept ++ Py.slice_from (- (-8 + minute t * 3)) prev in
      glm_block w cfg true c t s
      = Done tt
          (mkstate (S (S (nlist s))) (ndl s)
             (log s ++ glm_current_events cfg t cur ++ glm_backfill_events cfg t t0 prev
              ++ pool_events cfg sel dir ++ mirror_events cfg t sel)
             (Some sel) (outfile s)
             (if Py.is_empty prev
              then (if Py.is_empty cur then outdir s else Some dir)
              else Some dir))).
Proof.
  intros Hsec cur kept dir.
  destruct (glm_keep_count p c s0 s1 cur Hsec) as [Hk Hl].
  split; [exact Hk |]. split; [exact Hl |]. split.
  - intros Hm. now apply glm_block_realtime_late.
  - intros Hm t0 Hs. now apply glm_block_realtime_early.
Qed.

End LightningSelection.

(** A meso sector at minute 2: the three blobs of the hour, then the
    third blob of the hour before. *)
Lemma realtime_lightning_selection_witness :
  let t := mkdt 2020 6 1 12 2 30 0 in
  exists s',
    glm_block early_world sample_realtime true "M2" t init_state = Done tt s'
    /\ files s'
       = Some ["GLM-L2-LCFA/2020/153/12/OR_GLM-L2-LCFA_G16_s1.nc";
               "GLM-L2-LCFA/2020/153/12/OR_GLM-L2-LCFA_G16_s2.nc";
               "GLM-L2-LCFA/2020/153/12/OR_GLM-L2-LCFA_G16_s3.nc";
               "GLM-L2-LCFA/2020/153/11/OR_GLM-L2-LCFA_G16_s3.nc"]%string
    /\ nlist s' = 2%nat.
Proof.
  destruct (realtime_lightning_selection early_world sample_realtime
              "ABI-L1b-RadM" "M2" init_state init_state (mkdt 2020 6 1 12 2 30 0)
              init_state eq_refl) as (_ & _ & _ & H).
  eexists. split.
  - exact (H eq_refl (mkdt 2020 6 1 11 2 30 0) eq_refl).
  - split; reflexivity.
Defined.

(** ** Real time over the full disk, lightning only *)

Section FullDisk.

Import Cal.

Variable w : world.
Variable cfg : config.

Lemma rt_cursor_full d :
  valid (utcnow w) = true -> rt_cursor (utcnow w) "F" = Some d ->
  valid d = true /\ 10 <= minute d.
Proof.
  intros V. pose proof (CalFacts.valid_bounds _ V) as B. unfold rt_cursor. simpl.
  destruct (Z.ltb_spec (minute (utcnow w)) 10) as [Hlt | Hge]; simpl.
  - intros H. apply CalFacts.sub_minutes_spec in H; [| lia | assumption].
    destruct H as (V' & _ & Hm). split; [assumption |]. rewrite Hm.
    destruct (Z.leb_spec 10 (minute (utcnow w))); lia.
  - rewrite andb_false_r. intros H. inversion H; subst. split; [assumption | lia].
Qed.

Lemma rt_cursor_full_in_range :
  valid (utcnow w) = true -> MINYEAR < year (utcnow w) ->
  exists d, rt_cursor (utcnow w) "F" = Some d /\ year d < MAXYEAR + 1.
Proof.
  intros V Hy. pose proof (CalFacts.valid_bounds _ V) as B. unfold rt_cursor. simpl.
  destruct (Z.ltb_spec (minute (utcnow w)) 10) as [Hlt | Hge]; simpl.
  - unfold sub_minutes. destruct (Z.leb_spec 10 (minute (utcnow w))); [lia |].
    destruct (sub_hour (set_minute (utcnow w) (minute (utcnow w) + 60 - 10)))
      as [d |] eqn:E.
    + exists d. split; [reflexivity |].
      apply CalFacts.sub_hour_spec in E; [| apply CalFacts.valid_set_minute; [assumption | lia]].
      destruct E as (V' & _). apply CalFacts.valid_bounds in V'. unfold MAXYEAR. lia.
    + apply CalFacts.sub_hour_none in E;
        [| apply CalFacts.valid_set_minute; [assumption | lia]].
      simpl in E. lia.
  - rewrite andb_false_r. exists (utcnow w). split; [reflexivity |]. unfold MAXYEAR. lia.
Qed.

Lemma final_fst {A B} (c : M (A * B)) s :
  final ((r <- c ;; ret (fst r)) s) = final (c s).
Proof. unfold bind. now destruct (c s). Qed.

(** Whatever the fuel from 1 on, and however the loop ends, a real-time
    run whose hour returns stops in the state its hour has left. *)
Lemma hour_loop_realtime_final fuel c p d n s s1 :
  valid d = true ->
  hour_body w cfg fuel true c p d s = Done tt s1 ->
  final (hour_loop w cfg fuel true c p d (S n) d [] [] s) = s1.
Proof.
  intros V Hb. cbn [hour_loop]. rewrite geb_refl. unfold bind at 1. rewrite Hb.
  unfold bind at 1. unfold in_range.
  destruct (add_hour d) as [d' |] eqn:A; [| reflexivity].
  cbv beta iota delta [ret]. destruct n as [| n]; [reflexivity |].
  cbn [hour_loop]. destruct (CalFacts.add_hour_spec _ _ V A) as (V' & Hus & _).
  rewrite CalFacts.geb_to_us by assumption.
  destruct (Z.leb_spec (to_us d') (to_us d)); [unfold HOUR_US in *; lia |].
  reflexivity.
Qed.

Hypothesis Hrt : date1 cfg = None.
Hypothesis Hfull : sector cfg = "full"%string.
Hypothesis Hir : no_ir cfg = true.
Hypothesis Hvis : no_vis cfg = true.
Hypothesis Hirdiff : no_irdiff cfg = true.
Hypothesis Hglm : no_glm cfg = false.

Lemma hour_body_lightning_only fuel c p t s :
  hour_body w cfg fuel true c p t s = glm_block w cfg true c t s.
Proof. unfold hour_body. rewrite Hir, Hvis, Hirdiff, Hglm. reflexivity. Qed.

Lemma filter_tasks {A} (f : A -> event) (keep : event -> bool) (l : list A) b :
  (forall a, keep (f a) = b) -> filter keep (map f l) = if b then map f l else [].
Proof.
  intros H. induction l as [| a r IH]; simpl; [now destruct b |].
  rewrite H, IH. now destruct b.
Qed.

Lemma lightning_log_downloads t cur sel dir :
  filter is_download
    (log (rt_start cfg) ++ glm_current_events cfg t cur
     ++ pool_events cfg sel dir ++ mirror_events cfg t sel) = [].
Proof.
  rewrite !filter_app.
  assert (H1 : filter is_download (log (rt_start cfg)) = []).
  { unfold rt_start. simpl. now destruct (verbose cfg). }
  assert (H2 : filter is_download (glm_current_events cfg t cur) = []).
  { unfold glm_current_events. now destruct (Py.is_empty cur). }
  assert (H3 : filter is_download (pool_events cfg sel dir) = []).
  { unfold pool_events. destruct (del_local cfg); [reflexivity |]. simpl.
    rewrite filter_app, (filter_tasks _ _ _ false); auto. }
  assert (H4 : filter is_download (mirror_events cfg t sel) = []).
  { unfold mirror_events. destruct (gcs_bucket cfg); [| reflexivity].
    now rewrite (filter_tasks _ _ _ false). }
  now rewrite H1, H2, H3, H4.
Qed.

Lemma lightning_log_tasks t cur sel dir :
  filter is_pool_task
    (log (rt_start cfg) ++ glm_current_events cfg t cur
     ++ pool_events cfg sel dir ++ mirror_events cfg t sel)
  = if del_local cfg then []
    else map (fun row => EvApplyAsync row sel (bucket_name cfg) dir)
           (seq 0 (List.length sel)).
Proof.
  rewrite !filter_app.
  assert (H1 : filter is_pool_task (log (rt_start cfg)) = []).
  { unfold rt_start. simpl. now destruct (verbose cfg). }
  assert (H2 : filter is_pool_task (glm_current_events cfg t cur) = []).
  { unfold glm_current_events. now destruct (Py.is_empty cur). }
  assert (H4 : filter is_pool_task (mirror_events cfg t sel) = []).
  { unfold mirror_events. destruct (gcs_bucket cfg); [| reflexivity].
    now rewrite (filter_tasks _ _ _ false). }
  rewrite H1, H2, H4, app_nil_r. simpl.
  unfold pool_events. destruct (del_local cfg); [reflexivity |]. simpl.
  rewrite filter_app, (filter_tasks _ _ _ true) by auto. simpl. apply app_nil_r.
Qed.

Lemma lightning_log_pools t cur sel dir k :
  In (EvPool k)
    (log (rt_start cfg) ++ glm_current_events cfg t cur
     ++ pool_events cfg sel dir ++ mirror_events cfg t sel) ->
  k = 5%nat.
Proof.
  intros H. repeat (apply in_app_or in H; destruct H as [H | H]).
  - unfold rt_start in H. simpl in H. destruct (verbose cfg); simpl in H;
      [destruct H as [H | []]; discriminate | contradiction].
  - unfold glm_current_events in H. destruct H as [H | H]; [discriminate |].
    destruct (Py.is_empty cur); destruct H as [H | []]; discriminate.
  - unfold pool_events in H. destruct (del_local cfg); [contradiction |].
    destruct H as [H | H]; [now inversion H |].
    apply in_app_or in H. destruct H as [H | H].
    + apply in_map_iff in H. destruct H as (row & H & _). discriminate.
    + destruct H as [H | [H | []]]; discriminate.
  - unfold mirror_events in H. destruct (gcs_bucket cfg); [| contradiction].
    apply in_map_iff in H. destruct H as (i & H & _). discriminate.
Qed.

(** C6. Every real-time run over the full disk with lightning alone
    makes no sequential download; the blobs it hands to the pool, one
    task each, are the blobs it kept, at most 30, and every pool it
    opens has 5 workers. The cursor of such a run is never below minute
    10, so the hour before is not listed. With fuel for two turns of the
    loop, and away from the ends of [datetime], the run returns the
    directory of the cursor's day, with one listing made. *)
Theorem realtime_full_disk_lightning fuel :
  valid (utcnow w) = true ->
  let o := run_download_goes_ir_vis_l1b_glm_l2_data w cfg fuel init_state in
  filter is_download (log (final o)) = []
  /\ (forall k, In (EvPool k) (log (final o)) -> k = 5%nat)
  /\ (exists sel dir,
        (List.length sel <= 30)%nat
        /\ (filter is_pool_task (log (final o)) = []
            \/ filter is_pool_task (log (final o))
               = map (fun row => EvApplyAsync row sel (bucket_name cfg) dir)
                   (seq 0 (List.length sel))))
  /\ (MINYEAR < year (utcnow w) < MAXYEAR -> (2 <= fuel)%nat ->
      exists d,
        rt_cursor (utcnow w) "F" = Some d /\ 10 <= minute d
        /\ let cur := list_gcs w 0 (bucket_name cfg) (g_prefix d) ["GLM"; stamp d] in
           let sel := Py.slice_from (-30) cur in
           let dir := category_dir cfg d "glm" in
           o = Done [day_dir cfg d]
                 (mkstate 1 0
                    (log (rt_start cfg) ++ glm_current_events cfg d cur
                     ++ pool_events cfg sel dir ++ mirror_events cfg d sel)
                    (Some sel) None
                    (if Py.is_empty cur then None else Some dir))).
Proof.
  intros V o.
  pose proof (sector_setup_full cfg init_state Hfull) as Hsec.
  assert (Hlen : forall l : list string, (List.length (Py.slice_from (-30) l) <= 30)%nat).
  { intros l. pose proof (slice_from_length (-30) l). lia. }
  destruct (rt_cursor (utcnow w) "F") as [d |] eqn:Hcur.
  - destruct (rt_cursor_full d V Hcur) as [Vd Hmin].
    assert (Hbody : forall s,
      hour_body w cfg fuel true "F" "ABI-L1b-RadF" d s
      = Done tt
          (mkstate (S (nlist s)) (ndl s)
             (log s
              ++ glm_current_events cfg d
                   (list_gcs w (nlist s) (bucket_name cfg) (g_prefix d) ["GLM"; stamp d])
              ++ pool_events cfg
                   (Py.slice_from (-30)
                      (list_gcs w (nlist s) (bucket_name cfg) (g_prefix d)
                         ["GLM"; stamp d]))
                   (category_dir cfg d "glm")
              ++ mirror_events cfg d
                   (Py.slice_from (-30)
                      (list_gcs w (nlist s) (bucket_name cfg) (g_prefix d)
                         ["GLM"; stamp d])))
             (Some (Py.slice_from (-30)
                      (list_gcs w (nlist s) (bucket_name cfg) (g_prefix d)
                         ["GLM"; stamp d])))
             (outfile s)
             (if Py.is_empty
                   (list_gcs w (nlist s) (bucket_name cfg) (g_prefix d) ["GLM"; stamp d])
              then outdir s else Some (category_dir cfg d "glm")))).
    { intros s. rewrite hour_body_lightning_only.
      rewrite glm_block_realtime_late by lia. reflexivity. }
    assert (Hrun : o = (r <- hour_loop w cfg fuel true "F" "ABI-L1b-RadF" d fuel d [] [] ;;
                        ret (fst r)) (rt_start cfg)).
    { subst o. unfold run_download_goes_ir_vis_l1b_glm_l2_data. unfold bind at 1.
      rewrite (run_trace_realtime w cfg fuel _ _ d Hrt Hsec Hcur). reflexivity. }
    destruct fuel as [| n].
    + assert (Hlog : log (final o) = log (rt_start cfg)) by (rewrite Hrun; reflexivity).
      rewrite Hlog.
      assert (Hnone : forall keep, (forall m, keep (EvPrint m) = false) ->
                filter keep (log (rt_start cfg)) = []).
      { intros keep Hk. unfold rt_start. simpl. destruct (verbose cfg); simpl;
          [now rewrite Hk | reflexivity]. }
      split; [now apply Hnone |]. split; [| split].
      * intros k H. unfold rt_start in H. simpl in H.
        destruct (verbose cfg); simpl in H; [destruct H as [H | []]; discriminate | contradiction].
      * exists [], ""%string. split; [simpl; lia |]. left. now apply Hnone.
      * intros _ Hf. lia.
    + assert (Hfin : final o
                     = mkstate 1 0
                         (log (rt_start cfg)
                          ++ glm_current_events cfg d
                               (list_gcs w 0 (bucket_name cfg) (g_prefix d) ["GLM"; stamp d])
                          ++ pool_events cfg
                               (Py.slice_from (-30)
                                  (list_gcs w 0 (bucket_name cfg) (g_prefix d)
                                     ["GLM"; stamp d]))
                               (category_dir cfg d "glm")
                          ++ mirror_events cfg d
                               (Py.slice_from (-30)
                                  (list_gcs w 0 (bucket_name cfg) (g_prefix d)
                                     ["GLM"; stamp d])))
                         (Some (Py.slice_from (-30)
                                  (list_gcs w 0 (bucket_name cfg) (g_prefix d)
                                     ["GLM"; stamp d])))
                         None
                         (if Py.is_empty
                               (list_gcs w 0 (bucket_name cfg) (g_prefix d) ["GLM"; stamp d])
                          then None else Some (category_dir cfg d "glm"))).
      { rewrite Hrun, final_fst.
        rewrite (hour_loop_realtime_final (S n) _ _ d n _ _ Vd (Hbody (rt_start cfg))).
        reflexivity. }
      rewrite Hfin. simpl log.
      split; [apply lightning_log_downloads |].
      split; [apply lightning_log_pools |]. split.
      * exists (Py.slice_from (-30)
                  (list_gcs w 0 (bucket_name cfg) (g_prefix d) ["GLM"; stamp d])),
               (category_dir cfg d "glm").
        split; [apply Hlen |].
        pose proof (lightning_log_tasks d
                      (list_gcs w 0 (bucket_name cfg) (g_prefix d) ["GLM"; stamp d])
                      (Py.slice_from (-30)
                         (list_gcs w 0 (bucket_name cfg) (g_prefix d) ["GLM"; stamp d]))
                      (category_dir cfg d "glm")) as Ht.
        destruct (del_local cfg); [left | right]; exact Ht.
      * intros Hy Hf. exists d. split; [reflexivity |]. split; [assumption |].
        cbv zeta. destruct n as [| n]; [lia |].
        rewrite Hrun. unfold bind at 1.
        rewrite (hour_loop_realtime w cfg (S (S n)) _ _ d n _ Vd).
        unfold bind at 1. rewrite Hbody. unfold bind at 1. unfold in_range.
        destruct (add_hour d) as [d' |] eqn:A.
        -- reflexivity.
        -- apply CalFacts.add_hour_none in A; [| assumption].
           destruct (rt_cursor_full_in_range V) as (d0 & Hd0 & Hy0); [lia |].
           rewrite Hcur in Hd0. inversion Hd0; subst d0.
           exfalso.
           assert (year d <= year (utcnow w)).
           { clear - V Hcur. pose proof (CalFacts.valid_bounds _ V) as B.
             unfold rt_cursor in Hcur. simpl in Hcur.
             destruct (Z.ltb_spec (minute (utcnow w)) 10); simpl in Hcur.
             - apply CalFacts.sub_minutes_spec in Hcur; [| lia | assumption].
               destruct Hcur as (V' & Hus & _).
               apply (to_us_year d (utcnow w) V' V). lia.
             - rewrite andb_false_r in Hcur. inversion Hcur. lia. }
           lia.
  - assert (Ho : o = Raised OverflowError init_state).
    { subst o. unfold run_download_goes_ir_vis_l1b_glm_l2_data. unfold bind at 1.
      now rewrite (run_trace_overflow w cfg fuel _ _ Hrt Hsec Hcur). }
    rewrite Ho. simpl. split; [reflexivity |]. split; [intros k [] |]. split.
    + exists [], ""%string. split; [simpl; lia |]. now left.
    + intros Hy Hf. destruct (rt_cursor_full_in_range V) as (d0 & Hd0 & _); [lia |].
      rewrite Hcur in Hd0. discriminate.
Qed.

End FullDisk.

(** The clock at 12:01:30: the cursor is 11:51:30, and the three blobs
    of that hour go to the pool. *)
Lemma realtime_full_disk_lightning_witness :
  let o := run_download_goes_ir_vis_l1b_glm_l2_data sample_world sample_full_disk 3
             init_state in
  filter is_download (log (final o)) = []
  /\ List.length (filter is_pool_task (log (final o))) = 3%nat
  /\ exists d s, o = Done [day_dir sample_full_disk d] s.
Proof.
  destruct (realtime_full_disk_lightning sample_world sample_full_disk
              eq_refl eq_refl eq_refl eq_refl eq_refl eq_refl 3 eq_refl)
    as (H1 & _ & _ & H4).
  split; [exact H1 |]. split; [reflexivity |].
  destruct H4 as (d & _ & _ & H).
  - split; reflexivity.
  - repeat constructor.
  - exists d. eexists. exact H.
Defined.

(** ** Outside real time: what each step of the hour asks of the store *)

Section HistoricalHour.

Import Cal.

Variable w : world.
Variable cfg : config.
Variable fuel : nat.
Variables c p : string.

Local Arguments for_each {A} l body : simpl never.

(** One turn of a transfer loop with [outdir] bound. *)
Lemma transfer_eq t category dir i s :
  outdir s = Some dir ->
  exists s',
    transfer w cfg t category i s = Done tt s'
    /\ log s' = log s ++ transfer_events cfg t category dir i
    /\ nlist s' = nlist s
    /\ ndl s' = (ndl s + downloads cfg [i])%nat
    /\ files s' = files s
    /\ outdir s' = outdir s.
Proof.
  intros Hod. destruct s as [n d lg fs o od]. simpl in Hod. subst od.
  unfold transfer, fetch, transfer_events, downloads, bind.
  destruct (del_local cfg); destruct (gcs_bucket cfg) as [gb |]; simpl;
    eexists; (split; [reflexivity |]); simpl;
    rewrite <- ?app_assoc, ?app_nil_r; repeat split; try reflexivity; lia.
Qed.

(** A transfer loop over [l] with [outdir] bound. *)
Lemma for_each_transfer t category dir l : forall s,
  outdir s = Some dir ->
  exists s',
    for_each l (transfer w cfg t category) s = Done tt s'
    /\ log s' = log s ++ flat_map (transfer_events cfg t category dir) l
    /\ nlist s' = nlist s
    /\ ndl s' = (ndl s + downloads cfg l)%nat
    /\ files s' = files s
    /\ outdir s' = outdir s.
Proof.
  induction l as [| a r IH]; intros s Hod.
  - exists s. cbn. rewrite app_nil_r. unfold downloads.
    repeat split; try reflexivity. destruct (del_local cfg); simpl; lia.
  - destruct (transfer_eq t category dir a s Hod) as (s1 & E1 & Hl1 & Hn1 & Hk1 & Hf1 & Ho1).
    destruct (IH s1 (eq_trans Ho1 Hod)) as (s2 & E2 & Hl2 & Hn2 & Hk2 & Hf2 & Ho2).
    exists s2. unfold for_each; fold (@for_each string).
    unfold bind. rewrite E1. split; [exact E2 |].
    rewrite Hl2, Hl1, Hn2, Hn1, Hk2, Hk1, Hf2, Hf1, Ho2, Ho1.
    cbn [flat_map]. rewrite <- app_assoc. unfold downloads.
    repeat split; try reflexivity. destruct (del_local cfg); simpl; lia.
Qed.

(** Lines 176-189 outside real time, after the listing [l]. *)
Lemma store_images_historical t category notfound l s :
  files s = Some l ->
  exists s',
    store_images w cfg false t category notfound s = Done tt s'
    /\ log s' = log s ++ stored_events cfg t category notfound l
    /\ nlist s' = nlist s
    /\ ndl s' = (ndl s + downloads cfg l)%nat
    /\ files s' = Some l
    /\ outdir s' = (if Py.is_empty l then outdir s
                    else Some (category_dir cfg t category)).
Proof.
  intros Hf. destruct s as [n d lg fs o od]. simpl in Hf. subst fs.
  unfold store_images, stored_events, bind. simpl.
  destruct l as [| a l]; simpl.
  - eexists. split; [reflexivity |]. simpl. unfold downloads.
    repeat split; try reflexivity. destruct (del_local cfg); simpl; lia.
  - match goal with
    | |- context [for_each ?xs _ ?st] =>
        destruct (for_each_transfer t category (category_dir cfg t category) xs st eq_refl)
          as (s' & E & Hl & Hn & Hk & Hfs & Ho)
    end.
    exists s'. split; [exact E |]. simpl in *.
    rewrite Hl, Hn, Hk, Hfs, Ho. rewrite <- app_assoc. repeat split; reflexivity.
Qed.

(** Lines 167-189 outside real time: one listing, never re-issued. *)
Lemma ir_block_historical_eq t s :
  let ev := EvList (bucket_name cfg) (iv_prefix p t) (ir_patterns c t) in
  let l := list_gcs w (nlist s) (bucket_name cfg) (iv_prefix p t) (ir_patterns c t) in
  exists s',
    ir_block w cfg fuel false c p t s = Done tt s'
    /\ log s' = log s ++ ev :: stored_events cfg t "ir" "No IR files found for " l
    /\ nlist s' = S (nlist s)
    /\ ndl s' = (ndl s + downloads cfg l)%nat
    /\ files s' = Some l
    /\ outdir s' = (if Py.is_empty l then outdir s else Some (category_dir cfg t "ir")).
Proof.
  intros ev l. subst ev l. destruct s as [n d lg fs o od].
  unfold ir_block, ir_listing, ir_patterns, bind. simpl.
  rewrite andb_false_r. simpl.
  match goal with
  | |- context [store_images _ _ _ _ _ _ ?st] =>
      destruct (store_images_historical t "ir" "No IR files found for " _ st eq_refl)
        as (s' & E & Hl & Hn & Hk & Hf & Ho)
  end.
  exists s'. split; [exact E |]. simpl in *.
  rewrite Hl, Hn, Hk, Hf, Ho, <- app_assoc. repeat split; reflexivity.
Qed.

(** Lines 191-214 and 216-242 outside real time. *)
Lemma channel_block_historical_eq t chan category notfound waiting s :
  let ev := EvList (bucket_name cfg) (iv_prefix p t) [chan; stamp t; c] in
  let l := list_gcs w (nlist s) (bucket_name cfg) (iv_prefix p t) [chan; stamp t; c] in
  exists s',
    channel_block w cfg fuel false c p t chan category notfound waiting s = Done tt s'
    /\ log s' = log s ++ ev :: stored_events cfg t category notfound l
    /\ nlist s' = S (nlist s)
    /\ ndl s' = (ndl s + downloads cfg l)%nat
    /\ files s' = Some l
    /\ outdir s' = (if Py.is_empty l then outdir s
                    else Some (category_dir cfg t category)).
Proof.
  intros ev l. subst ev l. destruct s as [n d lg fs o od].
  unfold channel_block, channel_listing, bind. simpl.
  match goal with
  | |- context [store_images _ _ _ _ _ _ ?st] =>
      destruct (store_images_historical t category notfound _ st eq_refl)
        as (s' & E & Hl & Hn & Hk & Hf & Ho)
  end.
  exists s'. split; [exact E |]. simpl in *.
  rewrite Hl, Hn, Hk, Hf, Ho, <- app_assoc. repeat split; reflexivity.
Qed.

(** With infrared off the listing of a channel is the same in real
    time, and is not waited for. *)
Lemma channel_listing_plain rt t chan waiting s :
  rt && negb (no_ir cfg) = false ->
  channel_listing w cfg fuel rt c p t chan waiting s
  = Done tt
      (mkstate (S (nlist s)) (ndl s)
         (log s ++ [EvList (bucket_name cfg) (iv_prefix p t) [chan; stamp t; c]])
         (Some (list_gcs w (nlist s) (bucket_name cfg) (iv_prefix p t) [chan; stamp t; c]))
         (outfile s) (outdir s)).
Proof.
  intros H. unfold channel_listing. rewrite H. reflexivity.
Qed.

(** Lines 245-267 outside real time. *)
Lemma glm_current_historical_eq t s :
  let ev := EvList (bucket_name cfg) (g_prefix t) ["GLM"; stamp t] in
  let l := list_gcs w (nlist s) (bucket_name cfg) (g_prefix t) ["GLM"; stamp t] in
  exists s',
    glm_current w cfg false c t s = Done tt s'
    /\ log s' = log s ++ ev :: stored_events cfg t "glm" "No GLM files found for " l
    /\ nlist s' = S (nlist s)
    /\ ndl s' = (ndl s + downloads cfg l)%nat
    /\ files s' = Some l
    /\ outdir s' = (if Py.is_empty l then outdir s else Some (category_dir cfg t "glm")).
Proof.
  intros ev l. subst ev l. destruct s as [n d lg fs o od].
  unfold glm_current, stored_events, bind. simpl.
  destruct (list_gcs w n (bucket_name cfg) (g_prefix t) ["GLM"; stamp t]) as [| a l] eqn:El;
    simpl.
  - eexists. split; [reflexivity |]. simpl. unfold downloads.
    rewrite <- app_assoc. repeat split; try reflexivity.
    destruct (del_local cfg); simpl; lia.
  - match goal with
    | |- context [for_each ?xs _ ?st] =>
        destruct (for_each_transfer t "glm" (category_dir cfg t "glm") xs st eq_refl)
          as (s' & E & Hl & Hn & Hk & Hf & Ho)
    end.
    exists s'. split; [exact E |]. simpl in *.
    rewrite Hl, Hn, Hk, Hf, Ho, <- !app_assoc. repeat split; reflexivity.
Qed.

(** Lines 301-316 above minute 55: the first eight blobs of the hour
    after, stored under the day of the cursor. *)
Lemma glm_lookahead_eq t t1 s :
  55 < minute t -> add_hour t = Some t1 ->
  let ev := EvList (bucket_name cfg) (g_prefix t1) ["GLM"; stamp t1] in
  let l := list_gcs w (nlist s) (bucket_name cfg) (g_prefix t1) ["GLM"; stamp t1] in
  let dir := category_dir cfg t "glm" in
  exists s',
    glm_lookahead w cfg false t s = Done tt s'
    /\ log s' = log s ++ ev :: (if Py.is_empty l then []
                                else EvMakedirs dir
                                     :: flat_map (transfer_events cfg t "glm" dir)
                                          (firstn 8 l))
    /\ nlist s' = S (nlist s)
    /\ ndl s' = (ndl s + downloads cfg (firstn 8 l))%nat
    /\ files s' = Some (firstn 8 l)
    /\ outdir s' = (if Py.is_empty l then outdir s else Some dir).
Proof.
  intros Hm Ha ev l dir. subst ev l dir. destruct s as [n d lg fs o od].
  unfold glm_lookahead. destruct (Z.ltb_spec 55 (minute t)); [| lia].
  rewrite Ha. unfold bind. simpl.
  destruct (list_gcs w n (bucket_name cfg) (g_prefix t1) ["GLM"; stamp t1]) as [| a l] eqn:El.
  - eexists. split; [reflexivity |]. simpl. unfold downloads.
    repeat split; try reflexivity. destruct (del_local cfg); simpl; lia.
  - cbn [Py.is_empty negb]. unfold Py.slice_to.
    match goal with
    | |- context [for_each ?xs _ ?st] =>
        destruct (for_each_transfer t "glm" (category_dir cfg t "glm") xs st eq_refl)
          as (s' & E & Hl & Hn & Hk & Hf & Ho)
    end.
    exists s'. split; [exact E |]. simpl in *.
    rewrite Hl, Hn, Hk, Hf, Ho, <- !app_assoc. repeat split; reflexivity.
Qed.

Lemma glm_lookahead_skipped rt t s :
  (55 <? minute t) && negb rt = false -> glm_lookahead w cfg rt t s = Done tt s.
Proof. intros H. unfold glm_lookahead. rewrite H. reflexivity. Qed.

Lemma glm_lookahead_overflow t s :
  55 < minute t -> add_hour t = None ->
  glm_lookahead w cfg false t s = Raised OverflowError s.
Proof.
  intros Hm Ha. unfold glm_lookahead. destruct (Z.ltb_spec 55 (minute t)); [| lia].
  rewrite Ha. reflexivity.
Qed.

(** Without a mirror bucket the loop of lines 283-288 is the transfer
    loop of the other steps. *)
Lemma transfer_backfill_plain t i s :
  gcs_bucket cfg = None -> transfer_backfill w cfg t i s = transfer w cfg t "glm" i s.
Proof. intros Hg. unfold transfer_backfill, transfer. now rewrite Hg. Qed.

Lemma for_each_ext {A} (f g : A -> M unit) l :
  (forall a s, f a s = g a s) -> forall s, for_each l f s = for_each l g s.
Proof.
  intros H. induction l as [| a r IH]; intros s; [reflexivity |].
  unfold for_each; fold (@for_each A). unfold bind. rewrite H.
  destruct (g a s); try reflexivity. apply IH.
Qed.

(** Lines 268-289 below minute 3, without a mirror bucket: the last
    eight blobs of the hour before, stored under the day of the cursor. *)
Lemma glm_backfill_historical_eq t t0 s :
  gcs_bucket cfg = None -> minute t < 3 -> sub_hour t = Some t0 ->
  let ev := EvList (bucket_name cfg) (g_prefix t0) ["GLM"; stamp t0] in
  let l := list_gcs w (nlist s) (bucket_name cfg) (g_prefix t0) ["GLM"; stamp t0] in
  let dir := category_dir cfg t "glm" in
  exists s',
    glm_backfill w cfg false t s = Done tt s'
    /\ log s' = log s ++ ev :: (if Py.is_empty l then []
                                else EvMakedirs dir
                                     :: flat_map (transfer_events cfg t "glm" dir)
                                          (Py.slice_from (-8) l))
    /\ nlist s' = S (nlist s)
    /\ ndl s' = (ndl s + (if Py.is_empty l then 0
                          else downloads cfg (Py.slice_from (-8) l)))%nat
    /\ files s' = (if Py.is_empty l then files s else Some (Py.slice_from (-8) l))
    /\ outdir s' = (if Py.is_empty l then outdir s else Some dir).
Proof.
  intros Hg Hm Hs ev l dir. subst ev l dir. destruct s as [n d lg fs o od].
  unfold glm_backfill. destruct (Z.ltb_spec (minute t) 3); [| lia].
  rewrite Hs. unfold bind. simpl.
  destruct (list_gcs w n (bucket_name cfg) (g_prefix t0) ["GLM"; stamp t0]) as [| a l] eqn:El.
  - eexists. split; [reflexivity |]. simpl. repeat split; try reflexivity. lia.
  - cbn [Py.is_empty negb].
    match goal with
    | |- context [for_each ?xs _ ?st] =>
        rewrite (for_each_ext (transfer_backfill w cfg t) (transfer w cfg t "glm") xs
                   (fun a s => transfer_backfill_plain t a s Hg) st);
        destruct (for_each_transfer t "glm" (category_dir cfg t "glm") xs st eq_refl)
          as (s' & E & Hl & Hn & Hk & Hf & Ho)
    end.
    exists s'. split; [exact E |]. simpl in *.
    rewrite Hl, Hn, Hk, Hf, Ho, <- !app_assoc. repeat split; reflexivity.
Qed.

Lemma glm_backfill_overflow rt t s :
  minute t < 3 -> sub_hour t = None -> glm_backfill w cfg rt t s = Raised OverflowError s.
Proof.
  intros Hm Hs. unfold glm_backfill. destruct (Z.ltb_spec (minute t) 3); [| lia].
  rewrite Hs. reflexivity.
Qed.

Lemma transfer_events_plain t category dir l :
  gcs_bucket cfg = None ->
  flat_map (transfer_events cfg t category dir) l
  = if del_local cfg then []
    else map (fun i => EvDownload (bucket_name cfg) i dir) l.
Proof.
  intros Hg. unfold transfer_events. rewrite Hg.
  induction l as [| a r IH]; simpl.
  - now destruct (del_local cfg).
  - rewrite IH. now destruct (del_local cfg).
Qed.

(** Outside real time every image step makes exactly one listing, never
    re-issued, and transfers every listed blob, in the order of the
    listing, under [outroot/YYYYMMDD/category]; an empty listing prints
    the message of its category and transfers nothing. *)
Theorem historical_images_keep_every_blob t s :
  let one_listing (block : M unit) (chan category notfound : string) :=
    let ev := EvList (bucket_name cfg) (iv_prefix p t) [chan; stamp t; c] in
    let l := list_gcs w (nlist s) (bucket_name cfg) (iv_prefix p t) [chan; stamp t; c] in
    exists s',
      block s = Done tt s'
      /\ log s' = log s ++ ev :: stored_events cfg t category notfound l
      /\ nlist s' = S (nlist s)
      /\ ndl s' = (ndl s + downloads cfg l)%nat
      /\ files s' = Some l in
  one_listing (ir_block w cfg fuel false c p t) "C13" "ir" "No IR files found for "
  /\ one_listing (vis_block w cfg fuel false c p t) "C02" "vis" "No VIS files found for "
  /\ one_listing (irdiff_block w cfg fuel false c p t) "C08" "ir_diff"
       "No 6.2 micron IR files found for ".
Proof.
  cbv zeta. split; [| split].
  - destruct (ir_block_historical_eq t s) as (s' & E & Hl & Hn & Hk & Hf & _).
    exists s'. unfold ir_patterns in *. auto.
  - destruct (channel_block_historical_eq t "C02" "vis" "No VIS files found for " None s)
      as (s' & E & Hl & Hn & Hk & Hf & _).
    exists s'. unfold vis_block. auto.
  - destruct (channel_block_historical_eq t "C08" "ir_diff"
                "No 6.2 micron IR files found for "
                (Some "Waiting for IR C08 files to be available online") s)
      as (s' & E & Hl & Hn & Hk & Hf & _).
    exists s'. unfold irdiff_block. auto.
Qed.

(** Above minute 55 outside real time, the hour after the cursor is
    listed once and its first eight blobs are transferred under the day
    directory and the mirror prefix of the cursor, not of the hour
    listed. *)
Theorem historical_lookahead_first_eight t t1 s :
  55 < minute t -> add_hour t = Some t1 ->
  let ev := EvList (bucket_name cfg) (g_prefix t1) ["GLM"; stamp t1] in
  let l := list_gcs w (nlist s) (bucket_name cfg) (g_prefix t1) ["GLM"; stamp t1] in
  let dir := category_dir cfg t "glm" in
  exists s',
    glm_lookahead w cfg false t s = Done tt s'
    /\ log s' = log s ++ ev :: (if Py.is_empty l then []
                                else EvMakedirs dir
                                     :: flat_map (transfer_events cfg t "glm" dir)
                                          (firstn 8 l))
    /\ nlist s' = S (nlist s)
    /\ ndl s' = (ndl s + downloads cfg (firstn 8 l))%nat
    /\ files s' = Some (firstn 8 l)
    /\ (List.length (firstn 8 l) <= 8)%nat.
Proof.
  intros Hm Ha ev l dir.
  destruct (glm_lookahead_eq t t1 s Hm Ha) as (s' & E & Hl & Hn & Hk & Hf & _).
  exists s'. repeat split; try assumption.
  rewrite length_firstn. lia.
Qed.

(** Below minute 3 outside real time and without a mirror bucket, the
    hour before the cursor is listed once and its last eight blobs are
    downloaded under the day directory of the cursor; they replace the
    blobs of the cursor's hour in [files]. *)
Theorem historical_backfill_last_eight t t0 s :
  gcs_bucket cfg = None -> minute t < 3 -> sub_hour t = Some t0 ->
  let ev := EvList (bucket_name cfg) (g_prefix t0) ["GLM"; stamp t0] in
  let l := list_gcs w (nlist s) (bucket_name cfg) (g_prefix t0) ["GLM"; stamp t0] in
  let kept := skipn (List.length l - 8) l in
  let dir := category_dir cfg t "glm" in
  exists s',
    glm_backfill w cfg false t s = Done tt s'
    /\ log s' = log s ++ ev :: (if Py.is_empty l then []
                                else EvMakedirs dir
                                     :: (if del_local cfg then []
                                         else map (fun i => EvDownload (bucket_name cfg) i dir)
                                                kept))
    /\ nlist s' = S (nlist s)
    /\ files s' = (if Py.is_empty l then files s else Some kept)
    /\ (List.length kept <= 8)%nat.
Proof.
  intros Hg Hm Hs ev l kept dir.
  destruct (glm_backfill_historical_eq t t0 s Hg Hm Hs) as (s' & E & Hl & Hn & _ & Hf & _).
  fold l in Hl, Hf. fold dir in Hl.
  assert (Hk : Py.slice_from (-8) l = kept).
  { exact (slice_from_last 8 l ltac:(lia)). }
  rewrite Hk in Hl, Hf.
  exists s'. split; [exact E |]. split; [| split; [exact Hn | split; [exact Hf |]]].
  - rewrite Hl. f_equal. f_equal. destruct (Py.is_empty l); [reflexivity |].
    f_equal. now apply transfer_events_plain.
  - subst kept. rewrite length_skipn. lia.
Qed.

End HistoricalHour.

(** New Year's Eve, 23:56: the listing is that of the first hour of the
    next year, the directory that of the last day of this one. *)
Lemma historical_lookahead_first_eight_witness :
  exists s',
    glm_lookahead sample_world sample_late false (mkdt 2020 12 31 23 56 0 0) init_state
    = Done tt s'
    /\ log s'
       = [EvList "gcp-public-data-goes-16" "GLM-L2-LCFA/2021/001/00/" ["GLM"; "s202100100"];
          EvMakedirs "/data/20201231/glm";
          EvDownload "gcp-public-data-goes-16"
            "GLM-L2-LCFA/2021/001/00/OR_GLM-L2-LCFA_G16_s1.nc" "/data/20201231/glm";
          EvDownload "gcp-public-data-goes-16"
            "GLM-L2-LCFA/2021/001/00/OR_GLM-L2-LCFA_G16_s2.nc" "/data/20201231/glm";
          EvDownload "gcp-public-data-goes-16"
            "GLM-L2-LCFA/2021/001/00/OR_GLM-L2-LCFA_G16_s3.nc" "/data/20201231/glm"].
Proof.
  destruct (historical_lookahead_first_eight sample_world sample_late
              (mkdt 2020 12 31 23 56 0 0) (mkdt 2021 1 1 0 56 0 0) init_state)
    as (s' & E & Hl & _); [reflexivity | reflexivity |].
  exists s'. split; [exact E |]. rewrite Hl. reflexivity.
Defined.

(** The first of March of a leap year, 00:01: the listing is that of the
    last hour of the 29th of February. *)
Lemma historical_backfill_last_eight_witness :
  exists s',
    glm_backfill sample_world sample_early false (mkdt 2020 3 1 0 1 0 0) init_state
    = Done tt s'
    /\ log s'
       = [EvList "gcp-public-data-goes-16" "GLM-L2-LCFA/2020/060/23/" ["GLM"; "s202006023"];
          EvMakedirs "/data/20200301/glm";
          EvDownload "gcp-public-data-goes-16"
            "GLM-L2-LCFA/2020/060/23/OR_GLM-L2-LCFA_G16_s1.nc" "/data/20200301/glm";
          EvDownload "gcp-public-data-goes-16"
            "GLM-L2-LCFA/2020/060/23/OR_GLM-L2-LCFA_G16_s2.nc" "/data/20200301/glm";
          EvDownload "gcp-public-data-goes-16"
            "GLM-L2-LCFA/2020/060/23/OR_GLM-L2-LCFA_G16_s3.nc" "/data/20200301/glm"].
Proof.
  destruct (historical_backfill_last_eight sample_world sample_early
              (mkdt 2020 3 1 0 1 0 0) (mkdt 2020 2 29 23 1 0 0) init_state)
    as (s' & E & Hl & _); [reflexivity | reflexivity | reflexivity |].
  exists s'. split; [exact E |]. rewrite Hl. reflexivity.
Defined.

(** ** The events of an hour *)

Section LogFacts.

Variable w : world.

Lemma n_listings_app a b : n_listings (a ++ b) = (n_listings a + n_listings b)%nat.
Proof. unfold n_listings. now rewrite filter_app, length_app. Qed.

Lemma answers_app a : forall k b,
  answers w k (a ++ b) = answers w k a ++ answers w (k + n_listings a) b.
Proof.
  induction a as [| e r IH]; intros k b; simpl.
  - now rewrite Nat.add_0_r.
  - destruct e; simpl; rewrite ?IH; unfold n_listings; simpl;
      rewrite <- ?app_assoc, ?Nat.add_succ_r; reflexivity.
Qed.

Lemma within_bind (R : state -> state -> Prop) {A B} (c : M A) (k : A -> M B) :
  (forall s1 s2 s3, R s1 s2 -> R s2 s3 -> R s1 s3) ->
  within R c -> (forall a, within R (k a)) -> within R (bind c k).
Proof.
  intros Ht Hc Hk s. unfold bind. specialize (Hc s).
  destruct (c s) as [a s' | e s' | s']; simpl in *; try assumption.
  eapply Ht; [exact Hc | apply Hk].
Qed.

Lemma within_ret (R : state -> state -> Prop) {A} (a : A) :
  (forall s, R s s) -> within R (ret a).
Proof. intros Hr s. apply Hr. Qed.

End LogFacts.

Section StepFacts.

Import Cal.

Variable w : world.
Variable cfg : config.
Variable fuel : nat.
Variable rt : bool.
Variables c p : string.
Variable t : datetime.

Lemma hour_step_refl s : hour_step w cfg rt c p t s s.
Proof.
  exists []. rewrite app_nil_r. split; [reflexivity |]. split; [constructor |].
  split; [unfold n_listings; simpl; lia | intros x []].
Qed.

Lemma hour_step_trans s1 s2 s3 :
  hour_step w cfg rt c p t s1 s2 -> hour_step w cfg rt c p t s2 s3 ->
  hour_step w cfg rt c p t s1 s3.
Proof.
  intros (a & La & Fa & Na & Ia) (b & Lb & Fb & Nb & Ib).
  exists (a ++ b). repeat split.
  - now rewrite Lb, La, app_assoc.
  - apply Forall_app. now split.
  - rewrite Nb, Na, n_listings_app. lia.
  - rewrite flat_map_app, answers_app. rewrite <- Na.
    intros x Hx. apply in_app_or in Hx. apply in_or_app.
    destruct Hx as [Hx | Hx]; [left; now apply Ia | right; now apply Ib].
Qed.

(** A step that adds [added], given in full. *)
Lemma hour_step_intro s s' added :
  log s' = log s ++ added -> Forall (hour_event cfg rt c p t) added ->
  nlist s' = (nlist s + n_listings added)%nat ->
  incl (flat_map transferred added) (answers w (nlist s) added) ->
  hour_step w cfg rt c p t s s'.
Proof. intros. exists added. auto. Qed.

Lemma n_listings_quiet l :
  Forall (fun e => is_listing e = false) l -> n_listings l = 0%nat.
Proof.
  unfold n_listings. induction 1 as [| e r He _ IH]; simpl; [reflexivity |].
  now rewrite He.
Qed.

(** One turn of a transfer loop. *)
Lemma transfer_events_ok category i :
  category_on cfg category -> (rt = true -> category <> "glm") ->
  Forall (hour_event cfg rt c p t)
    (transfer_events cfg t category (category_dir cfg t category) i)
  /\ Forall (fun e => is_listing e = false)
       (transfer_events cfg t category (category_dir cfg t category) i)
  /\ incl (flat_map transferred
             (transfer_events cfg t category (category_dir cfg t category) i)) [i].
Proof.
  intros Hc Hg. unfold transfer_events.
  destruct (del_local cfg) eqn:Hd; destruct (gcs_bucket cfg) as [gb |] eqn:Hb; simpl;
    (split; [| split]);
    repeat apply Forall_cons; try apply Forall_nil;
    first [ reflexivity
          | now apply hour_download
          | now apply hour_copy
          | intros x Hx; simpl in Hx; simpl; tauto ].
Qed.

Lemma transfers_ok category l :
  category_on cfg category -> (rt = true -> category <> "glm") ->
  Forall (hour_event cfg rt c p t)
    (flat_map (transfer_events cfg t category (category_dir cfg t category)) l)
  /\ Forall (fun e => is_listing e = false)
       (flat_map (transfer_events cfg t category (category_dir cfg t category)) l)
  /\ incl (flat_map transferred
             (flat_map (transfer_events cfg t category (category_dir cfg t category)) l)) l.
Proof.
  intros Hc Hg. induction l as [| a r (IH1 & IH2 & IH3)]; simpl.
  - repeat split; try apply Forall_nil. intros x [].
  - destruct (transfer_events_ok category a Hc Hg) as (H1 & H2 & H3).
    repeat split; try (apply Forall_app; now split).
    rewrite flat_map_app. intros x Hx. apply in_app_or in Hx.
    destruct Hx as [Hx | Hx].
    + apply H3 in Hx. destruct Hx as [-> | []]. now left.
    + right. now apply IH3.
Qed.

(** What lines 176-189 add for the selection [sel]. *)
Lemma stored_events_ok category notfound sel :
  category_on cfg category -> (rt = true -> category <> "glm") ->
  Forall (hour_event cfg rt c p t) (stored_events cfg t category notfound sel)
  /\ Forall (fun e => is_listing e = false) (stored_events cfg t category notfound sel)
  /\ incl (flat_map transferred (stored_events cfg t category notfound sel)) sel.
Proof.
  intros Hc Hg. unfold stored_events. destruct (Py.is_empty sel).
  - repeat split; repeat apply Forall_cons; try apply Forall_nil;
      first [reflexivity | apply hour_print | intros x []].
  - destruct (transfers_ok category sel Hc Hg) as (H1 & H2 & H3).
    repeat split; try (apply Forall_cons; [| assumption]); try reflexivity.
    + now apply hour_makedirs.
    + exact H3.
Qed.

(** A listing, its repetitions, then the transfers of a selection of
    the blobs answered. *)
Lemma listed_then_stored s s' waits category notfound sel :
  log s' = log s ++ waits ++ stored_events cfg t category notfound sel ->
  Forall (hour_event cfg rt c p t) waits ->
  flat_map transferred waits = [] ->
  nlist s' = (nlist s + n_listings waits)%nat ->
  incl sel (answers w (nlist s) waits) ->
  category_on cfg category -> (rt = true -> category <> "glm") ->
  hour_step w cfg rt c p t s s'.
Proof.
  intros Hl Hw Hq Hn Hsel Hc Hg.
  destruct (stored_events_ok category notfound sel Hc Hg) as (H1 & H2 & H3).
  exists (waits ++ stored_events cfg t category notfound sel). repeat split.
  - exact Hl.
  - apply Forall_app. now split.
  - rewrite n_listings_app, (n_listings_quiet _ H2). lia.
  - rewrite flat_map_app, Hq, answers_app. simpl.
    intros x Hx. apply in_or_app. left. apply Hsel. now apply H3.
Qed.

(** A wait adds its listing, again and again, and its message. *)
Lemma spin_log_ok ev waiting n :
  hour_event cfg rt c p t ev -> is_listing ev = true ->
  Forall (hour_event cfg rt c p t) (spin_log ev waiting n)
  /\ flat_map transferred (spin_log ev waiting n) = []
  /\ n_listings (spin_log ev waiting n) = S n.
Proof.
  intros He Hl. unfold spin_log.
  assert (Hr : Forall (hour_event cfg rt c p t) (repeat ev n)
               /\ flat_map transferred (repeat ev n) = []
               /\ n_listings (repeat ev n) = n).
  { destruct ev; try discriminate. unfold n_listings.
    induction n as [| n (I1 & I2 & I3)]; simpl; repeat split; auto. }
  destruct Hr as (R1 & R2 & R3).
  destruct ev; try discriminate.
  destruct waiting as [m |]; simpl; unfold n_listings in *; simpl; rewrite ?R2, ?R3;
    repeat split; repeat (apply Forall_cons; try assumption); apply hour_print.
Qed.

Lemma wait_log_ok ev waiting n :
  hour_event cfg rt c p t ev -> is_listing ev = true ->
  Forall (hour_event cfg rt c p t) (wait_log ev waiting n)
  /\ flat_map transferred (wait_log ev waiting n) = []
  /\ n_listings (wait_log ev waiting n) = S n.
Proof.
  intros He Hl. destruct n as [| n]; [| now apply spin_log_ok].
  destruct ev; try discriminate. unfold wait_log, n_listings. simpl.
  repeat split. apply Forall_cons; [assumption | apply Forall_nil].
Qed.

(** The last answer of a wait is among the answers of its listings. *)
Lemma answers_repeat b prefix patterns n : forall k j,
  (j < n)%nat ->
  incl (list_gcs w (k + j) b prefix patterns)
       (answers w k (repeat (EvList b prefix patterns) n)).
Proof.
  induction n as [| n IH]; intros k j Hj; [lia |].
  simpl. intros x Hx. apply in_or_app. destruct j as [| j].
  - left. now rewrite Nat.add_0_r in Hx.
  - right. apply (IH (S k) j); [lia |].
    now replace (S k + j)%nat with (k + S j)%nat by lia.
Qed.

Lemma answers_wait_log b prefix patterns waiting k n :
  incl (list_gcs w (k + n) b prefix patterns)
       (answers w k (wait_log (EvList b prefix patterns) waiting n)).
Proof.
  destruct n as [| n]; unfold wait_log.
  - simpl. rewrite Nat.add_0_r, app_nil_r. apply incl_refl.
  - unfold spin_log. simpl. intros x Hx. apply in_or_app. right.
    assert (H : In x (answers w (S k) (repeat (EvList b prefix patterns) (S n)))).
    { apply (answers_repeat b prefix patterns (S n) (S k) n); [lia |].
      now replace (S k + n)%nat with (k + S n)%nat by lia. }
    destruct waiting as [m |]; simpl; exact H.
Qed.

Lemma incl_skipn {A} n (l : list A) : incl (skipn n l) l.
Proof.
  intros x Hx. rewrite <- (firstn_skipn n l). apply in_or_app. now right.
Qed.

Lemma incl_firstn {A} n (l : list A) : incl (firstn n l) l.
Proof.
  intros x Hx. rewrite <- (firstn_skipn n l). apply in_or_app. now left.
Qed.

Lemma incl_slice_from {A} k (l : list A) : incl (Py.slice_from k l) l.
Proof. unfold Py.slice_from. destruct (k <? 0); apply incl_skipn. Qed.

Lemma incl_image_keep l : incl (image_keep rt l) l.
Proof.
  unfold image_keep. destruct rt; [| apply incl_refl].
  intros x Hx. apply incl_firstn in Hx. now apply in_rev.
Qed.

Lemma incl_glm_keep l : incl (glm_keep c l) l.
Proof.
  unfold glm_keep. destruct (String.eqb c "F"); [apply incl_slice_from |].
  destruct (String.eqb c "C"); apply incl_slice_from.
Qed.

Local Arguments for_each {A} l body : simpl never.

(** Lines 176-189 in both modes, after the listing [l]. *)
Lemma store_images_eq category notfound l s :
  files s = Some l ->
  exists s',
    store_images w cfg rt t category notfound s = Done tt s'
    /\ log s' = log s ++ stored_events cfg t category notfound (image_keep rt l)
    /\ nlist s' = nlist s
    /\ files s' = Some (image_keep rt l).
Proof.
  intros Hf. unfold image_keep. destruct rt eqn:Hrt.
  - destruct s as [n d lg fs o od]. simpl in Hf. subst fs.
    unfold store_images, stored_events, bind, last_item. simpl.
    destruct l as [| a l]; simpl.
    + eexists. split; [reflexivity |]. simpl. auto.
    + destruct (rev l ++ [a]) as [| b r] eqn:Er.
      { destruct (rev l); discriminate. }
      simpl.
      match goal with
      | |- context [for_each ?xs _ ?st] =>
          destruct (for_each_transfer w cfg t category (category_dir cfg t category)
                      xs st eq_refl)
            as (s' & E & Hl & Hn & _ & Hfs & _)
      end.
      exists s'. split; [exact E |]. simpl in *.
      rewrite Hl, Hn, Hfs, <- app_assoc. auto.
  - destruct (store_images_historical w cfg t category notfound l s Hf)
      as (s' & E & Hl & Hn & _ & Hfs & _).
    exists s'. auto.
Qed.

End StepFacts.

Section BlockSteps.

Import Cal.

Variable w : world.
Variable cfg : config.
Variable fuel : nat.
Variables c p : string.
Variable t : datetime.

Local Arguments for_each {A} l body : simpl never.
Local Arguments Nat.sub : simpl never.
Local Arguments Nat.add : simpl never.
Local Arguments first_nonempty L n k0 : simpl never.

(** A listing of the hour, waited for or not, then the transfers of the
    blobs kept. *)
Lemma waited_then_stored rt s k waiting prefix patterns category notfound :
  (nlist s <= k)%nat ->
  request cfg rt c p t category prefix patterns ->
  category_on cfg category -> (rt = true -> category <> "glm") ->
  let ev := EvList (bucket_name cfg) prefix patterns in
  let l := list_gcs w k (bucket_name cfg) prefix patterns in
  hour_step w cfg rt c p t s
    (final (store_images w cfg rt t category notfound
              (waited s k (wait_log ev waiting (k - nlist s)) l))).
Proof.
  intros Hk Hreq Hc Hg ev l.
  destruct (store_images_eq w cfg rt t category notfound l
              (waited s k (wait_log ev waiting (k - nlist s)) l) eq_refl)
    as (s' & E & Hl & Hn & _).
  rewrite E. simpl final.
  assert (Hev : hour_event cfg rt c p t ev) by (eapply hour_list; eassumption).
  destruct (wait_log_ok cfg rt c p t ev waiting (k - nlist s) Hev eq_refl)
    as (W1 & W2 & W3).
  eapply listed_then_stored; try eassumption.
  - rewrite Hl. simpl. now rewrite <- app_assoc.
  - rewrite Hn, W3. simpl. lia.
  - eapply incl_tran; [apply incl_image_keep |].
    pose proof (answers_wait_log w (bucket_name cfg) prefix patterns waiting
                  (nlist s) (k - nlist s)) as H.
    replace (nlist s + (k - nlist s))%nat with k in H by lia. exact H.
Qed.

(** A wait that is still going on. *)
Lemma still_waiting rt s n waiting category prefix patterns :
  request cfg rt c p t category prefix patterns ->
  let ev := EvList (bucket_name cfg) prefix patterns in
  hour_step w cfg rt c p t s (waiting_after s (S n) (spin_log ev waiting n)).
Proof.
  intros Hreq ev.
  assert (Hev : hour_event cfg rt c p t ev) by (eapply hour_list; eassumption).
  destruct (spin_log_ok cfg rt c p t ev waiting n Hev eq_refl) as (W1 & W2 & W3).
  apply hour_step_intro with (added := spin_log ev waiting n).
  - reflexivity.
  - exact W1.
  - simpl nlist. now rewrite W3.
  - rewrite W2. intros x [].
Qed.

(** Lines 167-189. *)
Lemma ir_block_step rt :
  no_ir cfg = false ->
  within (hour_step w cfg rt c p t) (ir_block w cfg fuel rt c p t).
Proof.
  intros Hir s.
  assert (Hreq : request cfg rt c p t "ir" (iv_prefix p t) (ir_patterns c t))
    by now apply request_ir.
  assert (Hc : category_on cfg "ir") by (left; auto).
  destruct rt.
  - unfold ir_block, bind. rewrite ir_listing_eq.
    destruct (first_nonempty _ (S fuel) (nlist s)) as [k |] eqn:Ef.
    + apply first_nonempty_some in Ef. destruct Ef as (Hk & _).
      apply waited_then_stored; auto; [lia | discriminate].
    + simpl final. eapply still_waiting; eassumption.
  - unfold ir_block, bind.
    assert (E : ir_listing w cfg fuel false c p t s
                = Done tt (waited s (nlist s)
                             (wait_log (EvList (bucket_name cfg) (iv_prefix p t)
                                          (ir_patterns c t)) ir_waiting
                                (nlist s - nlist s))
                             (list_gcs w (nlist s) (bucket_name cfg) (iv_prefix p t)
                                (ir_patterns c t)))).
    { rewrite Nat.sub_diag. destruct s as [n d lg fs o od].
      unfold ir_listing, ir_patterns, bind. simpl. now rewrite andb_false_r. }
    rewrite E. apply waited_then_stored; auto. discriminate.
Qed.

(** Lines 191-214 and 216-242. *)
Lemma channel_block_step rt chan category notfound waiting :
  category_on cfg category -> category <> "glm" ->
  (forall rest, correlated cfg rt rest ->
     request cfg rt c p t category (iv_prefix p t) (chan :: stamp t :: c :: rest)) ->
  within (hour_step w cfg rt c p t)
    (channel_block w cfg fuel rt c p t chan category notfound waiting).
Proof.
  intros Hc Hg Hreq s.
  destruct (rt && negb (no_ir cfg)) eqn:Hm.
  - apply andb_prop in Hm. destruct Hm as [-> Hir].
    apply negb_true_iff in Hir.
    destruct (files s) as [[| blob rest] |] eqn:Hf.
    + unfold channel_block, channel_listing, batch_id, bind, read_files, item.
      rewrite Hir. cbn [andb negb]. rewrite Hf. simpl. apply hour_step_refl.
    + destruct (batch_id_of blob) as [fb |] eqn:Hb.
      * rewrite (channel_block_eq w cfg fuel c p t chan category notfound waiting
                   s blob rest fb Hir Hf Hb).
        assert (Hr : request cfg true c p t category (iv_prefix p t)
                       [chan; stamp t; c; fb]).
        { apply Hreq. unfold correlated. rewrite Hir. simpl. now exists fb. }
        destruct (first_nonempty _ (S fuel) (nlist s)) as [k |] eqn:Ef.
        -- apply first_nonempty_some in Ef. destruct Ef as (Hk & _).
           apply waited_then_stored; auto. lia.
        -- simpl final. eapply still_waiting; eassumption.
      * unfold channel_block, bind.
        rewrite (channel_listing_no_id w cfg fuel c p t chan waiting s blob rest Hir Hf Hb).
        apply hour_step_refl.
    + unfold channel_block, channel_listing, batch_id, bind, read_files.
      rewrite Hir. cbn [andb negb]. rewrite Hf. simpl. apply hour_step_refl.
  - unfold channel_block, bind.
    rewrite (channel_listing_plain w cfg fuel c p rt t chan waiting s Hm).
    assert (Hr : request cfg rt c p t category (iv_prefix p t) [chan; stamp t; c]).
    { apply Hreq. unfold correlated. now rewrite Hm. }
    pose proof (waited_then_stored rt s (nlist s) waiting (iv_prefix p t)
                  [chan; stamp t; c] category notfound (Nat.le_refl _) Hr Hc
                  (fun _ => Hg)) as H.
    cbv zeta in H. rewrite Nat.sub_diag in H. exact H.
Qed.

(** The listing of the cursor's hour and of the hour before. *)
Lemma glm_current_events_ok rt cur k :
  no_glm cfg = false ->
  Forall (hour_event cfg rt c p t) (glm_current_events cfg t cur)
  /\ flat_map transferred (glm_current_events cfg t cur) = []
  /\ n_listings (glm_current_events cfg t cur) = 1%nat
  /\ answers w k (glm_current_events cfg t cur)
     = list_gcs w k (bucket_name cfg) (g_prefix t) ["GLM"; stamp t].
Proof.
  intros Hg. unfold glm_current_events, n_listings.
  assert (Hl : hour_event cfg rt c p t
                 (EvList (bucket_name cfg) (g_prefix t) ["GLM"; stamp t])).
  { eapply hour_list. now apply request_glm. }
  destruct (Py.is_empty cur); simpl; rewrite app_nil_r;
    repeat split; repeat apply Forall_cons; try apply Forall_nil; auto.
  - apply hour_print.
  - apply hour_makedirs. right. right. right. auto.
Qed.

Lemma glm_backfill_events_ok rt t0 prev k :
  no_glm cfg = false -> minute t < 3 -> sub_hour t = Some t0 ->
  Forall (hour_event cfg rt c p t) (glm_backfill_events cfg t t0 prev)
  /\ flat_map transferred (glm_backfill_events cfg t t0 prev) = []
  /\ n_listings (glm_backfill_events cfg t t0 prev) = 1%nat
  /\ answers w k (glm_backfill_events cfg t t0 prev)
     = list_gcs w k (bucket_name cfg) (g_prefix t0) ["GLM"; stamp t0].
Proof.
  intros Hg Hm Hs. unfold glm_backfill_events, n_listings.
  assert (Hl : hour_event cfg rt c p t
                 (EvList (bucket_name cfg) (g_prefix t0) ["GLM"; stamp t0])).
  { eapply hour_list. now apply request_glm_before. }
  destruct (Py.is_empty prev); simpl; rewrite app_nil_r;
    repeat split; repeat apply Forall_cons; try apply Forall_nil; auto.
  apply hour_makedirs. right. right. right. auto.
Qed.

(** The pool and the mirror of lines 290-299. *)
Lemma pool_events_ok sel :
  no_glm cfg = false ->
  Forall (hour_event cfg true c p t) (pool_events cfg sel (category_dir cfg t "glm"))
  /\ Forall (fun e => is_listing e = false)
       (pool_events cfg sel (category_dir cfg t "glm"))
  /\ incl (flat_map transferred (pool_events cfg sel (category_dir cfg t "glm"))) sel.
Proof.
  intros Hg. unfold pool_events. destruct (del_local cfg) eqn:Hd.
  - repeat split; try apply Forall_nil. intros x [].
  - assert (H : forall rows,
              Forall (fun row => (row < List.length sel)%nat) rows ->
              Forall (hour_event cfg true c p t)
                (map (fun row => EvApplyAsync row sel (bucket_name cfg)
                                   (category_dir cfg t "glm")) rows
                 ++ [EvPoolClose; EvPoolJoin])
              /\ Forall (fun e => is_listing e = false)
                   (map (fun row => EvApplyAsync row sel (bucket_name cfg)
                                      (category_dir cfg t "glm")) rows
                    ++ [EvPoolClose; EvPoolJoin])
              /\ incl (flat_map transferred
                         (map (fun row => EvApplyAsync row sel (bucket_name cfg)
                                            (category_dir cfg t "glm")) rows
                          ++ [EvPoolClose; EvPoolJoin])) sel).
    { induction 1 as [| row rows Hrow _ (I1 & I2 & I3)]; simpl.
      - repeat split; repeat apply Forall_cons; try apply Forall_nil; auto.
        + now apply hour_pool_close.
        + now apply hour_pool_join.
        + intros x [].
      - repeat split; try (apply Forall_cons; auto).
        + now apply hour_task.
        + intros x Hx. apply in_app_or in Hx. destruct Hx; auto. }
    destruct (H (seq 0 (List.length sel))) as (H1 & H2 & H3).
    { apply Forall_forall. intros row Hr. apply in_seq in Hr. lia. }
    repeat split; try (apply Forall_cons; auto).
    + now apply hour_pool.
    + exact H3.
Qed.

Lemma mirror_events_ok rt sel :
  no_glm cfg = false ->
  Forall (hour_event cfg rt c p t) (mirror_events cfg t sel)
  /\ Forall (fun e => is_listing e = false) (mirror_events cfg t sel)
  /\ incl (flat_map transferred (mirror_events cfg t sel)) sel.
Proof.
  intros Hg. unfold mirror_events. destruct (gcs_bucket cfg) as [gb |] eqn:Hb.
  - induction sel as [| a r (I1 & I2 & I3)]; simpl.
    + repeat split; try apply Forall_nil. intros x [].
    + repeat split; try (apply Forall_cons; auto).
      * apply hour_copy; auto. right. right. right. auto.
      * intros x [<- | Hx]; [now left | right; now apply I3].
  - repeat split; try apply Forall_nil. intros x [].
Qed.

(** The listings of lightning in real time, then the pool and the
    mirror of the selection. *)
Lemma glm_realtime_log_ok k listings sel :
  no_glm cfg = false ->
  Forall (hour_event cfg true c p t) listings ->
  flat_map transferred listings = [] ->
  incl sel (answers w k listings) ->
  let added := listings ++ pool_events cfg sel (category_dir cfg t "glm")
               ++ mirror_events cfg t sel in
  Forall (hour_event cfg true c p t) added
  /\ n_listings added = n_listings listings
  /\ incl (flat_map transferred added) (answers w k added).
Proof.
  intros Hg Hl Hq Hsel added. subst added.
  destruct (pool_events_ok sel Hg) as (P1 & P2 & P3).
  destruct (mirror_events_ok true sel Hg) as (M1 & M2 & M3).
  repeat split.
  - repeat (apply Forall_app; split); assumption.
  - rewrite !n_listings_app, (n_listings_quiet _ P2), (n_listings_quiet _ M2). lia.
  - rewrite !flat_map_app, Hq, answers_app. simpl.
    intros x Hx. apply in_or_app. left. apply Hsel.
    apply in_app_or in Hx. destruct Hx; auto.
Qed.

(** Lines 244-316 in real time. *)
Lemma glm_block_realtime_step :
  no_glm cfg = false ->
  within (hour_step w cfg true c p t) (glm_block w cfg true c t).
Proof.
  intros Hg s.
  pose (cur := list_gcs w (nlist s) (bucket_name cfg) (g_prefix t) ["GLM"; stamp t]).
  destruct (glm_current_events_ok true cur (nlist s) Hg) as (C1 & C2 & C3 & C4).
  destruct (Z.lt_ge_cases (minute t) 3) as [Hm | Hm].
  - destruct (sub_hour t) as [t0 |] eqn:Hs.
    + rewrite (glm_block_realtime_early w cfg c t t0 s Hm Hs). simpl final.
      fold cur.
      set (prev := list_gcs w (S (nlist s)) (bucket_name cfg) (g_prefix t0)
                     ["GLM"; stamp t0]).
      set (sel := glm_keep c cur ++ Py.slice_from (- (-8 + minute t * 3)) prev).
      destruct (glm_backfill_events_ok true t0 prev (S (nlist s)) Hg Hm Hs)
        as (B1 & B2 & B3 & B4).
      destruct (glm_realtime_log_ok (nlist s)
                  (glm_current_events cfg t cur ++ glm_backfill_events cfg t t0 prev)
                  sel Hg) as (R1 & R2 & R3).
      * apply Forall_app. now split.
      * now rewrite flat_map_app, C2, B2.
      * rewrite answers_app, C3, C4.
        replace (nlist s + 1)%nat with (S (nlist s)) by lia. rewrite B4.
        subst sel. apply incl_app.
        -- apply incl_appl. apply incl_glm_keep.
        -- apply incl_appr. apply incl_slice_from.
      * cbv zeta in R1, R2, R3.
        assert (N : n_listings (glm_current_events cfg t cur
                                ++ glm_backfill_events cfg t t0 prev) = 2%nat)
          by now rewrite n_listings_app, C3, B3.
        rewrite N in R2.
        eapply hour_step_intro; [| exact R1 | | exact R3].
        -- simpl log. now rewrite <- app_assoc.
        -- simpl nlist. rewrite R2. lia.
    + unfold glm_block, bind. rewrite glm_current_realtime.
      rewrite (glm_backfill_overflow w cfg true t _ Hm Hs). simpl final.
      apply hour_step_intro with (added := glm_current_events cfg t cur).
      * reflexivity.
      * exact C1.
      * simpl nlist. rewrite C3. lia.
      * rewrite C2. intros x [].
  - rewrite (glm_block_realtime_late w cfg c t s Hm). simpl final. fold cur.
    destruct (glm_realtime_log_ok (nlist s) (glm_current_events cfg t cur)
                (glm_keep c cur) Hg C1 C2) as (R1 & R2 & R3).
    { rewrite C4. apply incl_glm_keep. }
    cbv zeta in R1, R2, R3. rewrite C3 in R2.
    eapply hour_step_intro; [| exact R1 | | exact R3].
    + reflexivity.
    + simpl nlist. rewrite R2. lia.
Qed.

(** Lines 245-267 outside real time. *)
Lemma glm_current_step :
  no_glm cfg = false ->
  within (hour_step w cfg false c p t) (glm_current w cfg false c t).
Proof.
  intros Hg s.
  destruct (glm_current_historical_eq w cfg c t s) as (s' & E & Hl & Hn & _).
  rewrite E. simpl final.
  assert (Hev : hour_event cfg false c p t
                  (EvList (bucket_name cfg) (g_prefix t) ["GLM"; stamp t])).
  { eapply hour_list. now apply request_glm. }
  eapply listed_then_stored with
    (waits := [EvList (bucket_name cfg) (g_prefix t) ["GLM"; stamp t]]).
  - exact Hl.
  - apply Forall_cons; [exact Hev | apply Forall_nil].
  - reflexivity.
  - rewrite Hn. unfold n_listings. simpl. lia.
  - simpl. rewrite app_nil_r. apply incl_refl.
  - right. right. right. auto.
  - discriminate.
Qed.

(** One turn of the loop of lines 283-288, however it ends. *)
Lemma transfer_backfill_step i s :
  no_glm cfg = false -> minute t < 3 ->
  outdir s = Some (category_dir cfg t "glm") ->
  exists added,
    log (final (transfer_backfill w cfg t i s)) = log s ++ added
    /\ Forall (hour_event cfg false c p t) added
    /\ Forall (fun e => is_listing e = false) added
    /\ incl (flat_map transferred added) [i]
    /\ nlist (final (transfer_backfill w cfg t i s)) = nlist s
    /\ outdir (final (transfer_backfill w cfg t i s)) = outdir s.
Proof.
  intros Hg Hm Hod. destruct s as [n d lg fs o od]. simpl in Hod. subst od.
  assert (Hc : category_on cfg "glm") by (right; right; right; auto).
  assert (Hdl : del_local cfg = false ->
                hour_event cfg false c p t
                  (EvDownload (bucket_name cfg) i (category_dir cfg t "glm"))).
  { intros Hd. apply hour_download; auto. discriminate. }
  assert (Hcp : forall gb path, gcs_bucket cfg = Some gb ->
                hour_event cfg false c p t
                  (EvCopy (bucket_name cfg) i gb
                     (Py.path_join (strftime_Ymd t) "glm" ++ Py.basename path))).
  { intros gb path Hb. now apply hour_copy_backfill. }
  unfold transfer_backfill, fetch, bind, read_outfile.
  destruct (del_local cfg) eqn:Hd; destruct (gcs_bucket cfg) as [gb |] eqn:Hb; simpl.
  - destruct o as [[path |] |]; simpl.
    + exists [EvCopy (bucket_name cfg) i gb
                (Py.path_join (strftime_Ymd t) "glm" ++ Py.basename path)].
      repeat split; repeat apply Forall_cons; try apply Forall_nil; auto.
      intros x Hx. exact Hx.
    + exists []. rewrite app_nil_r. repeat split; try apply Forall_nil. intros x [].
    + exists []. rewrite app_nil_r. repeat split; try apply Forall_nil. intros x [].
  - exists []. rewrite app_nil_r. repeat split; try apply Forall_nil. intros x [].
  - destruct (download_ncdf_gcs w d (bucket_name cfg) i (category_dir cfg t "glm"))
      as [path |]; simpl.
    + exists [EvDownload (bucket_name cfg) i (category_dir cfg t "glm");
              EvCopy (bucket_name cfg) i gb
                (Py.path_join (strftime_Ymd t) "glm" ++ Py.basename path)].
      rewrite <- app_assoc.
      repeat split; repeat apply Forall_cons; try apply Forall_nil; auto.
      intros x Hx. simpl in Hx. simpl. tauto.
    + exists [EvDownload (bucket_name cfg) i (category_dir cfg t "glm")].
      repeat split; repeat apply Forall_cons; try apply Forall_nil; auto.
      intros x Hx. exact Hx.
  - exists [EvDownload (bucket_name cfg) i (category_dir cfg t "glm")].
    repeat split; repeat apply Forall_cons; try apply Forall_nil; auto.
    intros x Hx. exact Hx.
Qed.

Lemma for_each_backfill_step l : forall s,
  no_glm cfg = false -> minute t < 3 ->
  outdir s = Some (category_dir cfg t "glm") ->
  exists added,
    log (final (for_each l (transfer_backfill w cfg t) s)) = log s ++ added
    /\ Forall (hour_event cfg false c p t) added
    /\ Forall (fun e => is_listing e = false) added
    /\ incl (flat_map transferred added) l
    /\ nlist (final (for_each l (transfer_backfill w cfg t) s)) = nlist s.
Proof.
  induction l as [| a r IH]; intros s Hg Hm Hod.
  - exists []. simpl. rewrite app_nil_r. repeat split; try apply Forall_nil.
    intros x [].
  - destruct (transfer_backfill_step a s Hg Hm Hod)
      as (a1 & L1 & F1 & Q1 & I1 & N1 & O1).
    unfold for_each; fold (@for_each string). unfold bind.
    destruct (transfer_backfill w cfg t a s) as [[] s1 | e s1 | s1]; simpl in *.
    + destruct (IH s1 Hg Hm (eq_trans O1 Hod)) as (a2 & L2 & F2 & Q2 & I2 & N2).
      exists (a1 ++ a2). rewrite L2, L1, N2, N1, app_assoc, flat_map_app.
      repeat split; try (apply Forall_app; now split).
      intros x Hx. apply in_app_or in Hx. destruct Hx as [Hx | Hx].
      * apply I1 in Hx. destruct Hx as [<- | []]. now left.
      * right. now apply I2.
    + exists a1. repeat split; auto.
      intros x Hx. apply I1 in Hx. destruct Hx as [<- | []]. now left.
    + exists a1. repeat split; auto.
      intros x Hx. apply I1 in Hx. destruct Hx as [<- | []]. now left.
Qed.

(** Lines 268-289 outside real time, with or without a mirror bucket. *)
Lemma glm_backfill_step :
  no_glm cfg = false ->
  within (hour_step w cfg false c p t) (glm_backfill w cfg false t).
Proof.
  intros Hg s.
  destruct (Z.lt_ge_cases (minute t) 3) as [Hm | Hm].
  2: { rewrite (glm_backfill_skipped w cfg false t s Hm). apply hour_step_refl. }
  destruct (sub_hour t) as [t0 |] eqn:Hs.
  2: { rewrite (glm_backfill_overflow w cfg false t s Hm Hs). apply hour_step_refl. }
  assert (Hev : hour_event cfg false c p t
                  (EvList (bucket_name cfg) (g_prefix t0) ["GLM"; stamp t0])).
  { eapply hour_list. now apply request_glm_before. }
  destruct s as [n d lg fs o od].
  unfold glm_backfill. destruct (Z.ltb_spec (minute t) 3); [| lia].
  rewrite Hs. unfold bind. simpl.
  destruct (list_gcs w n (bucket_name cfg) (g_prefix t0) ["GLM"; stamp t0])
    as [| a l] eqn:El.
  - simpl. apply hour_step_intro with
      (added := [EvList (bucket_name cfg) (g_prefix t0) ["GLM"; stamp t0]]).
    + reflexivity.
    + apply Forall_cons; [exact Hev | apply Forall_nil].
    + unfold n_listings. simpl. lia.
    + intros x [].
  - cbn [Py.is_empty negb].
    match goal with
    | |- context [for_each ?xs _ ?st] =>
        destruct (for_each_backfill_step xs st Hg Hm eq_refl)
          as (added & L & F & Q & I & N)
    end.
    apply hour_step_intro with
      (added := [EvList (bucket_name cfg) (g_prefix t0) ["GLM"; stamp t0];
                 EvMakedirs (category_dir cfg t "glm")] ++ added).
    + rewrite L. simpl. now rewrite <- !app_assoc.
    + repeat apply Forall_cons; auto.
      apply hour_makedirs. right. right. right. auto.
    + rewrite N. simpl nlist. rewrite n_listings_app, (n_listings_quiet _ Q).
      unfold n_listings. simpl. lia.
    + simpl. rewrite El. intros x Hx. apply in_or_app. left.
      apply I in Hx. now apply incl_slice_from in Hx.
Qed.

(** Lines 301-316. *)
Lemma glm_lookahead_step rt :
  no_glm cfg = false ->
  within (hour_step w cfg rt c p t) (glm_lookahead w cfg rt t).
Proof.
  intros Hg s.
  destruct ((55 <? minute t) && negb rt) eqn:Hb.
  2: { rewrite (glm_lookahead_skipped w cfg rt t s Hb). apply hour_step_refl. }
  apply andb_prop in Hb. destruct Hb as [Hm Hrt].
  apply Z.ltb_lt in Hm. apply negb_true_iff in Hrt. subst rt.
  destruct (add_hour t) as [t1 |] eqn:Ha.
  2: { rewrite (glm_lookahead_overflow w cfg t s Hm Ha). apply hour_step_refl. }
  destruct (glm_lookahead_eq w cfg t t1 s Hm Ha) as (s' & E & Hl & Hn & _).
  rewrite E. simpl final.
  assert (Hc : category_on cfg "glm") by (right; right; right; auto).
  destruct (transfers_ok cfg false c p t "glm"
              (firstn 8 (list_gcs w (nlist s) (bucket_name cfg) (g_prefix t1)
                           ["GLM"; stamp t1])) Hc)
    as (T1 & T2 & T3); [discriminate |].
  set (l := list_gcs w (nlist s) (bucket_name cfg) (g_prefix t1) ["GLM"; stamp t1]) in *.
  set (rest := if Py.is_empty l then []
               else EvMakedirs (category_dir cfg t "glm")
                    :: flat_map (transfer_events cfg t "glm" (category_dir cfg t "glm"))
                         (firstn 8 l)) in *.
  assert (R1 : Forall (hour_event cfg false c p t) rest).
  { subst rest. destruct (Py.is_empty l); [apply Forall_nil |].
    apply Forall_cons; [now apply hour_makedirs | exact T1]. }
  assert (R2 : Forall (fun e => is_listing e = false) rest).
  { subst rest. destruct (Py.is_empty l); [apply Forall_nil |].
    apply Forall_cons; [reflexivity | exact T2]. }
  assert (R3 : incl (flat_map transferred rest) l).
  { subst rest. destruct (Py.is_empty l); [intros x [] |].
    simpl. intros x Hx. apply T3 in Hx. now apply incl_firstn in Hx. }
  apply hour_step_intro with
    (added := [EvList (bucket_name cfg) (g_prefix t1) ["GLM"; stamp t1]] ++ rest).
  - exact Hl.
  - apply Forall_app. split; [| exact R1].
    apply Forall_cons; [| apply Forall_nil].
    eapply hour_list. now apply request_glm_after.
  - rewrite Hn, n_listings_app, (n_listings_quiet _ R2). unfold n_listings. simpl. lia.
  - rewrite flat_map_app, answers_app. simpl. fold l. rewrite app_nil_r.
    intros x Hx. apply in_or_app. left. now apply R3.
Qed.

(** Lines 244-316. *)
Lemma glm_block_step rt :
  no_glm cfg = false ->
  within (hour_step w cfg rt c p t) (glm_block w cfg rt c t).
Proof.
  intros Hg. destruct rt; [now apply glm_block_realtime_step |].
  unfold glm_block.
  apply within_bind; [apply hour_step_trans | now apply glm_current_step |].
  intros _. apply within_bind; [apply hour_step_trans | now apply glm_backfill_step |].
  intros _. apply within_bind; [apply hour_step_trans | |].
  - apply within_ret. apply hour_step_refl.
  - intros _. now apply glm_lookahead_step.
Qed.

(** Lines 163-316: the work of one hour. *)
Lemma hour_body_step rt :
  within (hour_step w cfg rt c p t) (hour_body w cfg fuel rt c p t).
Proof.
  unfold hour_body.
  apply within_bind; [apply hour_step_trans | |].
  { destruct (no_ir cfg) eqn:H; simpl.
    - apply within_ret. apply hour_step_refl.
    - now apply ir_block_step. }
  intros _. apply within_bind; [apply hour_step_trans | |].
  { destruct (no_vis cfg) eqn:H; simpl.
    - apply within_ret. apply hour_step_refl.
    - apply channel_block_step.
      + right. left. auto.
      + discriminate.
      + intros rest Hr. now apply request_vis. }
  intros _. apply within_bind; [apply hour_step_trans | |].
  { destruct (no_irdiff cfg) eqn:H; simpl.
    - apply within_ret. apply hour_step_refl.
    - apply channel_block_step.
      + right. right. left. auto.
      + discriminate.
      + intros rest Hr. now apply request_irdiff. }
  intros _. destruct (no_glm cfg) eqn:H; simpl.
  - apply within_ret. apply hour_step_refl.
  - now apply glm_block_step.
Qed.

End BlockSteps.

(** ** The events of a run *)

Section RunSteps.

Import Cal.

Variable w : world.
Variable cfg : config.
Variable fuel : nat.

Lemma log_step_refl P s : log_step w P s s.
Proof.
  exists []. rewrite app_nil_r. split; [reflexivity |]. split; [apply Forall_nil |].
  split; [unfold n_listings; simpl; lia | intros x []].
Qed.

Lemma log_step_trans P s1 s2 s3 :
  log_step w P s1 s2 -> log_step w P s2 s3 -> log_step w P s1 s3.
Proof.
  intros (a & La & Fa & Na & Ia) (b & Lb & Fb & Nb & Ib).
  exists (a ++ b). repeat split.
  - now rewrite Lb, La, app_assoc.
  - apply Forall_app. now split.
  - rewrite Nb, Na, n_listings_app. lia.
  - rewrite flat_map_app, answers_app. rewrite <- Na.
    intros x Hx. apply in_app_or in Hx. apply in_or_app.
    destruct Hx as [Hx | Hx]; [left; now apply Ia | right; now apply Ib].
Qed.

Lemma log_step_weaken (P Q : event -> Prop) s s' :
  (forall e, P e -> Q e) -> log_step w P s s' -> log_step w Q s s'.
Proof.
  intros H (a & La & Fa & Na & Ia). exists a. repeat split; auto.
  eapply Forall_impl; eassumption.
Qed.

(** The hourly loop from cursor [date]: every event is an event of the
    hour of a cursor reached from [date] and not after the end of the
    window. *)
Lemma hour_loop_step rt c p d_end n : forall date m vis s,
  log_step w
    (window_event cfg rt c p
       (fun t => exists k, hours_after k date = Some t /\ geb d_end t = true))
    s (final (hour_loop w cfg fuel rt c p d_end n date m vis s)).
Proof.
  induction n as [| n IH]; intros date m vis s; [apply log_step_refl |].
  cbn [hour_loop]. destruct (geb d_end date) eqn:Hge; [| apply log_step_refl].
  assert (H0 : log_step w
                 (window_event cfg rt c p
                    (fun t => exists k, hours_after k date = Some t /\ geb d_end t = true))
                 s (final (hour_body w cfg fuel rt c p date s))).
  { eapply log_step_weaken; [| apply (hour_body_step w cfg fuel c p date rt s)].
    intros e He. exists date. split; [| exact He]. exists 0%nat. auto. }
  unfold bind at 1.
  destruct (hour_body w cfg fuel rt c p date s) as [[] s1 | e s1 | s1]; simpl in H0;
    try exact H0.
  unfold bind. destruct (add_hour date) as [date' |] eqn:Ha; simpl; [| exact H0].
  eapply log_step_trans; [exact H0 |].
  eapply log_step_weaken; [| apply IH].
  intros e (t & (k & Hk & Hg) & He). exists t. split; [| exact He].
  exists (S k). simpl. rewrite Ha. auto.
Qed.

(** When the loop returns, every event is an event of the hour of a
    cursor it went through. *)
Lemma hour_loop_visits rt c p d_end n : forall date m vis s m' vis' s',
  hour_loop w cfg fuel rt c p d_end n date m vis s = Done (m', vis') s' ->
  exists l,
    vis' = vis ++ l
    /\ log_step w (window_event cfg rt c p (fun t => In t l)) s s'.
Proof.
  induction n as [| n IH]; intros date m vis s m' vis' s' H; [discriminate |].
  cbn [hour_loop] in H. destruct (geb d_end date) eqn:Hge.
  - unfold bind at 1 in H.
    pose proof (hour_body_step w cfg fuel c p date rt s) as H0.
    destruct (hour_body w cfg fuel rt c p date s) as [[] s1 | e s1 | s1];
      try discriminate.
    simpl in H0. unfold bind in H.
    destruct (add_hour date) as [date' |]; simpl in H; [| discriminate].
    apply IH in H. destruct H as (l & -> & Hs).
    exists (date :: l). split; [now rewrite <- app_assoc |].
    eapply log_step_trans.
    + eapply log_step_weaken; [| exact H0].
      intros e He. exists date. split; [now left | exact He].
    + eapply log_step_weaken; [| exact Hs].
      intros e (t & Ht & He). exists t. split; [now right | exact He].
  - inversion H; subst. exists []. split; [now rewrite app_nil_r |].
    apply log_step_refl.
Qed.

End RunSteps.

(** ** The whole run *)

Section RunEvents.

Import Cal.

Variable w : world.
Variable cfg : config.
Variable fuel : nat.

Lemma messages_quiet l k :
  Forall (fun e => is_io e = false) l ->
  n_listings l = 0%nat /\ flat_map transferred l = [] /\ answers w k l = [].
Proof.
  unfold n_listings. induction 1 as [| e r He _ (I1 & I2 & I3)]; simpl; [auto |].
  destruct e; try discriminate. simpl. auto.
Qed.

(** Lines 124-136 return the product and the sector code, or end the
    run after two messages at most. *)
Lemma sector_setup_cases :
  (exists p c, sector_setup cfg init_state = Done (p, c) init_state)
  \/ (exists e s',
        sector_setup cfg init_state = Raised e s'
        /\ Forall (fun e => is_io e = false) (log s') /\ nlist s' = 0%nat).
Proof.
  unfold sector_setup, bind, item.
  destruct (sector cfg) as [| a r].
  - right. exists IndexError, init_state. repeat split. apply Forall_nil.
  - cbn [list_ascii_of_string nth_error]. unfold ret at 1.
    destruct (String.eqb (String a r) "meso1"); [left; eauto |].
    destruct (String.eqb (String a r) "meso2"); [left; eauto |].
    destruct (String.eqb (String a r) "conus"); [left; eauto |].
    destruct (String.eqb (String a r) "full"); [left; eauto |].
    right. eexists. eexists. split; [reflexivity |]. simpl.
    split; [| reflexivity]. repeat apply Forall_cons; try apply Forall_nil; reflexivity.
Qed.

(** After the set-up the run is the hourly loop over its window. *)
Lemma run_trace_start p c :
  sector_setup cfg init_state = Done (p, c) init_state ->
  match window w cfg c with
  | Some (d1, d2) =>
      exists s0,
        run_trace w cfg fuel init_state
        = hour_loop w cfg fuel (is_rt cfg) c p d2 fuel d1 [] [] s0
        /\ Forall (fun e => is_io e = false) (log s0) /\ nlist s0 = 0%nat
        /\ outfile s0 = None
  | None => run_trace w cfg fuel init_state = Raised OverflowError init_state
  end.
Proof.
  intros Hs. unfold window, is_rt. destruct (date1 cfg) as [d1 |] eqn:Hd.
  - exists (historical_start cfg d1). split.
    + now apply run_trace_historical.
    + unfold historical_start. simpl. split; [| split; reflexivity].
      destruct (verbose cfg); repeat apply Forall_cons; try apply Forall_nil; reflexivity.
  - destruct (rt_cursor (utcnow w) c) as [d |] eqn:Hc.
    + exists (rt_start cfg). split.
      * now apply run_trace_realtime.
      * unfold rt_start. simpl. split; [| split; reflexivity].
        destruct (verbose cfg); repeat apply Forall_cons; try apply Forall_nil; reflexivity.
    + now apply run_trace_overflow with (p := p) (c := c).
Qed.

(** Every event of a run, however it ends. *)
Lemma run_trace_events :
  let s := final (run_trace w cfg fuel init_state) in
  Forall (run_event w cfg) (log s)
  /\ nlist s = n_listings (log s)
  /\ incl (flat_map transferred (log s)) (answers w 0 (log s)).
Proof.
  cbv zeta.
  assert (Hq : forall s',
            Forall (fun e => is_io e = false) (log s') -> nlist s' = 0%nat ->
            Forall (run_event w cfg) (log s')
            /\ nlist s' = n_listings (log s')
            /\ incl (flat_map transferred (log s')) (answers w 0 (log s'))).
  { intros s' Hp Hn. destruct (messages_quiet (log s') 0 Hp) as (Q1 & Q2 & Q3).
    rewrite Hn, Q1, Q2. repeat split; [| intros x []].
    eapply Forall_impl; [| exact Hp]. intros e He. now left. }
  destruct sector_setup_cases as [(p & c & Hs) | (e & s' & Hs & Hp & Hn)].
  2: { assert (E : run_trace w cfg fuel init_state = Raised e s').
       { unfold run_trace, bind. now rewrite Hs. }
       rewrite E. simpl final. now apply Hq. }
  pose proof (run_trace_start p c Hs) as Hrun.
  destruct (window w cfg c) as [[d1 d2] |] eqn:Hw.
  2: { rewrite Hrun. simpl final. apply Hq; [apply Forall_nil | reflexivity]. }
  destruct Hrun as (s0 & E & Hp & Hn & _). rewrite E.
  destruct (hour_loop_step w cfg fuel (is_rt cfg) c p d2 fuel d1 [] [] s0)
    as (added & La & Fa & Na & Ia).
  destruct (messages_quiet (log s0) 0 Hp) as (Q1 & Q2 & Q3).
  rewrite La, Na, Hn. rewrite n_listings_app, flat_map_app, answers_app, Q1, Q2, Q3.
  rewrite Hn in Ia. simpl. repeat split; [| exact Ia].
  apply Forall_app. split.
  - eapply Forall_impl; [| exact Hp]. intros e He. now left.
  - eapply Forall_impl; [| exact Fa].
    intros e (t & (k & Hk & Hg) & He). right. exists p, c, d1, d2, t, k. auto.
Qed.

(** Every event of a run that returns: the cursors are those the loop
    went through. *)
Lemma run_trace_done_events m vis s :
  run_trace w cfg fuel init_state = Done (m, vis) s ->
  exists p c,
    sector_setup cfg init_state = Done (p, c) init_state
    /\ Forall (fun e => is_io e = false
                        \/ exists t, In t vis /\ hour_event cfg (is_rt cfg) c p t e)
         (log s).
Proof.
  intros H.
  destruct (run_trace_done_inv w cfg fuel _ _ H) as (p & c & Hs).
  exists p, c. split; [exact Hs |].
  pose proof (run_trace_start p c Hs) as Hrun.
  destruct (window w cfg c) as [[d1 d2] |]; [| congruence].
  destruct Hrun as (s0 & E & Hp & Hn & _). rewrite E in H.
  apply hour_loop_visits in H. destruct H as (l & Hl & (added & La & Fa & _)).
  simpl in Hl. subst l. rewrite La. apply Forall_app. split.
  - eapply Forall_impl; [| exact Hp]. intros e He. now left.
  - eapply Forall_impl; [| exact Fa]. intros e He. now right.
Qed.

End RunEvents.

(** ** What a run never does *)

Section RunDiscipline.

Import Cal.

Variable w : world.
Variable cfg : config.
Variable fuel : nat.

(** The log of the run is the log of its trace. *)
Lemma run_final :
  final (run_download_goes_ir_vis_l1b_glm_l2_data w cfg fuel init_state)
  = final (run_trace w cfg fuel init_state).
Proof. unfold run_download_goes_ir_vis_l1b_glm_l2_data. apply final_fst. Qed.

(** Every event of a run is a message or an event of one of its hours. *)
Lemma run_events_hour (Q : event -> Prop) :
  (forall e, is_io e = false -> Q e) ->
  (forall c p t e, hour_event cfg (is_rt cfg) c p t e -> Q e) ->
  Forall Q (log (final (run_download_goes_ir_vis_l1b_glm_l2_data w cfg fuel init_state))).
Proof.
  intros Hm Hh. rewrite run_final.
  destruct (run_trace_events w cfg fuel) as (H & _).
  eapply Forall_impl; [| exact H].
  intros e [He | (p & c & d1 & d2 & t & k & _ & _ & _ & _ & He)]; eauto.
Qed.

(** Without a mirror bucket the run copies nothing, however it ends. *)
Theorem no_mirror_no_copy :
  gcs_bucket cfg = None ->
  Forall (fun e => is_copy e = false)
    (log (final (run_download_goes_ir_vis_l1b_glm_l2_data w cfg fuel init_state))).
Proof.
  intros Hb. apply run_events_hour.
  - intros e He. now destruct e.
  - intros c p t e He. destruct He; try reflexivity; congruence.
Qed.

(** With [del_local] nothing is fetched to the local disk, with or
    without a mirror bucket: no download and no pool, although the
    directories are still created. *)
Theorem del_local_fetches_nothing :
  del_local cfg = true ->
  Forall (fun e => is_fetch e = false)
    (log (final (run_download_goes_ir_vis_l1b_glm_l2_data w cfg fuel init_state))).
Proof.
  intros Hd. apply run_events_hour.
  - intros e He. now destruct e.
  - intros c p t e He. destruct He; try reflexivity; congruence.
Qed.

(** The store is only read through the public bucket of the satellite,
    and only written through copies into the mirror bucket of the
    configuration. *)
Theorem requests_name_the_configured_buckets :
  Forall (on_buckets cfg)
    (log (final (run_download_goes_ir_vis_l1b_glm_l2_data w cfg fuel init_state))).
Proof.
  apply run_events_hour.
  - intros e He. now destruct e.
  - intros c p t e He. destruct He; simpl; auto.
Qed.

Lemma category_on_plain category :
  category_on cfg category -> has_slash category = false.
Proof. intros [[-> _] | [[-> _] | [[-> _] | [-> _]]]]; reflexivity. Qed.

Lemma basename_category_dir t category :
  category_on cfg category -> Py.basename (category_dir cfg t category) = category.
Proof.
  intros H. unfold category_dir. apply StrFacts.basename_path_join.
  now apply category_on_plain.
Qed.

Lemma is_rt_true : is_rt cfg = true -> date1 cfg = None.
Proof. unfold is_rt. now destruct (date1 cfg). Qed.

Lemma is_rt_none : date1 cfg = None -> is_rt cfg = true.
Proof. unfold is_rt. now intros ->. Qed.

(** A category that is switched off is left alone: every listing names
    the channel of a category switched on, and every directory created
    or written into is the directory of such a category. *)
Theorem excluded_categories_are_untouched :
  Forall (on_category cfg)
    (log (final (run_download_goes_ir_vis_l1b_glm_l2_data w cfg fuel init_state))).
Proof.
  apply run_events_hour.
  - intros e He. now destruct e.
  - intros c p t e He. destruct He as [| category prefix patterns Hr | | | | | | | |]; simpl; auto.
    + destruct Hr; eexists; eexists; (split; [reflexivity |]); unfold channel_on; tauto.
    + now rewrite basename_category_dir.
    + now rewrite basename_category_dir.
    + rewrite basename_category_dir; right; right; right; auto.
Qed.

(** The worker pool is only used in real time, with five workers and
    for lightning; in real time no lightning blob is downloaded
    sequentially. *)
Theorem pool_is_for_realtime_lightning :
  Forall (pool_discipline cfg)
    (log (final (run_download_goes_ir_vis_l1b_glm_l2_data w cfg fuel init_state))).
Proof.
  assert (Hglm : forall t, no_glm cfg = false ->
                 Py.basename (category_dir cfg t "glm") = "glm").
  { intros t H. apply basename_category_dir. right. right. right. auto. }
  apply run_events_hour.
  - intros e He. now destruct e.
  - intros c p t e He. destruct He; simpl; auto using is_rt_true.
    intros Hd. rewrite basename_category_dir by assumption. auto using is_rt_none.
Qed.

(** The run only transfers blobs the store has listed for it: every
    blob downloaded, copied or handed to the pool is in the answer to
    one of the listings of the log, and [nlist] counts these listings. *)
Theorem transfers_only_listed_blobs :
  let s := final (run_download_goes_ir_vis_l1b_glm_l2_data w cfg fuel init_state) in
  incl (flat_map transferred (log s)) (answers w 0 (log s))
  /\ nlist s = n_listings (log s).
Proof.
  cbv zeta. rewrite run_final.
  destruct (run_trace_events w cfg fuel) as (_ & Hn & Hi). auto.
Qed.

Lemma rt_cursor_valid c d :
  valid (utcnow w) = true -> rt_cursor (utcnow w) c = Some d -> valid d = true.
Proof.
  intros V. unfold rt_cursor.
  destruct ((minute (utcnow w) <? 10) && String.eqb c "F").
  { intros H. apply CalFacts.sub_minutes_spec in H; [tauto | lia | assumption]. }
  destruct ((minute (utcnow w) <? 4) && String.eqb c "C").
  { intros H. apply CalFacts.sub_minutes_spec in H; [tauto | lia | assumption]. }
  intros H. now inversion H; subst.
Qed.

Lemma window_valid c d1 d2 :
  valid_dates w cfg -> window w cfg c = Some (d1, d2) ->
  valid d1 = true /\ valid d2 = true.
Proof.
  intros (Vn & V1 & V2). unfold window, window_end.
  destruct (date1 cfg) as [d |] eqn:E1.
  - intros H. inversion H; subst. split; [now apply V1 |].
    destruct (date2 cfg) as [d' |]; [now apply V2 | now apply V1].
  - destruct (rt_cursor (utcnow w) c) as [d |] eqn:Ec; [| discriminate].
    intros H. inversion H; subst. split; eapply rt_cursor_valid; eassumption.
Qed.

(** A run that returns has the trace of its cursors. *)
Lemma run_done_trace m s :
  run_download_goes_ir_vis_l1b_glm_l2_data w cfg fuel init_state = Done m s ->
  exists vis, run_trace w cfg fuel init_state = Done (m, vis) s.
Proof.
  unfold run_download_goes_ir_vis_l1b_glm_l2_data, bind.
  destruct (run_trace w cfg fuel init_state) as [[m' vis] s' | |]; try discriminate.
  intros H. inversion H; subst. now exists vis.
Qed.

(** The manifest of a run that returns has the day of every cursor. *)
Lemma manifest_has_visits m vis s :
  valid_dates w cfg -> run_trace w cfg fuel init_state = Done (m, vis) s ->
  forall t, In t vis -> In (day_dir cfg t) m.
Proof.
  intros V H t Ht.
  destruct (run_trace_done_inv w cfg fuel _ _ H) as (p & c & Hs).
  pose proof (run_trace_start w cfg fuel p c Hs) as Hrun.
  destruct (window w cfg c) as [[d1 d2] |] eqn:Hw; [| congruence].
  destruct (window_valid c d1 d2 V Hw) as (V1 & V2).
  destruct Hrun as (s0 & E & _). rewrite E in H.
  apply hour_loop_done in H; try assumption.
  destruct H as (l & cur & Hl & Hh & _ & _ & _ & Hm & _).
  simpl in Hl. subst l.
  destruct (manifest_of_visits cfg d1 vis cur Hh V1) as (Hmap & _).
  cbv zeta in Hmap. rewrite <- Hm in Hmap. rewrite Hmap.
  unfold day_dir. apply in_map. apply DayFacts.first_visits_in.
  now apply in_map.
Qed.

(** Whatever a run that returns has created or written on the local
    disk is a category directory of an entry of its manifest. *)
Theorem outputs_are_under_the_manifest m s :
  valid_dates w cfg ->
  run_download_goes_ir_vis_l1b_glm_l2_data w cfg fuel init_state = Done m s ->
  Forall (fun e => forall d, event_dir e = Some d ->
                   exists entry category,
                     In entry m /\ category_on cfg category
                     /\ d = Py.path_join entry category)
    (log s).
Proof.
  intros V H. destruct (run_done_trace m s H) as (vis & Ht).
  destruct (run_trace_done_events w cfg fuel m vis s Ht) as (p & c & _ & He).
  pose proof (manifest_has_visits m vis s V Ht) as Hin.
  eapply Forall_impl; [| exact He].
  intros e [Hq | (t & Hv & Hh)] d Hd.
  - destruct e; discriminate.
  - destruct Hh; simpl in Hd; try discriminate; inversion Hd; subst;
      eexists; eexists; (split; [apply Hin; exact Hv |]); (split; [| reflexivity]);
      try assumption.
    right. right. right. auto.
Qed.

End RunDiscipline.

(** Three hours over midnight: five directories, under the two entries
    of the manifest. *)
Lemma outputs_are_under_the_manifest_witness :
  exists s,
    run_download_goes_ir_vis_l1b_glm_l2_data sample_world sample_window 5 init_state
    = Done ["/data/20200601"; "/data/20200602"] s
    /\ Forall (fun e => forall d, event_dir e = Some d ->
                        exists entry category,
                          In entry ["/data/20200601"; "/data/20200602"]
                          /\ category_on sample_window category
                          /\ d = Py.path_join entry category)
         (log s).
Proof.
  assert (H : exists s,
            run_download_goes_ir_vis_l1b_glm_l2_data sample_world sample_window 5
              init_state
            = Done ["/data/20200601"; "/data/20200602"] s).
  { eexists. vm_compute. reflexivity. }
  destruct H as (s & H). exists s. split; [exact H |].
  apply (outputs_are_under_the_manifest sample_world sample_window 5 _ s); [| exact H].
  repeat split.
  - intros d E. inversion E. reflexivity.
  - intros d E. inversion E. reflexivity.
Defined.

(** One hour, no mirror bucket: two image listings, a lightning listing,
    none of them copied. *)
Lemma no_mirror_no_copy_witness :
  Forall (fun e => is_copy e = false)
    (log (final (run_download_goes_ir_vis_l1b_glm_l2_data sample_world sample_window 5
                   init_state))).
Proof. apply no_mirror_no_copy. reflexivity. Defined.

(** [del_local] without a mirror bucket: the listings and the
    directories of the hour, and nothing else. *)
Lemma del_local_fetches_nothing_witness :
  Forall (fun e => is_fetch e = false)
    (log (final (run_download_goes_ir_vis_l1b_glm_l2_data sample_world sample_dry 3
                   init_state)))
  /\ filter is_io
       (log (final (run_download_goes_ir_vis_l1b_glm_l2_data sample_world sample_dry 3
                      init_state)))
     = [EvList "gcp-public-data-goes-16" "ABI-L1b-RadC/2020/153/12/"
          ["C13"; "s202015312"; "C"];
        EvMakedirs "/data/20200601/ir";
        EvList "gcp-public-data-goes-16" "ABI-L1b-RadC/2020/153/12/"
          ["C02"; "s202015312"; "C"];
        EvMakedirs "/data/20200601/vis";
        EvList "gcp-public-data-goes-16" "GLM-L2-LCFA/2020/153/12/" ["GLM"; "s202015312"];
        EvMakedirs "/data/20200601/glm"].
Proof.
  split; [apply del_local_fetches_nothing; reflexivity | reflexivity].
Defined.

(** ** The exceptions of an hour *)

Section HourExceptions.

Import Cal.

Variable w : world.
Variable cfg : config.
Variable fuel : nat.
Variables c p : string.
Variable t : datetime.

Local Arguments for_each {A} l body : simpl never.
Local Arguments Nat.sub : simpl never.
Local Arguments Nat.add : simpl never.
Local Arguments first_nonempty L n k0 : simpl never.

(** What a real-time wait leaves in [files] is stored as its last blob. *)
Lemma store_waited rt category notfound s k events prefix patterns :
  let l := list_gcs w k (bucket_name cfg) prefix patterns in
  exists s',
    store_images w cfg rt t category notfound (waited s k events l) = Done tt s'
    /\ files s' = Some (image_keep rt l)
    /\ (del_local cfg = true -> outfile s' = outfile s).
Proof.
  intros l.
  destruct (store_images_done w cfg rt t category notfound (waited s k events l) l eq_refl)
    as (s' & E & _ & Ho & Hf).
  exists s'. repeat split; assumption.
Qed.

Lemma last_listed k prefix patterns :
  list_gcs w k (bucket_name cfg) prefix patterns <> [] ->
  exists blob,
    image_keep true (list_gcs w k (bucket_name cfg) prefix patterns) = [blob]
    /\ listed w cfg blob.
Proof.
  intros Hne. unfold image_keep.
  destruct (rev (list_gcs w k (bucket_name cfg) prefix patterns)) as [| blob r] eqn:Er.
  - apply (f_equal (@rev string)) in Er. rewrite rev_involutive in Er. contradiction.
  - exists blob. split; [reflexivity |]. exists k, prefix, patterns.
    apply in_rev. rewrite Er. now left.
Qed.

(** Lines 167-189 never raise; in real time they leave one listed blob
    in [files]. *)
Lemma ir_block_outcome rt s :
  match ir_block w cfg fuel rt c p t s with
  | Done _ s' =>
      (del_local cfg = true -> outfile s' = outfile s)
      /\ exists l, files s' = Some l
                   /\ (rt = true -> exists blob, l = [blob] /\ listed w cfg blob)
  | Raised _ _ => False
  | Spinning _ => rt = true
  end.
Proof.
  destruct rt.
  - unfold ir_block, bind. rewrite ir_listing_eq.
    destruct (first_nonempty _ (S fuel) (nlist s)) as [k |] eqn:Ef; [| reflexivity].
    apply first_nonempty_some in Ef. destruct Ef as (_ & Hne & _).
    match goal with
    | |- context [store_images _ _ _ _ _ _ (waited ?s0 ?k0 ?ev ?l0)] =>
        destruct (store_waited true "ir" "No IR files found for " s0 k0 ev
                    (iv_prefix p t) (ir_patterns c t)) as (s' & E & Hf & Ho)
    end.
    rewrite E. split; [exact Ho |]. eexists. split; [exact Hf |].
    intros _. now apply last_listed.
  - destruct (ir_block_historical w cfg fuel c p t s) as (s' & E & _ & Ho).
    destruct (ir_block_historical_eq w cfg fuel c p t s) as (s'' & E' & _ & _ & _ & Hf & _).
    rewrite E in E'. inversion E'; subst s''. rewrite E.
    split; [exact Ho |]. eexists. split; [exact Hf | discriminate].
Qed.

(** Lines 191-214 and 216-242 only raise [IndexError], in real time
    after infrared, for a listed blob without a fourth field. *)
Lemma channel_block_outcome rt chan category notfound waiting s :
  (rt && negb (no_ir cfg) = true ->
   exists blob rest, files s = Some (blob :: rest) /\ listed w cfg blob) ->
  match channel_block w cfg fuel rt c p t chan category notfound waiting s with
  | Done _ s' =>
      (del_local cfg = true -> outfile s' = outfile s)
      /\ exists l, files s' = Some l
                   /\ (rt = true -> no_ir cfg = false ->
                       exists blob, l = [blob] /\ listed w cfg blob)
  | Raised e _ =>
      e = IndexError /\ rt = true /\ no_ir cfg = false
      /\ exists blob, listed w cfg blob /\ batch_id_of blob = None
  | Spinning _ => rt = true
  end.
Proof.
  intros Hpre. destruct (rt && negb (no_ir cfg)) eqn:Hm.
  - apply andb_prop in Hm. destruct Hm as [-> Hir]. apply negb_true_iff in Hir.
    destruct (Hpre eq_refl) as (blob & rest & Hf & Hl).
    destruct (batch_id_of blob) as [fb |] eqn:Hb.
    + rewrite (channel_block_eq w cfg fuel c p t chan category notfound waiting
                 s blob rest fb Hir Hf Hb).
      destruct (first_nonempty _ (S fuel) (nlist s)) as [k |] eqn:Ef; [| reflexivity].
      apply first_nonempty_some in Ef. destruct Ef as (_ & Hne & _).
      match goal with
      | |- context [store_images _ _ _ _ _ _ (waited ?s0 ?k0 ?ev ?l0)] =>
          destruct (store_waited true category notfound s0 k0 ev
                      (iv_prefix p t) [chan; stamp t; c; fb]) as (s' & E & Hfs & Ho)
      end.
      rewrite E. split; [exact Ho |]. eexists. split; [exact Hfs |].
      intros _ _. now apply last_listed.
    + unfold channel_block, bind.
      rewrite (channel_listing_no_id w cfg fuel c p t chan waiting s blob rest Hir Hf Hb).
      repeat split; auto. now exists blob.
  - unfold channel_block, bind.
    rewrite (channel_listing_plain w cfg fuel c p rt t chan waiting s Hm).
    match goal with
    | |- context [store_images _ _ _ _ _ _ ?st] =>
        destruct (store_images_done w cfg rt t category notfound st _ eq_refl)
          as (s' & E & _ & Ho & Hfs)
    end.
    rewrite E. split; [exact Ho |]. eexists. split; [exact Hfs |].
    intros -> Hir. rewrite Hir in Hm. discriminate.
Qed.

(** One turn of the loop of lines 283-288: line 288 reads [outfile]. *)
Lemma transfer_backfill_outcome i s od :
  outdir s = Some od -> (del_local cfg = true -> outfile s = None) ->
  match transfer_backfill w cfg t i s with
  | Done _ s' => outdir s' = Some od /\ (del_local cfg = true -> outfile s' = None)
  | Raised e _ =>
      gcs_bucket cfg <> None
      /\ ((e = TypeError /\ del_local cfg = false)
          \/ (e = UnboundLocalError "outfile" /\ del_local cfg = true))
  | Spinning _ => False
  end.
Proof.
  intros Hod Ho. destruct s as [n d lg fs o od']. simpl in Hod, Ho. subst od'.
  unfold transfer_backfill, fetch, bind, read_outfile.
  destruct (del_local cfg) eqn:Hd; destruct (gcs_bucket cfg) as [gb |] eqn:Hb; simpl.
  - rewrite (Ho eq_refl). simpl. split; [discriminate | right; auto].
  - auto.
  - destruct (download_ncdf_gcs w d (bucket_name cfg) i od) as [path |]; simpl.
    + split; [reflexivity | discriminate].
    + split; [discriminate | left; auto].
  - split; [reflexivity | discriminate].
Qed.

Lemma for_each_backfill_outcome l : forall s od,
  outdir s = Some od -> (del_local cfg = true -> outfile s = None) ->
  match for_each l (transfer_backfill w cfg t) s with
  | Done _ _ => True
  | Raised e _ =>
      gcs_bucket cfg <> None
      /\ ((e = TypeError /\ del_local cfg = false)
          \/ (e = UnboundLocalError "outfile" /\ del_local cfg = true))
  | Spinning _ => False
  end.
Proof.
  induction l as [| a r IH]; intros s od Hod Ho; [exact I |].
  unfold for_each; fold (@for_each string). unfold bind.
  pose proof (transfer_backfill_outcome a s od Hod Ho) as H.
  destruct (transfer_backfill w cfg t a s) as [[] s1 | e s1 | s1]; try exact H.
  destruct H as (H1 & H2). now apply (IH s1 od).
Qed.

(** Lines 268-289 outside real time. *)
Lemma glm_backfill_outcome s :
  (del_local cfg = true -> outfile s = None) ->
  match glm_backfill w cfg false t s with
  | Done _ s' => del_local cfg = true -> outfile s' = None
  | Raised e _ =>
      minute t < 3
      /\ ((e = OverflowError /\ sub_hour t = None)
          \/ (gcs_bucket cfg <> None
              /\ ((e = TypeError /\ del_local cfg = false)
                  \/ (e = UnboundLocalError "outfile" /\ del_local cfg = true))))
  | Spinning _ => False
  end.
Proof.
  intros Ho.
  destruct (Z.lt_ge_cases (minute t) 3) as [Hm | Hm].
  2: { now rewrite (glm_backfill_skipped w cfg false t s Hm). }
  destruct (sub_hour t) as [t0 |] eqn:Hs.
  2: { rewrite (glm_backfill_overflow w cfg false t s Hm Hs). auto. }
  destruct s as [n d lg fs o od]. simpl in Ho.
  unfold glm_backfill. destruct (Z.ltb_spec (minute t) 3); [| lia].
  rewrite Hs. unfold bind. simpl.
  destruct (list_gcs w n (bucket_name cfg) (g_prefix t0) ["GLM"; stamp t0])
    as [| a l] eqn:El; [exact Ho |].
  cbn [Py.is_empty negb].
  match goal with
  | |- context [for_each ?xs _ ?st] =>
      pose proof (for_each_backfill_outcome xs st _ eq_refl Ho) as Hfe;
      pose proof (keeps_outfile_for_each (Py.slice_from (-8) (a :: l))
                    (transfer_backfill w cfg t)) as K;
      destruct (for_each xs (transfer_backfill w cfg t) st) as [[] s1 | e s1 | s1] eqn:E
  end.
  - intros Hd. specialize (K (fun i => keeps_outfile_transfer_backfill w cfg Hd t i)).
    match type of E with
    | for_each _ _ ?st = _ => specialize (K st); rewrite E in K; simpl in K
    end.
    rewrite K. now apply Ho.
  - split; [assumption |]. right. exact Hfe.
  - exact Hfe.
Qed.

(** Lines 244-316. *)
Lemma glm_block_outcome rt s :
  no_glm cfg = false -> (del_local cfg = true -> outfile s = None) ->
  match glm_block w cfg rt c t s with
  | Done _ _ => True
  | Raised e _ => hour_raises w cfg rt t e
  | Spinning _ => False
  end.
Proof.
  intros Hg Ho. destruct rt.
  - destruct (Z.lt_ge_cases (minute t) 3) as [Hm | Hm].
    + destruct (sub_hour t) as [t0 |] eqn:Hs.
      * now rewrite (glm_block_realtime_early w cfg c t t0 s Hm Hs).
      * unfold glm_block, bind. rewrite glm_current_realtime.
        rewrite (glm_backfill_overflow w cfg true t _ Hm Hs). simpl. auto.
    + now rewrite (glm_block_realtime_late w cfg c t s Hm).
  - unfold glm_block.
    destruct (glm_current_historical w cfg c t s) as (s1 & E1 & _ & K1).
    unfold bind at 1. rewrite E1.
    assert (Ho1 : del_local cfg = true -> outfile s1 = None).
    { intros Hd. rewrite (K1 Hd). now apply Ho. }
    pose proof (glm_backfill_outcome s1 Ho1) as H2.
    unfold bind at 1.
    destruct (glm_backfill w cfg false t s1) as [[] s2 | e s2 | s2]; try exact H2.
    + unfold bind at 1. unfold ret at 1.
      destruct ((55 <? minute t) && negb false) eqn:Hb.
      2: { now rewrite (glm_lookahead_skipped w cfg false t s2 Hb). }
      apply andb_prop in Hb. destruct Hb as [Hm _]. apply Z.ltb_lt in Hm.
      destruct (add_hour t) as [t1 |] eqn:Ha.
      * destruct (glm_lookahead_eq w cfg t t1 s2 Hm Ha) as (s3 & E3 & _).
        now rewrite E3.
      * rewrite (glm_lookahead_overflow w cfg t s2 Hm Ha). simpl. auto.
    + destruct H2 as (Hm & [[-> Hs] | (Hb & [[-> Hd] | [-> Hd]])]); simpl; auto 10.
Qed.

(** A channel step, when its category is on, in the chain of the hour. *)
Lemma channel_step_outcome rt (off : bool) chan category notfound waiting s :
  (del_local cfg = true -> outfile s = None) ->
  (rt && negb (no_ir cfg) = true ->
   exists blob rest, files s = Some (blob :: rest) /\ listed w cfg blob) ->
  match (if negb off
         then channel_block w cfg fuel rt c p t chan category notfound waiting
         else ret tt) s with
  | Done _ s' =>
      (del_local cfg = true -> outfile s' = None)
      /\ (rt && negb (no_ir cfg) = true ->
          exists blob rest, files s' = Some (blob :: rest) /\ listed w cfg blob)
  | Raised e _ =>
      off = false /\ e = IndexError /\ rt = true /\ no_ir cfg = false
      /\ exists blob, listed w cfg blob /\ batch_id_of blob = None
  | Spinning _ => rt = true
  end.
Proof.
  intros Ho Hf. destruct off; simpl; [now split |].
  pose proof (channel_block_outcome rt chan category notfound waiting s Hf) as H.
  destruct (channel_block w cfg fuel rt c p t chan category notfound waiting s)
    as [[] s' | e s' | s']; [| tauto | exact H].
  destruct H as (K & l & Hl & Hb). split.
  - intros Hd. rewrite (K Hd). now apply Ho.
  - intros Hm. apply andb_prop in Hm. destruct Hm as [Hrt Hir].
    apply negb_true_iff in Hir. destruct (Hb Hrt Hir) as (blob & -> & Hlb).
    exists blob, []. auto.
Qed.

(** Lines 163-316: the exceptions of the work of one hour. *)
Lemma hour_body_outcome rt s :
  (del_local cfg = true -> outfile s = None) ->
  match hour_body w cfg fuel rt c p t s with
  | Done _ s' => del_local cfg = true -> outfile s' = None
  | Raised e _ => hour_raises w cfg rt t e
  | Spinning _ => rt = true
  end.
Proof.
  intros Ho. unfold hour_body.
  assert (H1 : match (if negb (no_ir cfg) then ir_block w cfg fuel rt c p t else ret tt) s
               with
               | Done _ s' =>
                   (del_local cfg = true -> outfile s' = None)
                   /\ (rt && negb (no_ir cfg) = true ->
                       exists blob rest, files s' = Some (blob :: rest)
                                         /\ listed w cfg blob)
               | Raised _ _ => False
               | Spinning _ => rt = true
               end).
  { destruct (no_ir cfg) eqn:Hir; simpl.
    - split; [exact Ho |]. rewrite andb_false_r. discriminate.
    - pose proof (ir_block_outcome rt s) as H.
      destruct (ir_block w cfg fuel rt c p t s) as [[] s' | e s' | s']; try exact H.
      destruct H as (K & l & Hl & Hb). split.
      + intros Hd. rewrite (K Hd). now apply Ho.
      + intros Hm. apply andb_prop in Hm. destruct Hm as [Hrt _].
        destruct (Hb Hrt) as (blob & -> & Hlb). exists blob, []. auto. }
  unfold bind at 1.
  destruct ((if negb (no_ir cfg) then ir_block w cfg fuel rt c p t else ret tt) s)
    as [[] s1 | e s1 | s1]; [| contradiction | exact H1].
  destruct H1 as (Ho1 & Hf1).
  pose proof (channel_step_outcome rt (no_vis cfg) "C02" "vis" "No VIS files found for "
                None s1 Ho1 Hf1) as H2.
  unfold bind at 1. unfold vis_block.
  destruct ((if negb (no_vis cfg)
             then channel_block w cfg fuel rt c p t "C02" "vis"
                    "No VIS files found for " None
             else ret tt) s1) as [[] s2 | e s2 | s2]; [| | exact H2].
  2: { destruct H2 as (Hv & -> & Hrt & Hir & Hb). simpl. auto. }
  destruct H2 as (Ho2 & Hf2).
  pose proof (channel_step_outcome rt (no_irdiff cfg) "C08" "ir_diff"
                "No 6.2 micron IR files found for "
                (Some "Waiting for IR C08 files to be available online")
                s2 Ho2 Hf2) as H3.
  unfold bind at 1. unfold irdiff_block.
  destruct ((if negb (no_irdiff cfg)
             then channel_block w cfg fuel rt c p t "C08" "ir_diff"
                    "No 6.2 micron IR files found for "
                    (Some "Waiting for IR C08 files to be available online")
             else ret tt) s2) as [[] s3 | e s3 | s3]; [| | exact H3].
  2: { destruct H3 as (Hv & -> & Hrt & Hir & Hb). simpl. auto. }
  destruct H3 as (Ho3 & Hf3).
  destruct (no_glm cfg) eqn:Hg; simpl; [exact Ho3 |].
  pose proof (glm_block_outcome rt s3 Hg Ho3) as H4.
  pose proof (keeps_outfile_glm w cfg) as K.
  destruct (glm_block w cfg rt c t s3) as [[] s4 | e s4 | s4] eqn:E4;
    [| exact H4 | contradiction].
  intros Hd. specialize (K Hd rt c t s3). rewrite E4 in K. simpl in K.
  rewrite K. now apply Ho3.
Qed.

End HourExceptions.

(** ** The exceptions of a run *)

Section RunExceptions.

Import Cal.

Variable w : world.
Variable cfg : config.
Variable fuel : nat.

(** The hourly loop raises what one of its hours raises, or
    [OverflowError] on its step to the next hour. *)
Lemma hour_loop_outcome rt c p d_end n : forall date m vis s e s',
  (del_local cfg = true -> outfile s = None) ->
  hour_loop w cfg fuel rt c p d_end n date m vis s = Raised e s' ->
  exists t k,
    hours_after k date = Some t /\ geb d_end t = true
    /\ (hour_raises w cfg rt t e \/ (e = OverflowError /\ add_hour t = None)).
Proof.
  induction n as [| n IH]; intros date m vis s e s' Ho H; [discriminate |].
  cbn [hour_loop] in H. destruct (geb d_end date) eqn:Hge; [| discriminate].
  pose proof (hour_body_outcome w cfg fuel c p date rt s Ho) as Hb.
  unfold bind at 1 in H.
  destruct (hour_body w cfg fuel rt c p date s) as [[] s1 | e1 s1 | s1];
    try discriminate.
  - unfold bind in H. destruct (add_hour date) as [date' |] eqn:Ha; simpl in H.
    + apply IH in H; [| exact Hb].
      destruct H as (t & k & Hk & Hg & Hr). exists t, (S k). simpl. rewrite Ha. auto.
    + inversion H; subst. exists date, 0%nat. simpl. auto.
  - inversion H; subst. exists date, 0%nat. simpl. auto.
Qed.

(** Every exception of a run. *)
Lemma run_trace_outcome e s :
  run_trace w cfg fuel init_state = Raised e s -> run_raises w cfg e.
Proof.
  intros H. unfold run_raises.
  destruct (sector_setup cfg init_state) as [[p c] s1 | e1 s1 | s1] eqn:Hs.
  - destruct (sector_setup_done cfg p c init_state s1 Hs) as (-> & _).
    pose proof (run_trace_start w cfg fuel p c Hs) as Hrun.
    destruct (window w cfg c) as [[d1 d2] |] eqn:Hw.
    + destruct Hrun as (s0 & E & Hp & Hn & Ho0). rewrite E in H.
      assert (Ho : del_local cfg = true -> outfile s0 = None) by (intros _; exact Ho0).
      apply hour_loop_outcome in H; [| exact Ho].
      destruct H as (t & k & Hk & Hg & Hr).
      right. right. right. exists p, c, d1, d2, t, k. auto.
    + rewrite Hrun in H. inversion H; subst.
      right. right. left. unfold window in Hw.
      destruct (date1 cfg) as [d |]; [discriminate |].
      split; [reflexivity |]. split; [reflexivity |]. exists c.
      now destruct (rt_cursor (utcnow w) c) as [d |].
  - assert (E : run_trace w cfg fuel init_state = Raised e1 s1).
    { unfold run_trace, bind. now rewrite Hs. }
    rewrite E in H. inversion H; subst. clear H E.
    unfold sector_setup, bind, item in Hs.
    destruct (sector cfg) as [| a r] eqn:Hsec.
    + inversion Hs; subst. right. left. auto.
    + cbn [list_ascii_of_string nth_error] in Hs. unfold ret at 1 in Hs.
      destruct (String.eqb_spec (String a r) "meso1"); [discriminate |].
      destruct (String.eqb_spec (String a r) "meso2"); [discriminate |].
      destruct (String.eqb_spec (String a r) "conus"); [discriminate |].
      destruct (String.eqb_spec (String a r) "full"); [discriminate |].
      inversion Hs; subst. left. split; [reflexivity |]. split; [| discriminate].
      unfold supported. tauto.
  - exfalso. unfold sector_setup, bind, item in Hs.
    destruct (sector cfg) as [| a r]; [discriminate |].
    cbn [list_ascii_of_string nth_error] in Hs. unfold ret at 1 in Hs.
    destruct (String.eqb (String a r) "meso1"); [discriminate |].
    destruct (String.eqb (String a r) "meso2"); [discriminate |].
    destruct (String.eqb (String a r) "conus"); [discriminate |].
    destruct (String.eqb (String a r) "full"); discriminate.
Qed.

End RunExceptions.

Section Taxonomy.

Import Cal.

Variable w : world.
Variable cfg : config.
Variable fuel : nat.



End Taxonomy.


(** ** Real time: the clock, the one hour of the run, its exceptions *)

Section RealTimeRun.

Import Cal.

Variable w : world.
Variable cfg : config.
Variable fuel : nat.

(** The cursor [k] hours after a date. *)
Lemma hours_after_spec k : forall d t,
  valid d = true -> hours_after k d = Some t ->
  valid t = true /\ to_us t = to_us d + Z.of_nat k * HOUR_US.
Proof.
  induction k as [| k IH]; intros d t V H.
  - inversion H; subst. split; [assumption | simpl; lia].
  - cbn [hours_after] in H. destruct (add_hour d) as [d' |] eqn:Ha; [| discriminate].
    apply CalFacts.add_hour_spec in Ha; [| assumption].
    destruct Ha as (V' & Hus & _).
    destruct (IH d' t V' H) as (Vt & Ht). split; [assumption |]. lia.
Qed.

(** Within a window of one instant the only cursor is that instant. *)
Lemma hours_after_instant k d t :
  valid d = true -> hours_after k d = Some t -> geb d t = true -> t = d.
Proof.
  intros V H Hg. destruct (hours_after_spec k d t V H) as (Vt & Ht).
  rewrite CalFacts.geb_to_us in Hg by assumption. apply Z.leb_le in Hg.
  destruct k as [| k]; [now inversion H |].
  unfold HOUR_US in Ht. lia.
Qed.

(** Lines 141-146: the cursor of real time. *)
Lemma rt_cursor_spec p c s0 :
  sector_setup cfg init_state = Done (p, c) s0 ->
  valid (utcnow w) = true ->
  (MINYEAR < year (utcnow w) -> exists d, rt_cursor (utcnow w) c = Some d)
  /\ forall d, rt_cursor (utcnow w) c = Some d ->
       valid d = true
       /\ to_us d = to_us (utcnow w) - rt_delay (sector cfg) (minute (utcnow w))
       /\ (d = utcnow w \/ 50 <= minute d)
       /\ (sector cfg = "full" -> 10 <= minute d)
       /\ (sector cfg = "conus" -> 4 <= minute d).
Proof.
  intros Hs V. pose proof (CalFacts.valid_bounds _ V) as B.
  assert (Hsub : forall n, 0 <= n <= 60 -> n > minute (utcnow w) ->
            (MINYEAR < year (utcnow w) -> exists d, sub_minutes n (utcnow w) = Some d)
            /\ forall d, sub_minutes n (utcnow w) = Some d ->
                 valid d = true /\ to_us d = to_us (utcnow w) - n * 60000000
                 /\ minute d = minute (utcnow w) + 60 - n).
  { intros n Hn Hgt. split.
    - intros Hy. unfold sub_minutes. destruct (Z.leb_spec n (minute (utcnow w))); [lia |].
      destruct (sub_hour (set_minute (utcnow w) (minute (utcnow w) + 60 - n)))
        as [d |] eqn:E; [now exists d |].
      apply CalFacts.sub_hour_none in E;
        [| apply CalFacts.valid_set_minute; [assumption | lia]].
      simpl in E. lia.
    - intros d E. apply CalFacts.sub_minutes_spec in E; [| lia | assumption].
      destruct E as (Vd & Hus & Hmin).
      destruct (Z.leb_spec n (minute (utcnow w))); [lia |]. auto. }
  apply sector_setup_done in Hs.
  destruct Hs as (_ & [(Hsec & _ & ->) | [(Hsec & _ & ->) | [(Hsec & _ & ->) | (Hsec & _ & ->)]]]);
    rewrite Hsec; unfold rt_cursor, rt_delay; simpl; rewrite ?andb_false_r, ?andb_true_r;
    try (split; [intros _; eexists; reflexivity |];
         intros d E; inversion E; subst; repeat split; auto; try discriminate; lia).
  - destruct (Z.ltb_spec (minute (utcnow w)) 4) as [Hlt | Hge]; simpl.
    + destruct (Hsub 5 ltac:(lia) ltac:(lia)) as (H1 & H2). split; [exact H1 |].
      intros d E. destruct (H2 d E) as (Vd & Hus & Hmin).
      split; [assumption |]. split; [lia |]. split; [right; lia |].
      split; [discriminate | intros _; lia].
    + split; [intros _; eexists; reflexivity |].
      intros d E. inversion E; subst. repeat split; auto; try discriminate; lia.
  - destruct (Z.ltb_spec (minute (utcnow w)) 10) as [Hlt | Hge]; simpl.
    + destruct (Hsub 10 ltac:(lia) ltac:(lia)) as (H1 & H2). split; [exact H1 |].
      intros d E. destruct (H2 d E) as (Vd & Hus & Hmin).
      split; [assumption |]. split; [lia |]. split; [right; lia |].
      split; [intros _; lia | discriminate].
    + split; [intros _; eexists; reflexivity |].
      intros d E. inversion E; subst. repeat split; auto; try discriminate; lia.
Qed.

(** Whatever the sector code, away from the first year of [datetime]
    the cursor of real time exists, and is the clock or a minute from 50
    on of the hour before. *)
Lemma rt_cursor_total c :
  valid (utcnow w) = true -> MINYEAR < year (utcnow w) ->
  exists d,
    rt_cursor (utcnow w) c = Some d /\ valid d = true
    /\ to_us d <= to_us (utcnow w) /\ (d = utcnow w \/ 50 <= minute d).
Proof.
  intros V Hy. pose proof (CalFacts.valid_bounds _ V) as B.
  assert (Hsub : forall n, 0 < n <= 10 -> n > minute (utcnow w) ->
            exists d, sub_minutes n (utcnow w) = Some d /\ valid d = true
                      /\ to_us d <= to_us (utcnow w) /\ 50 <= minute d).
  { intros n Hn Hgt.
    assert (E : exists d, sub_minutes n (utcnow w) = Some d).
    { unfold sub_minutes. destruct (Z.leb_spec n (minute (utcnow w))); [lia |].
      destruct (sub_hour (set_minute (utcnow w) (minute (utcnow w) + 60 - n)))
        as [d |] eqn:E; [now exists d |].
      apply CalFacts.sub_hour_none in E;
        [| apply CalFacts.valid_set_minute; [assumption | lia]].
      simpl in E. lia. }
    destruct E as (d & E). exists d. split; [exact E |].
    apply CalFacts.sub_minutes_spec in E; [| lia | assumption].
    destruct E as (Vd & Hus & Hmin).
    destruct (Z.leb_spec n (minute (utcnow w))); [lia |].
    repeat split; auto; lia. }
  unfold rt_cursor.
  destruct (Z.ltb_spec (minute (utcnow w)) 10) as [H10 | H10];
    destruct (String.eqb c "F"); simpl.
  - destruct (Hsub 10 ltac:(lia) ltac:(lia)) as (d & E & Vd & Hus & Hm). exists d. auto.
  - destruct (Z.ltb_spec (minute (utcnow w)) 4) as [H4 | H4];
      destruct (String.eqb c "C"); simpl.
    + destruct (Hsub 5 ltac:(lia) ltac:(lia)) as (d & E & Vd & Hus & Hm). exists d. auto.
    + exists (utcnow w). repeat split; auto; lia.
    + exists (utcnow w). repeat split; auto; lia.
    + exists (utcnow w). repeat split; auto; lia.
  - destruct ((minute (utcnow w) <? 4) && String.eqb c "C") eqn:E4.
    + apply andb_prop in E4. destruct E4 as [E4 _]. apply Z.ltb_lt in E4. lia.
    + exists (utcnow w). repeat split; auto; lia.
  - destruct ((minute (utcnow w) <? 4) && String.eqb c "C") eqn:E4.
    + apply andb_prop in E4. destruct E4 as [E4 _]. apply Z.ltb_lt in E4. lia.
    + exists (utcnow w). repeat split; auto; lia.
Qed.

(** In real time the loop goes through one cursor. *)
Lemma hour_loop_once c p d s r s' :
  valid d = true ->
  hour_loop w cfg fuel true c p d fuel d [] [] s = Done r s' ->
  r = ([day_dir cfg d], [d]).
Proof.
  intros V H. destruct fuel as [| [| n]].
  - discriminate.
  - cbn [hour_loop] in H. rewrite geb_refl in H. unfold bind in H.
    destruct (hour_body w cfg 1 true c p d s) as [[] s1 | |]; try discriminate.
    destruct (in_range (add_hour d) s1) as [d' s2 | |]; discriminate.
  - rewrite (hour_loop_realtime w cfg (S (S n)) c p d n s V) in H.
    unfold bind in H.
    destruct (hour_body w cfg (S (S n)) true c p d s) as [[] s1 | |]; try discriminate.
    destruct (in_range (add_hour d) s1) as [d' s2 | |]; try discriminate.
    unfold ret in H. now inversion H.
Qed.

(** A real-time run that returns went through one hour: its manifest
    has one entry, the day directory of its cursor, which is the clock
    moved back by ten minutes for the full disk in the first ten
    minutes of the hour, by five for CONUS in the first four; the
    cursor of the full disk is never before minute 10, that of CONUS
    never before minute 4. *)
Theorem realtime_visits_one_hour m s :
  date1 cfg = None -> valid (utcnow w) = true ->
  run_download_goes_ir_vis_l1b_glm_l2_data w cfg fuel init_state = Done m s ->
  exists d,
    run_trace w cfg fuel init_state = Done (m, [d]) s
    /\ m = [day_dir cfg d]
    /\ valid d = true
    /\ to_us d = to_us (utcnow w) - rt_delay (sector cfg) (minute (utcnow w))
    /\ (sector cfg = "full" -> 10 <= minute d)
    /\ (sector cfg = "conus" -> 4 <= minute d).
Proof.
  intros Hd V H. destruct (run_done_trace w cfg fuel m s H) as (vis & Ht).
  destruct (run_trace_done_inv w cfg fuel _ _ Ht) as (p & c & Hs).
  pose proof (run_trace_start w cfg fuel p c Hs) as Hrun.
  unfold window, is_rt in Hrun. rewrite Hd in Hrun.
  destruct (rt_cursor (utcnow w) c) as [d |] eqn:Ec; [| congruence].
  destruct Hrun as (s0 & E & _).
  destruct (rt_cursor_spec p c init_state Hs V) as (_ & Hc).
  destruct (Hc d Ec) as (Vd & Hus & _ & Hf & Hcn).
  rewrite E in Ht. pose proof (hour_loop_once c p d s0 _ s Vd Ht) as Hr.
  inversion Hr; subst. exists d. rewrite E, Ht. repeat split; auto.
Qed.

(** A real-time run over a supported sector, with a clock away from the
    first and the last year of [datetime] and a store whose blob names
    have their four fields, never fails: it returns its manifest, or it
    is still waiting for a listing. *)
Theorem realtime_never_fails :
  date1 cfg = None -> supported (sector cfg) ->
  valid (utcnow w) = true -> MINYEAR < year (utcnow w) < MAXYEAR ->
  four_fields w cfg ->
  (exists m s, run_download_goes_ir_vis_l1b_glm_l2_data w cfg fuel init_state = Done m s)
  \/ (exists s, run_download_goes_ir_vis_l1b_glm_l2_data w cfg fuel init_state
                = Spinning s).
Proof.
  intros Hd Hsup V Hy H4.
  unfold run_download_goes_ir_vis_l1b_glm_l2_data, bind.
  destruct (run_trace w cfg fuel init_state) as [[m vis] s | e s | s] eqn:Ht;
    [left; unfold ret; eauto | | right; eauto].
  exfalso. apply run_trace_outcome in Ht.
  destruct Ht as [(_ & Hn & _) | [(_ & He) | [(_ & _ & c & Hc) | Hh]]].
  - contradiction.
  - destruct Hsup as [H | [H | [H | H]]]; rewrite H in He; discriminate.
  - destruct (rt_cursor_total c V ltac:(lia)) as (d & E & _). congruence.
  - destruct Hh as (p & c & d1 & d2 & t & k & Hs & Hw & Hk & Hg & Hr).
    unfold window in Hw. rewrite Hd in Hw.
    destruct (rt_cursor_total c V ltac:(lia)) as (d & E & Vd & Hus & Hm).
    rewrite E in Hw. inversion Hw; subst d1 d2.
    pose proof (hours_after_instant k d t Vd Hk Hg) as ->.
    assert (Hyd : year d <= year (utcnow w)) by (apply to_us_year; assumption).
    unfold is_rt in Hr. rewrite Hd in Hr.
    destruct Hr as [Hr | (-> & Ha)].
    + destruct e; simpl in Hr.
      * contradiction.
      * destruct Hr as (_ & _ & _ & blob & Hl & Hb). now apply (H4 blob Hl).
      * destruct Hr as (Hf & _). discriminate.
      * destruct Hr as (_ & [(Hlt & Hsub) | (_ & Hf & _)]); [| discriminate].
        apply CalFacts.sub_hour_none in Hsub; [| assumption].
        destruct Hm as [-> | Hm]; lia.
      * destruct Hr as (_ & Hf & _). discriminate.
    + apply CalFacts.add_hour_none in Ha; [| assumption]. lia.
Qed.

End RealTimeRun.

(** The full disk at 12:01:30: the cursor is 11:51:30. *)
Lemma realtime_visits_one_hour_witness :
  exists d s,
    run_trace sample_world sample_full_disk 3 init_state
    = Done (["/data/20200601"], [d]) s
    /\ Cal.to_us d = Cal.to_us (mkdt 2020 6 1 12 1 30 0) - 600000000
    /\ 10 <= minute d.
Proof.
  assert (H : exists s,
            run_download_goes_ir_vis_l1b_glm_l2_data sample_world sample_full_disk 3
              init_state = Done ["/data/20200601"] s).
  { eexists. vm_compute. reflexivity. }
  destruct H as (s & H).
  destruct (realtime_visits_one_hour sample_world sample_full_disk 3 _ s
              eq_refl eq_refl H) as (d & Ht & _ & _ & Hus & Hf & _).
  exists d, s. split; [exact Ht |]. split; [exact Hus | now apply Hf].
Defined.

(** The defaults of [main] over a store of well-named blobs. *)
Lemma realtime_never_fails_witness :
  (exists m s,
     run_download_goes_ir_vis_l1b_glm_l2_data plain_world sample_realtime 3 init_state
     = Done m s)
  \/ (exists s,
        run_download_goes_ir_vis_l1b_glm_l2_data plain_world sample_realtime 3 init_state
        = Spinning s).
Proof.
  apply realtime_never_fails.
  - reflexivity.
  - right. left. reflexivity.
  - reflexivity.
  - split; reflexivity.
  - intros blob (k & prefix & patterns & [<- | []]). vm_compute. discriminate.
Defined.

(** ** Real time: what is kept of a listing *)

Section RealTimeSelection.

Import Cal.

Variable w : world.
Variable cfg : config.
Variable fuel : nat.
Variables c p : string.
Variable t : datetime.

Local Arguments for_each {A} l body : simpl never.
Local Arguments Nat.sub : simpl never.
Local Arguments Nat.add : simpl never.
Local Arguments first_nonempty L n k0 : simpl never.

(** Lines 176-186 in real time on a listing that is not empty: the
    directory, then one transfer, of the last blob. *)
Lemma store_last category notfound l s :
  files s = Some l -> l <> [] ->
  exists blob s',
    firstn 1 (rev l) = [blob]
    /\ store_images w cfg true t category notfound s = Done tt s'
    /\ log s' = log s ++ EvMakedirs (category_dir cfg t category)
                         :: transfer_events cfg t category (category_dir cfg t category)
                              blob
    /\ files s' = Some [blob]
    /\ nlist s' = nlist s.
Proof.
  intros Hf Hne.
  destruct (store_images_eq w cfg true t category notfound l s Hf)
    as (s' & E & Hl & Hn & Hfs).
  unfold image_keep in Hl, Hfs.
  destruct (rev l) as [| blob r] eqn:Er.
  { apply (f_equal (@rev string)) in Er. rewrite rev_involutive in Er. contradiction. }
  exists blob, s'. simpl in Hl, Hfs. unfold stored_events in Hl. simpl in Hl.
  rewrite app_nil_r in Hl. auto.
Qed.

(** In real time an image step keeps one blob, the last of the first
    answer that is not empty: it creates the directory of the category
    and transfers that blob, once. With infrared on it waits for that
    answer, under the batch identifier for the other channels; with
    infrared off the other channels are listed once and not waited
    for. *)
Theorem realtime_image_step_keeps_last_blob s :
  (let ev := EvList (bucket_name cfg) (iv_prefix p t) (ir_patterns c t) in
   let L := fun k => list_gcs w k (bucket_name cfg) (iv_prefix p t) (ir_patterns c t) in
   forall k, first_nonempty L (S fuel) (nlist s) = Some k ->
   exists blob s',
     firstn 1 (rev (L k)) = [blob]
     /\ ir_block w cfg fuel true c p t s = Done tt s'
     /\ log s' = log s ++ wait_log ev ir_waiting (k - nlist s)
                 ++ EvMakedirs (category_dir cfg t "ir")
                    :: transfer_events cfg t "ir" (category_dir cfg t "ir") blob
     /\ files s' = Some [blob] /\ nlist s' = S k)
  /\ (forall chan category notfound waiting blob0 rest fb k,
        no_ir cfg = false -> files s = Some (blob0 :: rest) ->
        batch_id_of blob0 = Some fb ->
        let patterns := [chan; stamp t; c; fb] in
        let ev := EvList (bucket_name cfg) (iv_prefix p t) patterns in
        let L := fun k => list_gcs w k (bucket_name cfg) (iv_prefix p t) patterns in
        first_nonempty L (S fuel) (nlist s) = Some k ->
        exists blob s',
          firstn 1 (rev (L k)) = [blob]
          /\ channel_block w cfg fuel true c p t chan category notfound waiting s
             = Done tt s'
          /\ log s' = log s ++ wait_log ev waiting (k - nlist s)
                      ++ EvMakedirs (category_dir cfg t category)
                         :: transfer_events cfg t category (category_dir cfg t category)
                              blob
          /\ files s' = Some [blob] /\ nlist s' = S k)
  /\ (forall chan category notfound waiting,
        no_ir cfg = true ->
        let ev := EvList (bucket_name cfg) (iv_prefix p t) [chan; stamp t; c] in
        let l := list_gcs w (nlist s) (bucket_name cfg) (iv_prefix p t)
                   [chan; stamp t; c] in
        exists s',
          channel_block w cfg fuel true c p t chan category notfound waiting s
          = Done tt s'
          /\ log s' = log s ++ ev :: stored_events cfg t category notfound
                                      (firstn 1 (rev l))
          /\ files s' = Some (firstn 1 (rev l)) /\ nlist s' = S (nlist s)).
Proof.
  split; [| split].
  - intros ev L k Ef. unfold ir_block, bind. rewrite ir_listing_eq.
    fold L. fold ev. rewrite Ef.
    apply first_nonempty_some in Ef. destruct Ef as (_ & Hne & _).
    destruct (store_last "ir" "No IR files found for " (L k)
                (waited s k (wait_log ev ir_waiting (k - nlist s)) (L k)) eq_refl Hne)
      as (blob & s' & Hb & E & Hl & Hf & Hn).
    exists blob, s'. simpl in Hl, Hn. rewrite <- app_assoc in Hl. auto.
  - intros chan category notfound waiting blob0 rest fb k Hir Hf Hb patterns ev L Ef.
    rewrite (channel_block_eq w cfg fuel c p t chan category notfound waiting
               s blob0 rest fb Hir Hf Hb).
    fold patterns. fold L. fold ev. rewrite Ef.
    apply first_nonempty_some in Ef. destruct Ef as (_ & Hne & _).
    destruct (store_last category notfound (L k)
                (waited s k (wait_log ev waiting (k - nlist s)) (L k)) eq_refl Hne)
      as (blob & s' & Hbl & E & Hl & Hfs & Hn).
    exists blob, s'. simpl in Hl, Hn. rewrite <- app_assoc in Hl. auto.
  - intros chan category notfound waiting Hir ev l.
    unfold channel_block, bind.
    rewrite (channel_listing_plain w cfg fuel c p true t chan waiting s)
      by (rewrite Hir; reflexivity).
    match goal with
    | |- context [store_images _ _ _ _ _ _ ?st] =>
        destruct (store_images_eq w cfg true t category notfound l st eq_refl)
          as (s' & E & Hl & Hn & Hfs)
    end.
    exists s'. simpl in Hl, Hn. unfold image_keep in Hl, Hfs.
    rewrite <- app_assoc in Hl. auto.
Qed.

(** Below minute 3 in real time, line 279 slices with a negative
    [val]: [files0[-val:]] is the listing of the hour before without
    its first [8 - 3 * minute] blobs, and that is what is added to the
    blobs kept of the cursor's hour. *)
Theorem realtime_backfill_drops_first_blobs t0 l s :
  0 <= minute t < 3 -> sub_hour t = Some t0 -> files s = Some l ->
  let prev := list_gcs w (nlist s) (bucket_name cfg) (g_prefix t0) ["GLM"; stamp t0] in
  let added := skipn (Z.to_nat (8 - 3 * minute t)) prev in
  exists s',
    glm_backfill w cfg true t s = Done tt s'
    /\ files s' = Some (l ++ added)
    /\ log s' = log s ++ glm_backfill_events cfg t t0 prev
    /\ List.length added = (List.length prev - Z.to_nat (8 - 3 * minute t))%nat.
Proof.
  intros Hm Hs Hf prev added.
  rewrite (glm_backfill_realtime w cfg t t0 s l ltac:(lia) Hs Hf).
  eexists. split; [reflexivity |]. cbn [files log]. fold prev.
  assert (E : Py.slice_from (- (-8 + minute t * 3)) prev = added).
  { unfold Py.slice_from. destruct (Z.ltb_spec (- (-8 + minute t * 3)) 0); [lia |].
    subst added. f_equal. lia. }
  rewrite E. repeat split. subst added. now rewrite length_skipn.
Qed.

End RealTimeSelection.

(** At 12:02:30 the three blobs of the hour before are listed; the
    first two are dropped and the last is added to the three of the
    hour. *)
Lemma realtime_backfill_drops_first_blobs_witness :
  exists s',
    glm_backfill early_world sample_realtime true (mkdt 2020 6 1 12 2 30 0)
      (mkstate 1 0 [] (Some ["a"; "b"; "c"]) None None) = Done tt s'
    /\ files s'
       = Some ["a"; "b"; "c"; "GLM-L2-LCFA/2020/153/11/OR_GLM-L2-LCFA_G16_s3.nc"].
Proof.
  destruct (realtime_backfill_drops_first_blobs early_world sample_realtime
              (mkdt 2020 6 1 12 2 30 0) (mkdt 2020 6 1 11 2 30 0) ["a"; "b"; "c"]
              (mkstate 1 0 [] (Some ["a"; "b"; "c"]) None None))
    as (s' & E & Hf & _); [simpl; lia | reflexivity | reflexivity |].
  exists s'. split; [exact E | exact Hf].
Defined.

(** ** The entry point and the edges of the configuration *)

Section EntryPoint.

Import Cal.

Variable w : world.
Variable fuel : nat.



End EntryPoint.


Section Edges.

Import Cal.

Variable w : world.
Variable cfg : config.
Variable fuel : nat.

(** With the four categories off a run asks nothing of the store and
    of the file system, however long its window: no listing, no
    directory, no transfer. *)
Theorem all_categories_off_no_io :
  no_ir cfg = true -> no_vis cfg = true -> no_irdiff cfg = true -> no_glm cfg = true ->
  filter is_io
    (log (final (run_download_goes_ir_vis_l1b_glm_l2_data w cfg fuel init_state)))
  = [].
Proof.
  intros H1 H2 H3 H4.
  assert (H : Forall (fun e => is_io e = false)
                (log (final (run_download_goes_ir_vis_l1b_glm_l2_data w cfg fuel
                               init_state)))).
  { apply run_events_hour; [auto |].
    assert (Hc : forall category, ~ category_on cfg category).
    { intros category [[_ H] | [[_ H] | [[_ H] | [_ H]]]]; congruence. }
    intros c p t e He.
    destruct He as [| category prefix patterns Hr | category Hcat | category i Hcat
                    | category i gb Hcat | | | | |];
      try reflexivity; try congruence; try (now destruct (Hc category)).
    destruct Hr; congruence. }
  induction H as [| e l He _ IH]; simpl; [reflexivity |]. now rewrite He.
Qed.

(** A window whose end is before its start is not an error: the loop
    is not entered, the run returns an empty manifest and has asked
    nothing of the store. *)
Theorem inverted_window_does_nothing d1 d2 :
  date1 cfg = Some d1 -> date2 cfg = Some d2 -> geb d2 d1 = false ->
  supported (sector cfg) -> (1 <= fuel)%nat ->
  run_download_goes_ir_vis_l1b_glm_l2_data w cfg fuel init_state
  = Done [] (historical_start cfg d1).
Proof.
  intros H1 H2 Hg Hsup Hf.
  destruct (supported_setup cfg Hsup) as (p & c & Hs).
  unfold run_download_goes_ir_vis_l1b_glm_l2_data, bind.
  rewrite (run_trace_historical w cfg fuel d1 p c H1 Hs).
  unfold window_end. rewrite H2.
  destruct fuel as [| n]; [lia |]. cbn [hour_loop]. rewrite Hg. reflexivity.
Qed.

End Edges.

(** Three hours with every category off: the three visits are in the
    manifest, the log has the two messages of [verbose]. *)
Lemma all_categories_off_no_io_witness :
  filter is_io
    (log (final (run_download_goes_ir_vis_l1b_glm_l2_data sample_world sample_off 5
                   init_state))) = []
  /\ exists s,
       run_download_goes_ir_vis_l1b_glm_l2_data sample_world sample_off 5 init_state
       = Done ["/data/20200601"; "/data/20200602"] s.
Proof.
  split.
  - apply all_categories_off_no_io; reflexivity.
  - eexists. vm_compute. reflexivity.
Defined.

Lemma inverted_window_does_nothing_witness :
  run_download_goes_ir_vis_l1b_glm_l2_data sample_world sample_inverted 1 init_state
  = Done []
      (mkstate 0 0
         [EvPrint "Downloading dates : 2020-06-02-00-00-00 - 2020-06-01-00-00-00";
          EvPrint "Files downloaded to outroot /data"]
         None None None).
Proof.
  apply (inverted_window_does_nothing sample_world sample_inverted 1
           (mkdt 2020 6 2 0 0 0 0) (mkdt 2020 6 1 0 0 0 0));
    [reflexivity | reflexivity | reflexivity | right; right; left; reflexivity
    | apply le_n].
Defined.

(** ** The batch identifier of a blob name *)

Section BatchIdentifier.

(** [re.split('_s|_', s)] on a name without underscore. *)
Lemma re_split_from_plain x : forall cur,
  underscores x = 0%nat -> Py.re_split_from cur x = [(cur ++ x)%string].
Proof.
  induction x as [| a x IH]; intros cur H; simpl in *.
  - now rewrite StrFacts.append_empty_r.
  - destruct (Ascii.eqb a "_"); [discriminate |].
    rewrite IH by assumption. now rewrite StrFacts.append_assoc'.
Qed.

Lemma re_split_from_field x r : forall cur,
  underscores x = 0%nat ->
  Py.re_split_from cur (x ++ String "_" r)
  = (cur ++ x)%string :: Py.re_split_from "" (after_separator r).
Proof.
  induction x as [| a x IH]; intros cur H; simpl in *.
  - rewrite StrFacts.append_empty_r. unfold after_separator.
    destruct r as [| b r']; [reflexivity |]. now destruct (Ascii.eqb b "s").
  - destruct (Ascii.eqb a "_"); [discriminate |].
    rewrite IH by assumption. now rewrite StrFacts.append_assoc'.
Qed.

(** Every underscore ends a field. *)
Lemma re_split_from_length s : forall cur,
  List.length (Py.re_split_from cur s) = S (underscores s).
Proof.
  induction s as [s IH] using (well_founded_induction
    (well_founded_ltof string String.length)).
  intros cur. destruct s as [| a s]; [reflexivity |].
  cbn [Py.re_split_from underscores].
  destruct (Ascii.eqb a "_") eqn:Ea.
  - destruct s as [| b s'].
    + reflexivity.
    + destruct (Ascii.eqb b "s") eqn:Eb.
      * cbn [List.length underscores].
        assert (Hb : Ascii.eqb b "_" = false).
        { apply Ascii.eqb_eq in Eb. now subst. }
        rewrite Hb. rewrite IH; [reflexivity |].
        unfold ltof. simpl. lia.
      * cbn [List.length]. rewrite IH; [reflexivity |]. unfold ltof. simpl. lia.
  - rewrite IH; [reflexivity |]. unfold ltof. simpl. lia.
Qed.

Lemma after_separator_field x r :
  underscores x = 0%nat ->
  exists x', underscores x' = 0%nat
             /\ after_separator (x ++ String "_" r) = (x' ++ String "_" r)%string.
Proof.
  intros H. destruct x as [| a x]; simpl in *.
  - now exists "".
  - destruct (Ascii.eqb a "_") eqn:Ea; [discriminate |].
    destruct (Ascii.eqb a "s").
    + now exists x.
    + exists (String a x). simpl. now rewrite Ea.
Qed.

(** The basename of a blob under a prefix that ends with a slash. *)
Lemma basename_under dir name :
  dir = "" \/ Py.ends_with_slash dir = true -> has_slash name = false ->
  Py.basename (dir ++ name) = name.
Proof.
  intros [-> | Hd] Hn; unfold Py.basename.
  - simpl. now apply StrFacts.basename_from_no_slash.
  - destruct (StrFacts.ends_with_slash_split dir Hd) as [q ->].
    rewrite StrFacts.append_assoc'. simpl.
    now apply StrFacts.basename_from_after_slash.
Qed.

(** Line 193 raises [IndexError] exactly for the blobs whose basename
    has fewer than three underscores. *)
Theorem batch_identifier_needs_three_underscores blob :
  batch_id_of blob = None <-> (underscores (Py.basename blob) < 3)%nat.
Proof.
  unfold batch_id_of, Py.re_split. rewrite nth_error_None, re_split_from_length. lia.
Qed.

(** The batch identifier of a blob named as GOES names its files,
    [<a>_<b>_<c>_s<start>_<rest>] under a prefix: the start of the
    scan, without its [s]. *)
Theorem batch_identifier_is_the_scan_start dir a b c d rest :
  dir = "" \/ Py.ends_with_slash dir = true ->
  underscores a = 0%nat -> underscores b = 0%nat -> underscores c = 0%nat ->
  underscores d = 0%nat ->
  has_slash (a ++ "_" ++ b ++ "_" ++ c ++ "_s" ++ d ++ "_" ++ rest) = false ->
  batch_id_of (dir ++ a ++ "_" ++ b ++ "_" ++ c ++ "_s" ++ d ++ "_" ++ rest)%string
  = Some d.
Proof.
  intros Hdir Ha Hb Hc Hd Hs. unfold batch_id_of.
  rewrite (basename_under dir _ Hdir Hs). unfold Py.re_split. simpl.
  rewrite (re_split_from_field a _ "" Ha).
  destruct (after_separator_field b (c ++ String "_" (String "s" (d ++ String "_" rest))) Hb)
    as (b' & Hb' & ->).
  rewrite (re_split_from_field b' _ "" Hb').
  destruct (after_separator_field c (String "s" (d ++ String "_" rest)) Hc)
    as (c' & Hc' & ->).
  rewrite (re_split_from_field c' _ "" Hc').
  simpl. rewrite (re_split_from_field d _ "" Hd). reflexivity.
Qed.

End BatchIdentifier.

(** The name of an infrared blob of sector M2. *)
Lemma batch_identifier_is_the_scan_start_witness :
  batch_id_of
    "ABI-L1b-RadM/2020/153/12/OR_ABI-L1b-RadM2-M6C13_G16_s20201531230249_e20201531230306_c20201531230341.nc"
  = Some "20201531230249".
Proof.
  apply (batch_identifier_is_the_scan_start "ABI-L1b-RadM/2020/153/12/" "OR"
           "ABI-L1b-RadM2-M6C13" "G16" "20201531230249"
           "e20201531230306_c20201531230341.nc");
    first [reflexivity | now right].
Defined.

(** ** The prefix and the stamp of an hour *)

Section HourNames.

Import Cal.

Lemma dec_field_ok n : 0 <= n < 10000 -> dec_ok n = true.
Proof.
  intros H. apply (StrFacts.all_below_spec (Z.to_nat 10000));
    [vm_compute; reflexivity | lia].
Qed.

Lemma day_field_ok n : 0 <= n < 1000 -> field_ok 3 n = true.
Proof.
  intros H. apply (StrFacts.all_below_spec (Z.to_nat 1000));
    [vm_compute; reflexivity | lia].
Qed.

(** Two strings without slash, each followed by a slash. *)
Lemma split_at_slash a : forall a' x x',
  has_slash a = false -> has_slash a' = false ->
  (a ++ String Py.slash x)%string = (a' ++ String Py.slash x')%string ->
  a = a' /\ x = x'.
Proof.
  induction a as [| ch a IH]; intros [| ch' a'] x x' Ha Ha' H; simpl in *.
  - inversion H. auto.
  - inversion H; subst. rewrite Ascii.eqb_refl in Ha'. discriminate.
  - inversion H; subst. rewrite Ascii.eqb_refl in Ha. discriminate.
  - inversion H; subst. apply orb_false_iff in Ha, Ha'.
    destruct (IH a' x x') as [-> ->]; tauto.
Qed.

Lemma length_append' (a b : string) :
  String.length (a ++ b) = (String.length a + String.length b)%nat.
Proof. induction a; simpl; congruence. Qed.

(** The fields of a valid date, as the prefix and the stamp write them. *)
Lemma hour_fields t :
  valid t = true ->
  dec_ok (year t) = true /\ field_ok 3 (tm_yday t) = true
  /\ field_ok 2 (hour t) = true.
Proof.
  intros V. pose proof (CalFacts.valid_bounds t V) as B.
  assert (Hy : 1 <= tm_yday t <= 366).
  { unfold tm_yday.
    pose proof (CalFacts.yday_range (year t) (month t) (day t) ltac:(lia) ltac:(lia)).
    unfold leap_day in *. destruct (is_leap (year t)); lia. }
  repeat split.
  - apply dec_field_ok. lia.
  - apply day_field_ok. lia.
  - apply StrFacts.short_field_ok. lia.
Qed.

Lemma same_fields a b :
  valid a = true -> valid b = true ->
  Py.dec (year a) = Py.dec (year b) ->
  Py.fmt0 3 (tm_yday a) = Py.fmt0 3 (tm_yday b) ->
  Py.fmt0 2 (hour a) = Py.fmt0 2 (hour b) ->
  year a = year b /\ month a = month b /\ day a = day b /\ hour a = hour b.
Proof.
  intros Va Vb Hy Hd Hh.
  destruct (hour_fields a Va) as (Ya & Da & Ha).
  destruct (hour_fields b Vb) as (Yb & Db & Hb).
  unfold dec_ok in Ya, Yb.
  apply andb_prop in Ya, Yb. destruct Ya as [_ Ya], Yb as [_ Yb].
  apply Z.eqb_eq in Ya, Yb.
  apply StrFacts.field_ok_spec in Da, Db, Ha, Hb.
  destruct Da as (_ & _ & Da), Db as (_ & _ & Db), Ha as (_ & _ & Ha), Hb as (_ & _ & Hb).
  assert (Ey : year a = year b) by congruence.
  assert (Ed : tm_yday a = tm_yday b) by congruence.
  assert (Eh : hour a = hour b) by congruence.
  assert (Eo : toordinal a = toordinal b).
  { unfold toordinal, ymd2ord. unfold tm_yday in Ed. rewrite Ey in Ed |- *. lia. }
  destruct (CalFacts.toordinal_inj a b Va Vb Eo) as (_ & Em & Edy). auto.
Qed.

(** The prefix of a listing names its hour: two valid cursors with the
    same prefix for a product are in the same hour of the same day, and
    so are two with the same stamp. The hours of a window are listed
    under prefixes and stamps of their own. *)
Theorem hour_prefix_names_the_hour prod a b :
  valid a = true -> valid b = true ->
  hour_prefix prod a = hour_prefix prod b \/ stamp a = stamp b ->
  year a = year b /\ month a = month b /\ day a = day b /\ hour a = hour b.
Proof.
  intros Va Vb H.
  destruct (hour_fields a Va) as (Ya & Da & Ha).
  destruct (hour_fields b Vb) as (Yb & Db & Hb).
  unfold dec_ok in Ya, Yb.
  apply andb_prop in Ya, Yb. destruct Ya as [Ya _], Yb as [Yb _].
  apply negb_true_iff in Ya, Yb.
  apply StrFacts.field_ok_spec in Da, Db, Ha, Hb.
  destruct Da as (La & Sa & _), Db as (Lb & Sb & _).
  destruct Ha as (Lha & Sha & _), Hb as (Lhb & Shb & _).
  destruct H as [H | H].
  - unfold hour_prefix in H. apply StrFacts.append_inv_head in H.
    change ("/" ++ ?x)%string with (String Py.slash x) in H.
    simpl in H. inversion H as [H1]. clear H.
    apply (split_at_slash _ _ _ _ Ya Yb) in H1. destruct H1 as [Ey H1].
    apply (split_at_slash _ _ _ _ Sa Sb) in H1. destruct H1 as [Ed H1].
    apply (split_at_slash _ _ _ _ Sha Shb) in H1. destruct H1 as [Eh _].
    now apply same_fields.
  - unfold stamp in H. simpl in H. inversion H as [H1]. clear H.
    assert (Hlen : String.length (Py.dec (year a)) = String.length (Py.dec (year b))).
    { apply (f_equal String.length) in H1.
      rewrite !length_append' in H1. lia. }
    apply (StrFacts.append_same_length _ _ _ _ Hlen) in H1. destruct H1 as [Ey H1].
    apply StrFacts.append_same_length in H1; [| congruence]. destruct H1 as [Ed Eh].
    now apply same_fields.
Qed.

End HourNames.

(** Two instants of the same hour have the prefix of that hour. *)
Lemma hour_prefix_names_the_hour_witness :
  hour_prefix "GLM-L2-LCFA" (mkdt 2020 6 1 12 30 0 0)
  = hour_prefix "GLM-L2-LCFA" (mkdt 2020 6 1 12 59 59 0)
  /\ year (mkdt 2020 6 1 12 30 0 0) = year (mkdt 2020 6 1 12 59 59 0)
  /\ month (mkdt 2020 6 1 12 30 0 0) = month (mkdt 2020 6 1 12 59 59 0)
  /\ day (mkdt 2020 6 1 12 30 0 0) = day (mkdt 2020 6 1 12 59 59 0)
  /\ hour (mkdt 2020 6 1 12 30 0 0) = hour (mkdt 2020 6 1 12 59 59 0).
Proof.
  split; [reflexivity |].
  apply (hour_prefix_names_the_hour "GLM-L2-LCFA"); [reflexivity | reflexivity |].
  left. reflexivity.
Defined.

(** ** Outside real time over a store that lists nothing *)

Section EmptyStore.

Import Cal.

Variable w : world.
Variable cfg : config.
Variable fuel : nat.

Hypothesis Hempty : forall k b prefix patterns, list_gcs w k b prefix patterns = [].

Local Arguments for_each {A} l body : simpl never.










End EmptyStore.


(** ** The flag [verbose] only prints *)

Section Frame.

Import Cal.

Variable w : world.
Variable cfg : config.
Variable fuel : nat.

Lemma framed_ret {A} (a : A) : framed (ret a).
Proof. intros pre s. reflexivity. Qed.

Lemma framed_raise {A} e : framed (@raise A e).
Proof. intros pre s. reflexivity. Qed.

Lemma framed_spin {A} : framed (@spin A).
Proof. intros pre s. reflexivity. Qed.

Lemma framed_bind {A B} (c : M A) (k : A -> M B) :
  framed c -> (forall a, framed (k a)) -> framed (bind c k).
Proof.
  intros Hc Hk pre s. unfold bind. rewrite Hc.
  destruct (c s) as [a s' | e s' | s']; simpl; [apply Hk | reflexivity | reflexivity].
Qed.

Lemma framed_emit e : framed (emit e).
Proof. intros pre s. unfold emit, relog. simpl. now rewrite <- app_assoc. Qed.

Lemma framed_print m : framed (print m).
Proof. apply framed_emit. Qed.

Lemma framed_set_files l : framed (set_files l).
Proof. intros pre s. reflexivity. Qed.

Lemma framed_set_outfile r : framed (set_outfile r).
Proof. intros pre s. reflexivity. Qed.

Lemma framed_set_outdir d : framed (set_outdir d).
Proof. intros pre s. reflexivity. Qed.

Lemma framed_read_files : framed read_files.
Proof. intros pre s. unfold read_files. simpl. now destruct (files s). Qed.

Lemma framed_read_outfile : framed read_outfile.
Proof. intros pre s. unfold read_outfile. simpl. now destruct (outfile s). Qed.

Lemma framed_read_outdir : framed read_outdir.
Proof. intros pre s. unfold read_outdir. simpl. now destruct (outdir s). Qed.

Lemma framed_item {A} (l : list A) i : framed (item l i).
Proof. unfold item. destruct (nth_error l i); [apply framed_ret | apply framed_raise]. Qed.

Lemma framed_last_item {A} (l : list A) : framed (last_item l).
Proof. unfold last_item. destruct (rev l); [apply framed_raise | apply framed_ret]. Qed.

Lemma framed_in_range o : framed (in_range o).
Proof. unfold in_range. destruct o; [apply framed_ret | apply framed_raise]. Qed.

Lemma framed_call_list prefix patterns : framed (call_list w cfg prefix patterns).
Proof. intros pre s. unfold call_list, relog. simpl. now rewrite <- app_assoc. Qed.

Lemma framed_call_download i od : framed (call_download w cfg i od).
Proof. intros pre s. unfold call_download, relog. simpl. now rewrite <- app_assoc. Qed.

Lemma framed_for_each {A} (l : list A) body :
  (forall a, framed (body a)) -> framed (for_each l body).
Proof.
  intros Hb. induction l as [| a r IH]; simpl; [apply framed_ret |].
  apply framed_bind; [apply Hb | intros _; exact IH].
Qed.

Lemma framed_wait n prefix patterns : framed (wait_nonempty w cfg n prefix patterns).
Proof.
  induction n as [| n IH]; simpl; [apply framed_spin |].
  apply framed_bind; [apply framed_call_list |]. intros l.
  apply framed_bind; [apply framed_set_files |]. intros _.
  destruct (Py.is_empty l); [exact IH | apply framed_ret].
Qed.

End Frame.

Create HintDb frame.

#[local] Hint Resolve framed_ret framed_raise framed_spin framed_emit framed_print
  framed_set_files framed_set_outfile framed_set_outdir framed_read_files
  framed_read_outfile framed_read_outdir framed_item framed_last_item framed_in_range
  framed_call_list framed_call_download framed_wait : frame.

Ltac frame_step :=
  first
    [ solve [auto with frame]
    | apply framed_bind; [| intros ?]
    | apply framed_for_each; intros ?
    | match goal with
      | |- framed (if ?b then _ else _) => destruct b
      | |- framed (match ?x with _ => _ end) => destruct x
      end ].

Section FrameBlocks.

Variable w : world.
Variable cfg : config.
Variable fuel : nat.

Lemma framed_hour_body rt c p t : framed (hour_body w cfg fuel rt c p t).
Proof.
  unfold hour_body, ir_block, ir_listing, vis_block, irdiff_block, channel_block,
    channel_listing, batch_id, store_images, glm_block, glm_current, glm_backfill,
    glm_lookahead, glm_realtime_transfer, transfer, transfer_backfill, fetch.
  repeat frame_step.
Qed.

Lemma framed_hour_loop rt c p d_end n : forall date m vis,
  framed (hour_loop w cfg fuel rt c p d_end n date m vis).
Proof.
  induction n as [| n IH]; intros date m vis; cbn [hour_loop]; [apply framed_spin |].
  destruct (Cal.geb d_end date); [| apply framed_ret].
  apply framed_bind; [apply framed_hour_body |]. intros _.
  apply framed_bind; [apply framed_in_range |]. intros date'. apply IH.
Qed.

End FrameBlocks.

Section Verbose.

Variable w : world.
Variable fuel : nat.

(** Nothing but the two messages of the start reads [verbose]. *)
Lemma run_core_verbose b cfg : run_core w (set_verbose b cfg) fuel = run_core w cfg fuel.
Proof. destruct cfg. reflexivity. Qed.

Lemma relog_nil s : relog [] s = s.
Proof. now destruct s. Qed.

Lemma relog_outcome_nil {A} (o : outcome A) : relog_outcome [] o = o.
Proof. destruct o; simpl; now rewrite relog_nil. Qed.

(** A run is its core after the messages of [verbose], or ends in the
    set-up before them. *)
Lemma run_trace_core cfg :
  exists header,
    Forall (fun e => is_io e = false) header
    /\ run_trace w cfg fuel init_state = relog_outcome header (run_core w cfg fuel).
Proof.
  unfold run_core.
  destruct (sector_setup cfg init_state) as [[p c] s1 | e s1 | s1] eqn:Hs.
  - destruct (sector_setup_done cfg p c init_state s1 Hs) as (-> & _).
    unfold window, is_rt. destruct (date1 cfg) as [d1 |] eqn:Hd.
    + exists (log (historical_start cfg d1)). split.
      * unfold historical_start. simpl.
        destruct (verbose cfg); repeat apply Forall_cons; try apply Forall_nil; reflexivity.
      * rewrite (run_trace_historical w cfg fuel d1 p c Hd Hs).
        rewrite <- (framed_hour_loop w cfg fuel false c p (window_end cfg d1) fuel d1 [] []
                      (log (historical_start cfg d1)) init_state).
        f_equal. unfold relog, historical_start. simpl. now rewrite app_nil_r.
    + destruct (rt_cursor (utcnow w) c) as [d |] eqn:Hc.
      * exists (log (rt_start cfg)). split.
        -- unfold rt_start. simpl.
           destruct (verbose cfg); repeat apply Forall_cons; try apply Forall_nil;
             reflexivity.
        -- rewrite (run_trace_realtime w cfg fuel p c d Hd Hs Hc).
           rewrite <- (framed_hour_loop w cfg fuel true c p d fuel d [] []
                         (log (rt_start cfg)) init_state).
           f_equal. unfold relog, rt_start. simpl. now rewrite app_nil_r.
      * exists []. split; [apply Forall_nil |].
        rewrite (run_trace_overflow w cfg fuel p c Hd Hs Hc). reflexivity.
  - exists []. split; [apply Forall_nil |]. rewrite relog_outcome_nil.
    unfold run_trace, bind. now rewrite Hs.
  - exists []. split; [apply Forall_nil |]. rewrite relog_outcome_nil.
    unfold run_trace, bind. now rewrite Hs.
Qed.

Lemma filter_messages header l :
  Forall (fun e => is_io e = false) header ->
  filter is_io (header ++ l) = filter is_io l.
Proof.
  induction 1 as [| e r He _ IH]; simpl; [reflexivity |]. now rewrite He.
Qed.

(** [verbose] only prints: with the flag on or off a run ends in the
    same way, with the same manifest or the same exception, after the
    same listings, directories and transfers, in the same order, and
    leaves the same [files], [outfile] and [outdir]. *)
Theorem verbose_only_prints b cfg :
  let o := run_download_goes_ir_vis_l1b_glm_l2_data w cfg fuel init_state in
  let o' := run_download_goes_ir_vis_l1b_glm_l2_data w (set_verbose b cfg) fuel
              init_state in
  result o' = result o
  /\ filter is_io (log (final o')) = filter is_io (log (final o))
  /\ nlist (final o') = nlist (final o) /\ ndl (final o') = ndl (final o)
  /\ files (final o') = files (final o) /\ outfile (final o') = outfile (final o)
  /\ outdir (final o') = outdir (final o).
Proof.
  cbv zeta. unfold run_download_goes_ir_vis_l1b_glm_l2_data, bind.
  destruct (run_trace_core cfg) as (h & Hh & ->).
  destruct (run_trace_core (set_verbose b cfg)) as (h' & Hh' & ->).
  rewrite run_core_verbose.
  destruct (run_core w cfg fuel) as [[m vis] s | e s | s]; simpl;
    rewrite !filter_messages by assumption; repeat split.
Qed.

End Verbose.
